(** * Portfolio optimisation: the orchestration layer of [optimizer_model.py]

    A shallow embedding of
    [openbb_terminal/portfolio/portfolio_optimization/optimizer_model.py]
    and the properties of it that the specification states.

    - Python [float] values are kept behind the interface [PyFloat]; it has
      two instances: [Binary64] (IEEE 754 binary64, what CPython computes
      with, executable) and [Exact] (real numbers, for the algebraic laws
      that hold only up to rounding in binary64).
    - An object ([Portfolio], [HCPortfolio]) is its attribute dictionary, a
      finite map from attribute names to values; [setattr] is an insertion.
    - A raised exception is a value of [exn] in the error monad [result].
    - The return-series provider, the market-attribute provider and the
      optimisation engine (riskfolio) are collaborators of the module: they
      are the fields of the record [Env], over which the theorems
      quantify.  The [log_start_end] decorator is not part of the function
      bodies and is not modelled. *)

From Stdlib Require Import ZArith Ascii String Floats.
From Stdlib Require Import Reals Lra.
From stdpp Require Import gmap strings list.

(** ** Strings: [str.upper] *)

(** [c.upper()] on one ASCII character: the letters a..z move to A..Z and
    every other ASCII character is kept.  Python's [str.upper] also moves
    letters outside ASCII; a string is a sequence of bytes here, and the
    bytes above 127 are kept, so that [upper] is [str.upper] on the ASCII
    strings ([is_ascii]) and only there.  No string outside ASCII has D, W
    or M as its upper case, so that [upper s] is one of the three exactly
    when [s.upper()] is. *)
Definition upper_ascii (c : ascii) : ascii :=
  let n := nat_of_ascii c in
  if (97 <=? n)%nat && (n <=? 122)%nat then ascii_of_nat (n - 32) else c.

(** [s.upper()] *)
Fixpoint upper (s : string) : string :=
  match s with
  | EmptyString => EmptyString
  | String c s' => String (upper_ascii c) (upper s')
  end.

(** [s.isascii()] *)
Definition is_ascii (s : string) : bool :=
  forallb (fun c => (nat_of_ascii c <? 128)%nat) (list_ascii_of_string s).

(** ** Python floats *)

(** The float operations the module uses.  [of_Z n] is the float of the
    integer [n] (an [int] operand of a mixed operation, or [float(n)]);
    [fpow_half x] is [x ** 0.5]; [fltb x y] is [x < y] and [feqb] is [==];
    [fround5 x] is the builtin [round(x, 5)]; [frint] is numpy's [rint]
    (to the nearest integral value, ties to even), from which
    [DataFrame.round] is built. *)
Class PyFloat (F : Type) := {
  of_Z : Z -> F;
  fadd : F -> F -> F;
  fsub : F -> F -> F;
  fmul : F -> F -> F;
  fdiv : F -> F -> F;
  fpow_half : F -> F;
  fltb : F -> F -> bool;
  feqb : F -> F -> bool;
  fround5 : F -> F;
  frint : F -> F
}.

(** What the theorems need of the comparisons: nothing is below itself
    (also true of NaN), and what [==] finds equal to zero, which in
    binary64 is [0.0] and [-0.0], is not above zero. *)
Class PyFloatLaws (F : Type) `{PyFloat F} : Prop := {
  fltb_irrefl : forall x : F, fltb x x = false;
  feqb_zero : forall x : F,
    feqb x (of_Z 0) = true -> fltb (of_Z 0) x = false
}.

(** A decimal literal [n/d] such as [0.65]: the float nearest to the
    fraction, which is the correctly rounded quotient of the two integers. *)
Definition decimal `{PyFloat F} (n d : Z) : F := fdiv (of_Z n) (of_Z d).

(** *** IEEE 754 binary64 *)

Module Binary64.

(** The nearest integer to [n/d], ties to even ([0 <= n], [0 < d]). *)
Definition rne_div (n d : Z) : Z :=
  let q := (n / d)%Z in
  let r := (n mod d)%Z in
  match (2 * r ?= d)%Z with
  | Lt => q
  | Gt => (q + 1)%Z
  | Eq => if Z.even q then q else (q + 1)%Z
  end.

(** The float nearest to the integer [z]. *)
Definition float_of_Z (z : Z) : float :=
  SF2Prim (binary_normalize prec emax z 0 false).

Definition signed (s : bool) (x : float) : float :=
  if s then PrimFloat.opp x else x.

(** [rint]: a float with a non-negative exponent is integral already;
    otherwise [m * 2^e] is rounded to an integer, which fits 53 bits. *)
Definition rint (x : float) : float :=
  match Prim2SF x with
  | S754_finite s m e =>
      if (0 <=? e)%Z then x
      else signed s (float_of_Z (rne_div (Z.pos m) (2 ^ (- e))))
  | _ => x
  end.

(** [round(x, 5)]: CPython rounds the exact value of [x] to 5 decimals
    (ties to even) and returns the float nearest to that decimal. *)
Definition round5 (x : float) : float :=
  match Prim2SF x with
  | S754_finite s m e =>
      if (0 <=? e)%Z then x
      else
        match rne_div (Z.pos m * 100000) (2 ^ (- e)) with
        | Z.pos q =>
            signed s (SF2Prim (SFdiv prec emax (S754_finite false q 0)
                                     (S754_finite false 100000 0)))
        | _ => signed s 0%float
        end
  | _ => x
  end.

(** [x ** 0.5] is C's [pow(x, 0.5)]; on the entries of [time_factor] it
    returns the correctly rounded square root. *)
#[global] Instance float_ops : PyFloat float := {|
  of_Z := float_of_Z;
  fadd := PrimFloat.add;
  fsub := PrimFloat.sub;
  fmul := PrimFloat.mul;
  fdiv := PrimFloat.div;
  fpow_half := PrimFloat.sqrt;
  fltb := PrimFloat.ltb;
  feqb := PrimFloat.eqb;
  fround5 := round5;
  frint := rint
|}.

End Binary64.

(** *** Exact arithmetic *)

Module Exact.

(** The nearest integer to a real, ties to even. *)
Definition rne (y : R) : Z :=
  let q := Int_part y in
  let r := (y - IZR q)%R in
  if Rlt_dec (2 * r) 1 then q
  else if Rlt_dec 1 (2 * r) then (q + 1)%Z
  else if Z.even q then q else (q + 1)%Z.

#[global] Instance real_ops : PyFloat R := {|
  of_Z := IZR;
  fadd := Rplus;
  fsub := Rminus;
  fmul := Rmult;
  fdiv := Rdiv;
  fpow_half := sqrt;
  fltb := fun x y => if Rlt_dec x y then true else false;
  feqb := fun x y => if Req_dec_T x y then true else false;
  fround5 := fun x => (IZR (rne (x * 100000)) / 100000)%R;
  frint := fun x => IZR (rne x)
|}.

End Exact.

(** *** Reading a float *)

(** Two floats given by sign, mantissa and exponent are the same float. *)
Definition sf_same (a b : spec_float) : bool :=
  match a, b with
  | S754_zero s1, S754_zero s2 => Bool.eqb s1 s2
  | S754_infinity s1, S754_infinity s2 => Bool.eqb s1 s2
  | S754_nan, S754_nan => true
  | S754_finite s1 m1 e1, S754_finite s2 m2 e2 =>
      Bool.eqb s1 s2 && (m1 =? m2)%positive && (e1 =? e2)%Z
  | _, _ => false
  end.

(** In binary64, [round(1 / n, 5)] is the float of the literal
    [k / 100000] for one of the two integers [k] next to [100000 / n],
    one that is half a unit away from it at most. *)
Definition round5_reciprocal_check (n : Z) : bool :=
  let r := Prim2SF (fround5 (fdiv (of_Z 1) (of_Z n))) in
  let q := (100000 / n)%Z in
  (sf_same r (Prim2SF (decimal q 100000))
   && (2 * (100000 - q * n) <=? n)%Z)
  || (sf_same r (Prim2SF (decimal (q + 1) 100000))
      && (2 * ((q + 1) * n - 100000) <=? n)%Z).

(** ** Exceptions *)

Inductive exn :=
  | KeyError (key : string)
  | AttributeError (attr : string)
  | ValueError (msg : string)
  | OverflowError (msg : string)
  | MemoryError (msg : string).

Inductive result (A : Type) :=
  | Ok (a : A)
  | Raise (e : exn).
Arguments Ok {A} a.
Arguments Raise {A} e.

(** Sequencing: an exception ends the computation. *)
Definition bind {A B} (m : result A) (k : A -> result B) : result B :=
  match m with
  | Ok a => k a
  | Raise e => Raise e
  end.

Notation "'let!' x ':=' m 'in' k" := (bind m (fun x => k))
  (at level 10, x pattern, m at level 100, k at level 200).

(** [d[k]] on a dict. *)
Definition getitem {V} (d : gmap string V) (k : string) : result V :=
  match d !! k with
  | Some v => Ok v
  | None => Raise (KeyError k)
  end.

(** [int(n / 3)] for an [int] [n]: the quotient [n / 3] is a float, the
    binary64 nearest to the fraction (ties to even), and [int] drops what
    is behind the point.  A quotient below 2^52 keeps its integer part in
    the float; from 2^52 on the float is an integer of 53 significant
    bits, and from 2^1024 on there is no float for it. *)
Definition int_third (n : Z) : result Z :=
  let a := Z.abs n in
  let q := (a / 3)%Z in
  let e := (Z.log2 q - 52)%Z in
  let m :=
    if (e <? 0)%Z then q
    else (Binary64.rne_div a (3 * 2 ^ e) * 2 ^ e)%Z in
  if (2 ^ 1024 <=? m)%Z
  then Raise (OverflowError "integer division result too large for a float")
  else Ok (Z.sgn n * m)%Z.

(** ** Tables and values *)

(** Row and column labels: a ticker or a date, or a position of a
    [RangeIndex]. *)
Inductive label :=
  | LStr (s : string)
  | LInt (i : Z).

Record DataFrame (F : Type) := {
  index : list label;
  columns : list label;
  values : list (list F)
}.
Arguments index {F} d.
Arguments columns {F} d.
Arguments values {F} d.

(** The values an attribute of a portfolio object holds. *)
Inductive pyval (F : Type) :=
  | VNone
  | VBool (b : bool)
  | VFloat (x : F)
  | VFrame (d : DataFrame F).
Arguments VNone {F}.
Arguments VBool {F} b.
Arguments VFloat {F} x.
Arguments VFrame {F} d.

(** The keyword arguments of [Portfolio.optimization]; [opt_l] is absent
    where the call leaves the default. *)
Record OptArgs (F : Type) := {
  opt_model : string;
  opt_rm : string;
  opt_obj : string;
  opt_rf : F;
  opt_l : option F;
  opt_hist : bool
}.
Arguments opt_model {F} o.
Arguments opt_rm {F} o.
Arguments opt_obj {F} o.
Arguments opt_rf {F} o.
Arguments opt_l {F} o.
Arguments opt_hist {F} o.

(** The keyword arguments of [Portfolio.rp_optimization]; [rp_b] is the
    1 x n matrix of risk contributions, or [None]. *)
Record RpArgs (F : Type) := {
  rp_model : string;
  rp_rm : string;
  rp_rf : F;
  rp_b : option (list (list F));
  rp_hist : bool
}.
Arguments rp_model {F} r.
Arguments rp_rm {F} r.
Arguments rp_rf {F} r.
Arguments rp_b {F} r.
Arguments rp_hist {F} r.

(** The keyword arguments of [Portfolio.rrp_optimization]. *)
Record RrpArgs (F : Type) := {
  rrp_model : string;
  rrp_version : string;
  rrp_l : F;
  rrp_b : option (list (list F));
  rrp_hist : bool
}.
Arguments rrp_model {F} r.
Arguments rrp_version {F} r.
Arguments rrp_l {F} r.
Arguments rrp_b {F} r.
Arguments rrp_hist {F} r.

(** The keyword arguments of [HCPortfolio.optimization]. *)
Record HcArgs (F : Type) := {
  hc_model : string;
  hc_codependence : string;
  hc_covariance : string;
  hc_obj : string;
  hc_rm : string;
  hc_rf : F;
  hc_l : F;
  hc_linkage : string;
  hc_k : Z;
  hc_max_k : Z;
  hc_bins_info : string;
  hc_alpha_tail : F;
  hc_leaf_order : bool;
  hc_d : F
}.
Arguments hc_model {F} h.
Arguments hc_codependence {F} h.
Arguments hc_covariance {F} h.
Arguments hc_obj {F} h.
Arguments hc_rm {F} h.
Arguments hc_rf {F} h.
Arguments hc_l {F} h.
Arguments hc_linkage {F} h.
Arguments hc_k {F} h.
Arguments hc_max_k {F} h.
Arguments hc_bins_info {F} h.
Arguments hc_alpha_tail {F} h.
Arguments hc_leaf_order {F} h.
Arguments hc_d {F} h.

(** ** The collaborators

    What the module imports and calls.  An engine answers with the weights
    frame (one row per asset, one column) or [None]. *)
Record Env (F : Type) := {
  (** [yahoo_finance_model.process_stocks(stocks, period, start, end)] *)
  process_stocks : list string -> string -> string -> string -> DataFrame F;
  (** [yahoo_finance_model.process_returns(prices, log_returns, freq,
      maxnan, threshold, method)] *)
  process_returns :
    DataFrame F -> bool -> string -> F -> F -> string -> DataFrame F;
  (** [yf.Ticker(stock).info[s_property]]: [None] when the key is missing,
      [Some None] when the value is Python's [None]. *)
  ticker_info : string -> string -> option (option F);
  (** [returns.std().to_frame().T] *)
  returns_std : DataFrame F -> DataFrame F;
  (** [Portfolio.Portfolio(returns=..., alpha=...)]: the attributes of the
      new object; [alpha] is absent where the call leaves the default. *)
  Portfolio_init : DataFrame F -> option F -> gmap string (pyval F);
  (** [port.assets_stats(method_mu=..., method_cov=..., d=...)] *)
  assets_stats :
    gmap string (pyval F) -> string -> string -> F -> gmap string (pyval F);
  (** [AuxFunctions.cov2corr] *)
  cov2corr : pyval F -> pyval F;
  (** [port.optimization(...)] *)
  optimization :
    gmap string (pyval F) -> OptArgs F -> option (list (string * F));
  (** [port.rp_optimization(...)] *)
  rp_optimization :
    gmap string (pyval F) -> RpArgs F -> option (list (string * F));
  (** [port.rrp_optimization(...)] *)
  rrp_optimization :
    gmap string (pyval F) -> RrpArgs F -> option (list (string * F));
  (** [HCPortfolio.HCPortfolio(returns, alpha, a_sim, beta, b_sim)] *)
  HCPortfolio_init :
    DataFrame F -> F -> Z -> option F -> option Z -> gmap string (pyval F);
  (** [HCPortfolio.optimization(...)] *)
  hc_optimization :
    gmap string (pyval F) -> HcArgs F -> option (list (string * F));
  (** The state of [np.random.RandomState]; [RandomState(seed=seed)],
      which raises for a seed it does not take; and
      [rs.dirichlet(alpha, size)], which returns the rows it drew and the
      next state, or raises. *)
  rng : Type;
  RandomState : Z -> result rng;
  dirichlet : rng -> list F -> Z -> result (list (list F) * rng)
}.
Arguments process_stocks {F} e.
Arguments process_returns {F} e.
Arguments ticker_info {F} e.
Arguments returns_std {F} e.
Arguments Portfolio_init {F} e.
Arguments assets_stats {F} e.
Arguments cov2corr {F} e.
Arguments optimization {F} e.
Arguments rp_optimization {F} e.
Arguments rrp_optimization {F} e.
Arguments HCPortfolio_init {F} e.
Arguments hc_optimization {F} e.
Arguments rng {F} e.
Arguments RandomState {F} e.
Arguments dirichlet {F} e.

(** [obj.name] on an object. *)
Definition getattr {V} (o : gmap string V) (name : string) : result V :=
  match o !! name with
  | Some v => Ok v
  | None => Raise (AttributeError name)
  end.

(** ** The module *)

Section Model.
Context {F : Type} `{PyFloat F}.

Definition upper_risk : gmap string string :=
  list_to_map
    [("MV", "upperdev"); ("MAD", "uppermad"); ("MSV", "uppersdev");
     ("FLPM", "upperflpm"); ("SLPM", "upperslpm"); ("CVaR", "upperCVaR");
     ("EVaR", "upperEVaR"); ("WR", "upperwr"); ("MDD", "uppermdd");
     ("ADD", "upperadd"); ("CDaR", "upperCDaR"); ("EDaR", "upperEDaR");
     ("UCI", "upperuci")].

Definition time_factor : gmap string F :=
  list_to_map [("D", of_Z 252); ("W", of_Z 52); ("M", of_Z 12)].

(** *** Weights frames *)

(** One entry of [DataFrame.round(5)]: numpy multiplies by [10**5],
    rounds to the nearest integral value and divides again. *)
Definition np_round5 (x : F) : F :=
  fdiv (frint (fmul x (of_Z 100000))) (of_Z 100000).

(** [weights.round(5)] *)
Definition weights_round5 (w : list (string * F)) : list (string * F) :=
  (fun kv => (kv.1, np_round5 kv.2)) <$> w.

(** [value * weights] *)
Definition weights_scale (value : F) (w : list (string * F))
  : list (string * F) :=
  (fun kv => (kv.1, fmul value kv.2)) <$> w.

(** [Series.to_dict()]: a later row replaces an earlier one of the same
    label. *)
Definition to_dict (w : list (string * F)) : gmap string F :=
  foldl (fun d kv => <[kv.1 := kv.2]> d) ∅ w.

(** [weights.squeeze().to_dict()]: a frame of one column squeezes to a
    Series, and a frame of one row and one column to a scalar, which has
    no [to_dict]. *)
Definition squeeze_to_dict (w : list (string * F)) : result (gmap string F) :=
  match w with
  | [_] => Raise (AttributeError "to_dict")
  | _ => Ok (to_dict w)
  end.

(** The end of the three classic entry points (lines 377-379):
    [if weights is not None: weights = weights.round(5);
     weights = weights.squeeze().to_dict()]. *)
Definition weights_result (weights : option (list (string * F)))
  : result (option (gmap string F)) :=
  match weights with
  | Some w =>
      let w := weights_round5 w in
      let! d := squeeze_to_dict w in
      Ok (Some d)
  | None => Ok None
  end.

(** The end of the risk parity and hierarchical entry points (lines
    755-759), which first scale by a positive [value]. *)
Definition scaled_weights_result (value : F)
    (weights : option (list (string * F)))
  : result (option (gmap string F)) :=
  match weights with
  | Some w =>
      let w := if fltb (of_Z 0) value then weights_scale value w else w in
      let w := weights_round5 w in
      let! d := squeeze_to_dict w in
      Ok (Some d)
  | None => Ok None
  end.

(** The eight running sums of numpy's [pairwise_sum] after [k] more
    blocks of eight entries, and the entries that are left. *)
Fixpoint add_blocks (k : nat) (r rest : list F) : list F * list F :=
  match k with
  | O => (r, rest)
  | S k => add_blocks k (zip_with fadd r (take 8 rest)) (drop 8 rest)
  end.

(** An array of 8 to 128 entries: eight running sums, entry [i] added to
    the sum of position [i mod 8], block after block; the eight sums
    added two by two; the entries after the last full block added one
    after the other. *)
Definition block_sum (a : list F) : F :=
  let '(r, rest) := add_blocks (length a / 8 - 1) (take 8 a) (drop 8 a) in
  let r i := nth i r (of_Z 0) in
  let res :=
    fadd (fadd (fadd (r 0%nat) (r 1%nat)) (fadd (r 2%nat) (r 3%nat)))
         (fadd (fadd (r 4%nat) (r 5%nat)) (fadd (r 6%nat) (r 7%nat))) in
  foldl fadd res rest.

(** numpy's [pairwise_sum] on a contiguous float64 array: fewer than 8
    entries are added one after the other from zero, up to 128 entries in
    blocks, and a longer array is cut in two, the first part a multiple of
    8 long.  [fuel] bounds the depth of the cuts; the length of the array
    is more than enough. *)
Fixpoint pairwise_sum (fuel : nat) (a : list F) : F :=
  let n := length a in
  if (n <? 8)%nat then foldl fadd (of_Z 0) a
  else if (n <=? 128)%nat then block_sum a
  else
    match fuel with
    | O => block_sum a
    | S fuel =>
        let n2 := (n / 2)%nat in
        let n2 := (n2 - n2 mod 8)%nat in
        fadd (pairwise_sum fuel (take n2 a)) (pairwise_sum fuel (drop n2 a))
    end.

(** [np.sum] of a float64 array: the reduction starts from the identity
    of the addition and adds the pairwise sum of all the entries to it.
    (Where numpy starts from [-0.0], the sums differ in the sign of a zero
    only.) *)
Definition np_sum (m : list (list F)) : F :=
  let a := concat m in
  fadd (of_Z 0) (pairwise_sum (length a) a).

(** [np.array(risk_cont).reshape(1, -1)] and then
    [risk_cont_ / np.sum(risk_cont_)]. *)
Definition normalise_risk_cont (risk_cont : list F) : list (list F) :=
  let risk_cont_ := [risk_cont] in
  let s := np_sum risk_cont_ in
  (fun row : list F => (fun x => fdiv x s) <$> row) <$> risk_cont_.

(** The budget constraints, as the three classic entry points set them
    (lines 343-349, 476-482 and their copy in the decorrelation path). *)
Definition budget_constraints (value value_short : F)
    (port : gmap string (pyval F)) : gmap string (pyval F) :=
  let port := <["upperlng" := VFloat value]> port in
  if fltb (of_Z 0) value_short then
    let port := <["sht" := VBool true]> port in
    let port := <["uppersht" := VFloat value_short]> port in
    <["budget" := VFloat (fsub value value_short)]> port
  else
    <["budget" := VFloat value]> port.

(** The target risk of a measure that is not a drawdown, in the units of
    one period: [float(target_risk) / time_factor[freq.upper()] ** 0.5]
    with the factor looked up (line 363). *)
Definition period_risk (factor target_risk : F) : F :=
  fdiv target_risk (fpow_half factor).

Variable env : Env F.
Variables (stocks : list string) (period start end_ : string)
          (log_returns : bool) (freq : string) (maxnan threshold : F)
          (method : string).

(** The first statement of every entry point but the last. *)
Definition stock_returns : DataFrame F :=
  let stock_prices := process_stocks env stocks period start end_ in
  process_returns env stock_prices log_returns freq maxnan threshold method.

(** *** [get_equal_weights] *)

Definition get_equal_weights (value : F)
  : result (option (gmap string F) * option (DataFrame F)) :=
  let weights :=
    foldl (fun d stock =>
             <[stock := fmul value
                          (fround5 (fdiv (of_Z 1)
                                         (of_Z (Z.of_nat
                                                  (length stocks)))))]> d)
          ∅ stocks in
  Ok (Some weights, Some stock_returns).

(** *** [get_property_weights] *)

(** The loop over the tickers: [prop] and [prop_sum] after it, or the
    [KeyError] of a ticker whose info has no [s_property]. *)
Fixpoint property_loop (s_property : string) (todo : list string)
    (prop : gmap string F) (prop_sum : F) : result (gmap string F * F) :=
  match todo with
  | [] => Ok (prop, prop_sum)
  | stock :: rest =>
      match ticker_info env stock s_property with
      | None => Raise (KeyError s_property)
      | Some info =>
          let stock_prop := default (of_Z 0) info in
          property_loop s_property rest
                        (<[stock := stock_prop]> prop)
                        (fadd prop_sum stock_prop)
      end
  end.

Definition get_property_weights (s_property : string) (value : F)
  : result (option (gmap string F) * option (DataFrame F)) :=
  let stock_returns := stock_returns in
  let! (prop, prop_sum) := property_loop s_property stocks ∅ (of_Z 0) in
  if feqb prop_sum (of_Z 0) then
    Ok (None, None)
  else
    let weights := (fun v => fdiv (fmul value v) prop_sum) <$> prop in
    Ok (Some weights, Some stock_returns).

(** *** [get_mean_risk_portfolio] *)

Section MeanRisk.
Variables (risk_measure objective : string)
          (risk_free_rate risk_aversion alpha target_return target_risk : F)
          (mean covariance : string) (d_ewma value value_short : F).

(** Lines 324-366: the portfolio object and the keyword arguments that
    [port.optimization] is called with. *)
Definition mean_risk_problem
  : result (gmap string (pyval F) * OptArgs F) :=
  let stock_returns := stock_returns in
  let! factor := getitem time_factor (upper freq) in
  let risk_free_rate := fdiv risk_free_rate factor in
  let port := Portfolio_init env stock_returns (Some alpha) in
  let port := assets_stats env port mean covariance d_ewma in
  let port := budget_constraints value value_short port in
  let model := "Classic" in
  let hist := true in
  let! port :=
    if fltb (of_Z (-1)) target_return then
      let! factor := getitem time_factor (upper freq) in
      Ok (<["lowerret" := VFloat (fdiv target_return factor)]> port)
    else Ok port in
  let! port :=
    if fltb (of_Z (-1)) target_risk then
      if negb (bool_decide
                 (risk_measure ∈ ["ADD"; "MDD"; "CDaR"; "EDaR"; "UCI"]))
      then
        let! name := getitem upper_risk risk_measure in
        let! factor := getitem time_factor (upper freq) in
        Ok (<[name := VFloat (period_risk factor target_risk)]> port)
      else
        let! name := getitem upper_risk risk_measure in
        Ok (<[name := VFloat target_risk]> port)
    else Ok port in
  Ok (port,
      {| opt_model := model; opt_rm := risk_measure; opt_obj := objective;
         opt_rf := risk_free_rate; opt_l := Some risk_aversion;
         opt_hist := hist |}).

Definition get_mean_risk_portfolio
  : result (option (gmap string F) * option (DataFrame F)) :=
  let! (port, args) := mean_risk_problem in
  let weights := optimization env port args in
  let! weights := weights_result weights in
  Ok (weights, Some stock_returns).
End MeanRisk.

(** *** [get_max_diversification_portfolio] *)

Section MaxDiversification.
Variables (covariance : string) (d_ewma value value_short : F).

Definition max_diversification_problem
  : result (gmap string (pyval F) * OptArgs F) :=
  let stock_returns := stock_returns in
  let port := Portfolio_init env stock_returns None in
  let port := assets_stats env port "hist" covariance d_ewma in
  let port := <["mu" := VFrame (returns_std env stock_returns)]> port in
  let port := budget_constraints value value_short port in
  Ok (port,
      {| opt_model := "Classic"; opt_rm := "MV"; opt_obj := "Sharpe";
         opt_rf := of_Z 0; opt_l := None; opt_hist := true |}).

Definition get_max_diversification_portfolio
  : result (option (gmap string F) * option (DataFrame F)) :=
  let! (port, args) := max_diversification_problem in
  let weights := optimization env port args in
  let! weights := weights_result weights in
  Ok (weights, Some stock_returns).

(** *** [get_max_decorrelation_portfolio] *)

Definition max_decorrelation_problem
  : result (gmap string (pyval F) * OptArgs F) :=
  let stock_returns := stock_returns in
  let port := Portfolio_init env stock_returns None in
  let port := assets_stats env port "hist" covariance d_ewma in
  let! cov := getattr port "cov" in
  let port := <["cov" := cov2corr env cov]> port in
  let port := budget_constraints value value_short port in
  Ok (port,
      {| opt_model := "Classic"; opt_rm := "MV"; opt_obj := "MinRisk";
         opt_rf := of_Z 0; opt_l := None; opt_hist := true |}).

Definition get_max_decorrelation_portfolio
  : result (option (gmap string F) * option (DataFrame F)) :=
  let! (port, args) := max_decorrelation_problem in
  let weights := optimization env port args in
  let! weights := weights_result weights in
  Ok (weights, Some stock_returns).
End MaxDiversification.

(** *** [get_risk_parity_portfolio] *)

Section RiskParity.
Variables (risk_measure : string) (risk_cont : option (list F))
          (risk_free_rate alpha target_return : F)
          (mean covariance : string) (d_ewma value : F).

Definition risk_parity_problem
  : result (gmap string (pyval F) * RpArgs F) :=
  let stock_returns := stock_returns in
  let! factor := getitem time_factor (upper freq) in
  let risk_free_rate := fdiv risk_free_rate factor in
  let port := Portfolio_init env stock_returns (Some alpha) in
  let port := assets_stats env port mean covariance d_ewma in
  let model := "Classic" in
  let hist := true in
  let risk_cont_ :=
    match risk_cont with
    | None => None
    | Some rc => Some (normalise_risk_cont rc)
    end in
  let! port :=
    if fltb (of_Z (-1)) target_return then
      let! factor := getitem time_factor (upper freq) in
      Ok (<["lowerret" := VFloat (fdiv target_return factor)]> port)
    else Ok port in
  Ok (port,
      {| rp_model := model; rp_rm := risk_measure;
         rp_rf := risk_free_rate; rp_b := risk_cont_; rp_hist := hist |}).

Definition get_risk_parity_portfolio
  : result (option (gmap string F) * option (DataFrame F)) :=
  let! (port, args) := risk_parity_problem in
  let weights := rp_optimization env port args in
  let! weights := scaled_weights_result value weights in
  Ok (weights, Some stock_returns).
End RiskParity.

(** *** [get_rel_risk_parity_portfolio] *)

Section RelRiskParity.
Variables (version : string) (risk_cont : option (list F))
          (penal_factor target_return : F)
          (mean covariance : string) (d_ewma value : F).

Definition rel_risk_parity_problem
  : result (gmap string (pyval F) * RrpArgs F) :=
  let stock_returns := stock_returns in
  let port := Portfolio_init env stock_returns None in
  let port := assets_stats env port mean covariance d_ewma in
  let model := "Classic" in
  let hist := true in
  let risk_cont_ :=
    match risk_cont with
    | None => None
    | Some rc => Some (normalise_risk_cont rc)
    end in
  let! port :=
    if fltb (of_Z (-1)) target_return then
      let! factor := getitem time_factor (upper freq) in
      Ok (<["lowerret" := VFloat (fdiv target_return factor)]> port)
    else Ok port in
  Ok (port,
      {| rrp_model := model; rrp_version := version;
         rrp_l := penal_factor; rrp_b := risk_cont_; rrp_hist := hist |}).

Definition get_rel_risk_parity_portfolio
  : result (option (gmap string F) * option (DataFrame F)) :=
  let! (port, args) := rel_risk_parity_problem in
  let weights := rrp_optimization env port args in
  let! weights := scaled_weights_result value weights in
  Ok (weights, Some stock_returns).
End RelRiskParity.

(** *** [get_hcp_portfolio] *)

Section Hcp.
Variables (model codependence covariance objective risk_measure : string)
          (risk_free_rate risk_aversion alpha : F) (a_sim : Z)
          (beta : option F) (b_sim : option Z) (linkage : string)
          (k max_k : Z) (bins_info : string) (alpha_tail : F)
          (leaf_order : bool) (d_ewma value : F).

Definition hcp_problem : result (gmap string (pyval F) * HcArgs F) :=
  let stock_returns := stock_returns in
  let linkage :=
    if bool_decide (linkage = "dbht") then upper linkage else linkage in
  let! factor := getitem time_factor (upper freq) in
  let risk_free_rate := fdiv risk_free_rate factor in
  let port := HCPortfolio_init env stock_returns alpha a_sim beta b_sim in
  Ok (port,
      {| hc_model := model; hc_codependence := codependence;
         hc_covariance := covariance; hc_obj := objective;
         hc_rm := risk_measure; hc_rf := risk_free_rate;
         hc_l := risk_aversion; hc_linkage := linkage; hc_k := k;
         hc_max_k := max_k; hc_bins_info := bins_info;
         hc_alpha_tail := alpha_tail; hc_leaf_order := leaf_order;
         hc_d := d_ewma |}).

Definition get_hcp_portfolio
  : result (option (gmap string F) * option (DataFrame F)) :=
  let! (port, args) := hcp_problem in
  let weights := hc_optimization env port args in
  let! weights := scaled_weights_result value weights in
  Ok (weights, Some stock_returns).
End Hcp.

(** *** [generate_random_portfolios] *)

(** [np.ones(n)] *)
Definition np_ones (n : nat) : list F := replicate n (of_Z 1).

(** [np.identity(n)] *)
Definition np_identity (n : nat) : list (list F) :=
  (fun i => (fun j => if (i =? j)%nat then of_Z 1 else of_Z 0) <$> seq 0 n)
    <$> seq 0 n.

(** [pd.DataFrame(w, columns=assets)]: the rows are numbered. *)
Definition frame_of_rows (w : list (list F)) (assets : list string)
  : DataFrame F :=
  {| index := (fun i => LInt (Z.of_nat i)) <$> seq 0 (length w);
     columns := LStr <$> assets;
     values := w |}.

(** [df.T] *)
Definition frame_T (df : DataFrame F) : DataFrame F :=
  {| index := columns df;
     columns := index df;
     values :=
       (fun j => (fun row : list F => nth j row (of_Z 0)) <$> values df)
         <$> seq 0 (length (columns df)) |}.

(** [value * w] on a frame *)
Definition frame_scale (value : F) (df : DataFrame F) : DataFrame F :=
  {| index := index df;
     columns := columns df;
     values := (fun row : list F => fmul value <$> row) <$> values df |}.

(** The three batches are drawn one after the other from the same
    generator. *)
Definition generate_random_portfolios (n_portfolios seed : Z) (value : F)
  : result (DataFrame F) :=
  let assets := stocks in
  let! n_samples := int_third n_portfolios in
  let! rs := RandomState env seed in
  let! (w1, rs) := dirichlet env rs (np_ones (length assets)) n_samples in
  let! (w2, rs) :=
    dirichlet env rs
              ((fun x => fmul x (decimal 65 100)) <$> np_ones (length assets))
              n_samples in
  let! (w3, rs) :=
    dirichlet env rs
              ((fun x => fmul x (of_Z 2)) <$> np_ones (length assets))
              n_samples in
  let w4 := np_identity (length assets) in
  let w := w1 ++ w2 ++ w3 ++ w4 in
  let w := frame_T (frame_of_rows w assets) in
  let w := if fltb (of_Z 0) value then frame_scale value w else w in
  Ok w.

End Model.

(** ** What the specification asks, in its words *)

(** The budget attributes of the portfolio object [port] handed to the
    engine, [before] being the object as the estimation step left it: the
    long bound is [value]; a positive [value_short] enables shorting, is
    the short bound, and comes off the budget; with [value_short == 0]
    (in binary64 [0.0] and [-0.0]) the budget is [value] and the short
    flag is the one the object had. *)
Definition budget_contract `{PyFloat F} (value value_short : F)
    (before port : gmap string (pyval F)) : Prop :=
  port !! "upperlng" = Some (VFloat value) /\
  (fltb (of_Z 0) value_short = true ->
   port !! "sht" = Some (VBool true) /\
   port !! "uppersht" = Some (VFloat value_short) /\
   port !! "budget" = Some (VFloat (fsub value value_short))) /\
  (feqb value_short (of_Z 0) = true ->
   port !! "budget" = Some (VFloat value) /\
   port !! "sht" = before !! "sht").

(** What numpy promises of an array that [dirichlet] returns: it was asked
    for a size that is not negative, and it has [size] rows, each as long
    as [alpha].  (Whether a call returns is numpy's to say: it raises for
    a negative size, for an [alpha] with an entry that is not positive
    and for a size that memory cannot hold.) *)
Definition dirichlet_shape {F : Type} (env : Env F) : Prop :=
  forall (rs rs' : rng env) (alpha : list F) (n : Z) (w : list (list F)),
    dirichlet env rs alpha n = Ok (w, rs') ->
    (0 <= n)%Z /\
    length w = Z.to_nat n /\
    Forall (fun row => length row = length alpha) w.

(** [value * x] when [value > 0], and [x] otherwise. *)
Definition scaled `{PyFloat F} (value x : F) : F :=
  if fltb (of_Z 0) value then fmul value x else x.

(** The table of portfolios made of the rows [draws] and the unit
    vectors: a row for each asset, a numbered column for each draw and
    then for each asset; the column of a draw holds the draw, the column
    of asset [j] holds 1 in the row of [j] and 0 elsewhere, and every
    entry is multiplied by a positive [value]. *)
Definition portfolios_table `{PyFloat F} (value : F) (stocks : list string)
    (draws : list (list F)) (table : DataFrame F) : Prop :=
  index table = LStr <$> stocks /\
  columns table
  = (fun c => LInt (Z.of_nat c)) <$> seq 0 (length draws + length stocks) /\
  length (values table) = length stocks /\
  forall i,
    (i < length stocks)%nat ->
    exists row,
      values table !! i = Some row /\
      length row = (length draws + length stocks)%nat /\
      (forall c draw x,
          draws !! c = Some draw ->
          draw !! i = Some x ->
          row !! c = Some (scaled value x)) /\
      (forall j,
          (j < length stocks)%nat ->
          row !! (length draws + j)%nat
          = Some (scaled value (if (j =? i)%nat then of_Z 1 else of_Z 0))).

(** ** Sample collaborators

    A small concrete [Env], on which the entry points run: two dated rows
    of returns, a constructor with riskfolio's defaults, an engine that
    answers with [answer], market attributes given by [info], and a
    generator that takes the seeds and the arguments numpy takes, up to a
    size of 2^31, and whose every draw is the mean of the
    distribution. *)
Module Sample.
Section Sample.
Context {F : Type} `{PyFloat F}.

Definition returns : DataFrame F :=
  {| index := [LStr "2022-01-04"; LStr "2022"];
     columns := [LStr "A"; LStr "B"];
     values := [[decimal 1 2; decimal 1 4];
                [decimal (-1) 4; decimal (-1) 8]] |}.

Definition mean_draw (alpha : list F) : list F :=
  (fun a => fdiv a (foldl fadd (of_Z 0) alpha)) <$> alpha.

Definition env (info : string -> option (option F))
    (answer : option (list (string * F))) : Env F :=
  {| process_stocks := fun stocks _ _ _ =>
       {| index := [LStr "2022-01-03"; LStr "2022-01-04";
                    LStr "2022"];
          columns := LStr <$> stocks;
          values := [] |};
     process_returns := fun prices _ _ _ _ _ =>
       {| index := index returns;
          columns := columns prices;
          values := values returns |};
     ticker_info := fun stock _ => info stock;
     returns_std := fun r =>
       {| index := [LInt 0]; columns := columns r;
          values := [[decimal 1 2; decimal 1 4]] |};
     Portfolio_init := fun r alpha =>
       <["returns" := VFrame r]>
         (<["alpha" := VFloat (default (decimal 5 100) alpha)]>
            (<["sht" := VBool false]>
               (<["upperlng" := VFloat (of_Z 1)]>
                  (<["budget" := VFloat (of_Z 1)]> ∅))));
     assets_stats := fun port _ _ _ =>
       <["mu" := VFrame returns]> (<["cov" := VFrame returns]> port);
     cov2corr := fun c => c;
     optimization := fun _ _ => answer;
     rp_optimization := fun _ _ => answer;
     rrp_optimization := fun _ _ => answer;
     HCPortfolio_init := fun r alpha _ _ _ =>
       <["returns" := VFrame r]> (<["alpha" := VFloat alpha]> ∅);
     hc_optimization := fun _ _ => answer;
     rng := Z;
     RandomState := fun seed =>
       if ((0 <=? seed) && (seed <? 2 ^ 32))%Z then Ok seed
       else Raise (ValueError "Seed must be between 0 and 2**32 - 1");
     dirichlet := fun rs alpha n =>
       if (n <? 0)%Z then Raise (ValueError "negative dimensions")
       else if existsb (fun a => fltb a (of_Z 0) || feqb a (of_Z 0)) alpha
       then Raise (ValueError "alpha <= 0")
       else if (2 ^ 31 <=? n)%Z then Raise (MemoryError "dirichlet")
       else Ok (replicate (Z.to_nat n) (mean_draw alpha), (rs + 1)%Z) |}.

(** No ticker has the attribute. *)
Definition no_info (stock : string) : option (option F) := Some None.

(** The market capitalisations of the two tickers. *)
Definition caps (stock : string) : option (option F) :=
  if bool_decide (stock = "A") then Some (Some (of_Z 3))
  else Some (Some (of_Z 1)).
End Sample.

(** The binary64 collaborators of the runs below: an engine that finds no
    solution, and the same where no ticker has the attribute. *)
Definition infeasible : Env float := env caps None.
Definition unlisted : Env float := env no_info None.

(** An engine that answers with the weights [w]. *)
Definition answering (w : list (string * float)) : Env float :=
  env caps (Some w).

(** A provider that knows the frequency codes in upper case only: any
    other code gives a frame without rows. *)
Definition case_sensitive : Env float :=
  {| process_stocks := process_stocks infeasible;
     process_returns := fun prices log_returns freq maxnan threshold method =>
       if bool_decide (freq ∈ ["D"; "W"; "M"])
       then process_returns infeasible prices log_returns freq maxnan
              threshold method
       else {| index := []; columns := columns prices; values := [] |};
     ticker_info := ticker_info infeasible;
     returns_std := returns_std infeasible;
     Portfolio_init := Portfolio_init infeasible;
     assets_stats := assets_stats infeasible;
     cov2corr := cov2corr infeasible;
     optimization := optimization infeasible;
     rp_optimization := rp_optimization infeasible;
     rrp_optimization := rrp_optimization infeasible;
     HCPortfolio_init := HCPortfolio_init infeasible;
     hc_optimization := hc_optimization infeasible;
     rng := rng infeasible;
     RandomState := RandomState infeasible;
     dirichlet := dirichlet infeasible |}.
End Sample.

(** The dict made of a weights frame [w]: a key for every ticker of [w],
    holding [f] of its weight, and no other key. *)
Definition answer_dict {F : Type} (w : list (string * F)) (f : F -> F)
    (weights : gmap string F) : Prop :=
  (forall ticker x, (ticker, x) ∈ w -> weights !! ticker = Some (f x)) /\
  (forall ticker, ticker ∉ w.*1 -> weights !! ticker = None).

(** [sum(weights.values())] in exact arithmetic. *)
Definition dict_total (d : gmap string R) : R :=
  foldr Rplus 0%R (map_to_list d).*2.

(** * Properties *)

(** ** The two arithmetics obey the law of the comparison *)

Lemma SFltb_irrefl (a : spec_float) : SFltb a a = false.
Proof.
  unfold SFltb, SFcompare.
  destruct a as [s | s | | s m e]; try destruct s; try reflexivity;
    rewrite Z.compare_refl, Pos.compare_cont_refl; reflexivity.
Qed.

Lemma SFeqb_zero (a : spec_float) :
  SFeqb a (S754_zero false) = true -> SFltb (S754_zero false) a = false.
Proof.
  unfold SFeqb, SFltb, SFcompare.
  destruct a as [s | s | | s m e]; try destruct s; try reflexivity;
    discriminate.
Qed.

#[global] Instance float_laws : PyFloatLaws float.
Proof.
  constructor.
  - intros x. cbn. rewrite ltb_spec. apply SFltb_irrefl.
  - intros x. cbn. rewrite FloatAxioms.eqb_spec, FloatAxioms.ltb_spec.
    change (Prim2SF (Binary64.float_of_Z 0)) with (S754_zero false).
    apply SFeqb_zero.
Qed.

#[global] Instance real_laws : PyFloatLaws R.
Proof.
  constructor.
  - intros x. cbn. destruct (Rlt_dec x x) as [Hlt | _].
    + exfalso. exact (Rlt_irrefl x Hlt).
    + reflexivity.
  - intros x. cbn. destruct (Req_dec_T x 0) as [-> | _]; [| discriminate].
    intros _. destruct (Rlt_dec 0 0) as [Hlt | _]; [| reflexivity].
    exfalso. exact (Rlt_irrefl 0 Hlt).
Qed.

(** ** The tables *)

Section Tables.
Context {F : Type} `{PyFloat F}.

(** The frequency codes and their factors. *)
Lemma time_factor_lookup (code : string) (n : Z) :
  (code, n) ∈ [("D", 252%Z); ("W", 52%Z); ("M", 12%Z)] ->
  time_factor (F := F) !! code = Some (of_Z n).
Proof.
  intros Hin. repeat (apply elem_of_cons in Hin as [Heq | Hin]);
    try (injection Heq as -> ->; reflexivity).
  apply elem_of_nil in Hin. destruct Hin.
Qed.

(** No attribute named by [upper_risk] is one of the budget attributes. *)
Lemma upper_risk_names (risk_measure name : string) :
  upper_risk !! risk_measure = Some name ->
  name ∈ ["upperdev"; "uppermad"; "uppersdev"; "upperflpm"; "upperslpm";
          "upperCVaR"; "upperEVaR"; "upperwr"; "uppermdd"; "upperadd";
          "upperCDaR"; "upperEDaR"; "upperuci"].
Proof.
  intros Hlook.
  assert (Hin : (risk_measure, name) ∈ map_to_list upper_risk)
    by (apply elem_of_map_to_list; exact Hlook).
  revert Hin. unfold upper_risk. vm_compute map_to_list.
  intros Hin. repeat (apply elem_of_cons in Hin as [Heq | Hin];
    [injection Heq as -> ->; set_solver |]).
  apply elem_of_nil in Hin. destruct Hin.
Qed.

Lemma upper_idempotent_ascii (c : ascii) :
  upper_ascii (upper_ascii c) = upper_ascii c.
Proof.
  destruct c as [[] [] [] [] [] [] [] []]; reflexivity.
Qed.

(** [s.upper().upper() == s.upper()] *)
Lemma upper_idempotent (s : string) : upper (upper s) = upper s.
Proof.
  induction s as [| c s IH]; simpl.
  - reflexivity.
  - rewrite upper_idempotent_ascii, IH. reflexivity.
Qed.

(** The cuts of [pairwise_sum] never use up a fuel of the length of the
    array: any two such fuels give the same sum. *)
Lemma pairwise_sum_fuel (f1 f2 : nat) (a : list F) :
  (length a <= f1)%nat -> (length a <= f2)%nat ->
  pairwise_sum f1 a = pairwise_sum f2 a.
Proof.
  revert f2 a. induction f1 as [| f1 IH]; intros f2 a Hf1 Hf2.
  - destruct a; [| cbn in Hf1; lia]. destruct f2; reflexivity.
  - destruct f2 as [| f2].
    { destruct a; [reflexivity | cbn in Hf2; lia]. }
    cbn [pairwise_sum].
    destruct (length a <? 8)%nat eqn:H8; [reflexivity |].
    destruct (length a <=? 128)%nat eqn:H128; [reflexivity |].
    apply Nat.leb_gt in H128.
    assert (Hn2 : (0 < length a / 2 - (length a / 2) mod 8 < length a)%nat).
    { pose proof (Nat.Div0.mod_le (length a / 2) 8).
      pose proof (Nat.mod_upper_bound (length a / 2) 8 ltac:(lia)).
      pose proof (Nat.Div0.div_lt_upper_bound (length a) 2 (length a)).
      assert (64 <= length a / 2)%nat by (apply Nat.div_le_lower_bound; lia).
      lia. }
    f_equal; apply IH; rewrite ?length_take, ?length_drop; lia.
Qed.
End Tables.

(** ** Building blocks *)

(** Case analysis on membership in a list given by its elements. *)
Ltac in_list H :=
  repeat (apply elem_of_cons in H as [H | H]; [try subst |]);
  [.. | apply elem_of_nil in H; destruct H].

(** Case analysis on the first computation of a sequence that returns. *)
Tactic Notation "case_bind" "as" simple_intropattern(pat) :=
  match goal with
  | |- context [bind ?m _] =>
      destruct m as [pat | ?]; cbn [bind]; [| discriminate]
  end.

Lemma getitem_Some {V} (d : gmap string V) (k : string) (v : V) :
  d !! k = Some v -> getitem d k = Ok v.
Proof. intros Hlook. unfold getitem. rewrite Hlook. reflexivity. Qed.

Lemma getitem_Ok {V} (d : gmap string V) (k : string) (v : V) :
  getitem d k = Ok v -> d !! k = Some v.
Proof.
  unfold getitem.
  destruct (d !! k); [intros [= ->]; reflexivity | discriminate].
Qed.

Lemma bind_Ok {A B} (m : result A) (k : A -> result B) (b : B) :
  bind m k = Ok b -> exists a, m = Ok a /\ k a = Ok b.
Proof. destruct m as [a | e]; simpl; [eauto | discriminate]. Qed.

(** Below 3 * 2^52 in size, [int(n / 3)] is the quotient truncated
    towards zero. *)
Lemma int_third_small (n : Z) :
  (Z.abs n < 3 * 2 ^ 52)%Z -> int_third n = Ok (n ÷ 3)%Z.
Proof.
  intros Hn. unfold int_third.
  assert (Hq : (0 <= Z.abs n / 3 < 2 ^ 52)%Z).
  { split; [apply Z.div_pos; lia |]. apply Z.div_lt_upper_bound; lia. }
  assert (He : (Z.log2 (Z.abs n / 3) - 52 <? 0)%Z = true).
  { apply Z.ltb_lt.
    destruct (Z.eq_dec (Z.abs n / 3)%Z 0%Z) as [-> | Hne]; [reflexivity |].
    assert (Z.log2 (Z.abs n / 3) < 52)%Z by (apply Z.log2_lt_pow2; lia).
    lia. }
  rewrite He.
  assert (Hsmall : (2 ^ 1024 <=? Z.abs n / 3)%Z = false).
  { apply Z.leb_gt. apply Z.lt_trans with (2 ^ 52)%Z; [lia | reflexivity]. }
  rewrite Hsmall. f_equal.
  rewrite Z.quot_div by lia. change (Z.sgn 3) with 1%Z.
  change (Z.abs 3) with 3%Z. lia.
Qed.

Section BudgetConstraints.
Context {F : Type} `{PyFloat F}.
Variables (value value_short : F) (port : gmap string (pyval F)).

Lemma budget_upperlng :
  budget_constraints value value_short port !! "upperlng"
  = Some (VFloat value).
Proof.
  unfold budget_constraints. destruct (fltb (of_Z 0) value_short).
  - rewrite !lookup_insert_ne by done. apply lookup_insert_eq.
  - rewrite lookup_insert_ne by done. apply lookup_insert_eq.
Qed.

Lemma budget_short :
  fltb (of_Z 0) value_short = true ->
  budget_constraints value value_short port !! "sht" = Some (VBool true) /\
  budget_constraints value value_short port !! "uppersht"
  = Some (VFloat value_short) /\
  budget_constraints value value_short port !! "budget"
  = Some (VFloat (fsub value value_short)).
Proof.
  intros Hshort. unfold budget_constraints. rewrite Hshort.
  repeat split.
  - rewrite !lookup_insert_ne by done. apply lookup_insert_eq.
  - rewrite lookup_insert_ne by done. apply lookup_insert_eq.
  - apply lookup_insert_eq.
Qed.

Lemma budget_long_only :
  fltb (of_Z 0) value_short = false ->
  budget_constraints value value_short port !! "budget"
  = Some (VFloat value) /\
  budget_constraints value value_short port !! "sht" = port !! "sht" /\
  budget_constraints value value_short port !! "uppersht"
  = port !! "uppersht".
Proof.
  intros Hlong. unfold budget_constraints. rewrite Hlong.
  repeat split.
  - apply lookup_insert_eq.
  - rewrite !lookup_insert_ne by done. reflexivity.
  - rewrite !lookup_insert_ne by done. reflexivity.
Qed.
End BudgetConstraints.

(** ** The entry points *)

Section Properties.
Context {F : Type} `{PyFloat F}.
Variables (env : Env F).
Variables (stocks : list string) (period start end_ : string)
          (log_returns : bool) (freq : string) (maxnan threshold : F)
          (method : string).
Variables (risk_measure objective : string)
          (risk_free_rate risk_aversion alpha target_return target_risk : F)
          (mean covariance : string) (d_ewma value value_short : F).
Variables (risk_cont : option (list F)) (version : string) (penal_factor : F).
Variables (model codependence : string) (a_sim : Z) (beta : option F)
          (b_sim : option Z) (linkage : string) (k max_k : Z)
          (bins_info : string) (alpha_tail : F) (leaf_order : bool).
Variables (s_property : string) (n_portfolios seed : Z).

(** What [mean_risk_problem] returns when it returns. *)
Lemma mean_risk_problem_inv (port : gmap string (pyval F))
    (args : OptArgs F) :
  mean_risk_problem env stocks period start end_ log_returns freq maxnan
    threshold method risk_measure objective risk_free_rate risk_aversion
    alpha target_return target_risk mean covariance d_ewma value value_short
  = Ok (port, args) ->
  exists factor port1 port2,
    time_factor !! upper freq = Some factor /\
    port1 = budget_constraints value value_short
              (assets_stats env
                 (Portfolio_init env
                    (stock_returns env stocks period start end_ log_returns
                       freq maxnan threshold method) (Some alpha))
                 mean covariance d_ewma) /\
    port2 = (if fltb (of_Z (-1)) target_return
             then <["lowerret" := VFloat (fdiv target_return factor)]> port1
             else port1) /\
    (if fltb (of_Z (-1)) target_risk
     then exists name,
            upper_risk !! risk_measure = Some name /\
            port = <[name := VFloat
                       (if bool_decide
                             (risk_measure
                                ∈ ["ADD"; "MDD"; "CDaR"; "EDaR"; "UCI"])
                        then target_risk
                        else period_risk factor target_risk)]> port2
     else port = port2) /\
    args = {| opt_model := "Classic"; opt_rm := risk_measure;
              opt_obj := objective; opt_rf := fdiv risk_free_rate factor;
              opt_l := Some risk_aversion; opt_hist := true |}.
Proof.
  unfold mean_risk_problem. intros Hok.
  apply bind_Ok in Hok as (factor & Hfactor & Hok).
  apply getitem_Ok in Hfactor.
  exists factor. do 2 eexists. split; [exact Hfactor |].
  split; [reflexivity |]. split; [reflexivity |].
  unfold getitem in Hok. rewrite Hfactor in Hok.
  destruct (fltb (of_Z (-1)) target_return); cbn [bind] in Hok;
    (destruct (fltb (of_Z (-1)) target_risk);
     [| injection Hok as <- <-; split; reflexivity]);
    (destruct (upper_risk !! risk_measure) as [name |] eqn:Hname;
     [| destruct (bool_decide _) in Hok; discriminate]);
    destruct (bool_decide _); cbn [bind negb] in Hok;
    injection Hok as <- <-;
    (split; [exists name; split; reflexivity | reflexivity]).
Qed.

Lemma mean_risk_problem_ok (factor : F) :
  time_factor !! upper freq = Some factor ->
  (fltb (of_Z (-1)) target_risk = true ->
   is_Some (upper_risk !! risk_measure)) ->
  exists port args,
    mean_risk_problem env stocks period start end_ log_returns freq maxnan
      threshold method risk_measure objective risk_free_rate risk_aversion
      alpha target_return target_risk mean covariance d_ewma value value_short
    = Ok (port, args).
Proof.
  intros Hfactor Hname. unfold mean_risk_problem, getitem.
  rewrite Hfactor. cbn [bind].
  destruct (fltb (of_Z (-1)) target_return); cbn [bind];
    (destruct (fltb (of_Z (-1)) target_risk);
     [destruct Hname as [name ->]; [reflexivity |];
      destruct (bool_decide _); cbn [bind negb] |]);
    eauto.
Qed.

(** The entry point is the problem, the engine and the post-processing. *)
Lemma get_mean_risk_portfolio_eq (port : gmap string (pyval F))
    (args : OptArgs F) :
  mean_risk_problem env stocks period start end_ log_returns freq maxnan
    threshold method risk_measure objective risk_free_rate risk_aversion
    alpha target_return target_risk mean covariance d_ewma value value_short
  = Ok (port, args) ->
  get_mean_risk_portfolio env stocks period start end_ log_returns freq maxnan
    threshold method risk_measure objective risk_free_rate risk_aversion
    alpha target_return target_risk mean covariance d_ewma value value_short
  = (let! weights := weights_result (optimization env port args) in
     Ok (weights,
         Some (stock_returns env stocks period start end_ log_returns freq
                 maxnan threshold method))).
Proof.
  intros Hok. unfold get_mean_risk_portfolio. rewrite Hok. reflexivity.
Qed.

(** C1: in [get_mean_risk_portfolio], with [target_risk > -1], a
    registered [risk_measure] and a frequency code of the table, the
    attribute that [upper_risk] names for the measure holds, in the
    portfolio object handed to the engine, [target_risk] itself for ADD,
    MDD, CDaR, EDaR and UCI, and [target_risk / factor ** 0.5] for every
    other measure, the factor being 252 for D, 52 for W and 12 for M. *)
Theorem target_risk_upper_bound (code : string) (n : Z) (name : string) :
  fltb (of_Z (-1)) target_risk = true ->
  upper_risk !! risk_measure = Some name ->
  (code, n) ∈ [("D", 252%Z); ("W", 52%Z); ("M", 12%Z)] ->
  upper freq = code ->
  exists port args,
    mean_risk_problem env stocks period start end_ log_returns freq maxnan
      threshold method risk_measure objective risk_free_rate risk_aversion
      alpha target_return target_risk mean covariance d_ewma value value_short
    = Ok (port, args) /\
    get_mean_risk_portfolio env stocks period start end_ log_returns freq
      maxnan threshold method risk_measure objective risk_free_rate
      risk_aversion alpha target_return target_risk mean covariance d_ewma
      value value_short
    = (let! weights := weights_result (optimization env port args) in
       Ok (weights,
           Some (stock_returns env stocks period start end_ log_returns freq
                   maxnan threshold method))) /\
    port !! name
    = Some (VFloat
              (if bool_decide
                    (risk_measure ∈ ["ADD"; "MDD"; "CDaR"; "EDaR"; "UCI"])
               then target_risk
               else fdiv target_risk (fpow_half (of_Z n)))).
Proof.
  intros Hrisk Hname Hcode Hfreq.
  pose proof (time_factor_lookup (F := F) code n Hcode) as Hfactor.
  rewrite <- Hfreq in Hfactor.
  destruct (mean_risk_problem_ok (of_Z n) Hfactor) as (port & args & Hok).
  { intros _. rewrite Hname. eauto. }
  exists port, args. split; [exact Hok |].
  split; [apply get_mean_risk_portfolio_eq; exact Hok |].
  apply mean_risk_problem_inv in Hok
    as (factor & port1 & port2 & Hfactor' & _ & _ & Hport & _).
  rewrite Hfactor in Hfactor'. injection Hfactor' as <-.
  rewrite Hrisk in Hport. destruct Hport as (name' & Hname' & ->).
  rewrite Hname in Hname'. injection Hname' as <-.
  apply lookup_insert_eq.
Qed.

Lemma budget_contract_intro `{!PyFloatLaws F}
    (before port1 port : gmap string (pyval F)) :
  port1 = budget_constraints value value_short before ->
  port !! "upperlng" = port1 !! "upperlng" ->
  port !! "sht" = port1 !! "sht" ->
  port !! "uppersht" = port1 !! "uppersht" ->
  port !! "budget" = port1 !! "budget" ->
  budget_contract value value_short before port.
Proof.
  intros -> Hlng Hsht Hupper Hbudget. unfold budget_contract.
  rewrite Hlng, Hsht, Hupper, Hbudget. split; [apply budget_upperlng |].
  split.
  - apply budget_short.
  - intros Hzero. apply feqb_zero in Hzero.
    destruct (budget_long_only value value_short before Hzero)
      as (Hb & Hs & _).
    split; assumption.
Qed.

(** Whatever the three classic entry points hand to the engine keeps the
    budget contract. *)
Lemma budget_contract_of_problem `{!PyFloatLaws F} :
  (forall port args,
     mean_risk_problem env stocks period start end_ log_returns freq maxnan
       threshold method risk_measure objective risk_free_rate risk_aversion
       alpha target_return target_risk mean covariance d_ewma value
       value_short
     = Ok (port, args) ->
     budget_contract value value_short
       (assets_stats env
          (Portfolio_init env
             (stock_returns env stocks period start end_ log_returns freq
                maxnan threshold method) (Some alpha))
          mean covariance d_ewma)
       port) /\
  (forall port args,
     max_diversification_problem env stocks period start end_ log_returns
       freq maxnan threshold method covariance d_ewma value value_short
     = Ok (port, args) ->
     budget_contract value value_short
       (assets_stats env
          (Portfolio_init env
             (stock_returns env stocks period start end_ log_returns freq
                maxnan threshold method) None)
          "hist" covariance d_ewma)
       port) /\
  (forall port args,
     max_decorrelation_problem env stocks period start end_ log_returns
       freq maxnan threshold method covariance d_ewma value value_short
     = Ok (port, args) ->
     budget_contract value value_short
       (assets_stats env
          (Portfolio_init env
             (stock_returns env stocks period start end_ log_returns freq
                maxnan threshold method) None)
          "hist" covariance d_ewma)
       port).
Proof.
  split; [| split]; intros port args Hok.
  - apply mean_risk_problem_inv in Hok
      as (factor & port1 & port2 & _ & Hport1 & Hport2 & Hport & _).
    assert (Hkeep : forall a,
               a ∈ ["upperlng"; "sht"; "uppersht"; "budget"] ->
               port !! a = port1 !! a).
    { intros a Ha.
      assert (Hstep : port2 !! a = port1 !! a).
      { rewrite Hport2. destruct (fltb (of_Z (-1)) target_return);
          [| reflexivity].
        apply lookup_insert_ne. intros <-. in_list Ha; discriminate. }
      destruct (fltb (of_Z (-1)) target_risk).
      - destruct Hport as (name & Hname & ->).
        apply upper_risk_names in Hname.
        rewrite lookup_insert_ne; [exact Hstep |].
        intros ->. in_list Ha; in_list Hname; discriminate.
      - rewrite Hport. exact Hstep. }
    apply (budget_contract_intro _ port1); [exact Hport1 | ..];
      apply Hkeep; repeat constructor.
  - unfold max_diversification_problem in Hok. injection Hok as <- _.
    unfold budget_contract.
    rewrite budget_upperlng. split; [reflexivity |]. split.
    + apply budget_short.
    + intros Hzero. apply feqb_zero in Hzero.
      destruct (budget_long_only value value_short
                  (<["mu" := VFrame
                       (returns_std env
                          (stock_returns env stocks period start end_
                             log_returns freq maxnan threshold method))]>
                     (assets_stats env
                        (Portfolio_init env
                           (stock_returns env stocks period start end_
                              log_returns freq maxnan threshold method) None)
                        "hist" covariance d_ewma))
                  Hzero) as (Hb & Hs & _).
      split; [exact Hb |]. rewrite Hs. apply lookup_insert_ne. done.
  - unfold max_decorrelation_problem in Hok.
    apply bind_Ok in Hok as (cov & _ & Hok). injection Hok as <- _.
    unfold budget_contract.
    rewrite budget_upperlng. split; [reflexivity |]. split.
    + apply budget_short.
    + intros Hzero. apply feqb_zero in Hzero.
      destruct (budget_long_only value value_short
                  (<["cov" := cov2corr env cov]>
                     (assets_stats env
                        (Portfolio_init env
                           (stock_returns env stocks period start end_
                              log_returns freq maxnan threshold method) None)
                        "hist" covariance d_ewma))
                  Hzero) as (Hb & Hs & _).
      split; [exact Hb |]. rewrite Hs. apply lookup_insert_ne. done.
Qed.

(** C2: each of the three classic entry points builds a portfolio object
    and hands it to the engine ([get_mean_risk_portfolio] for a frequency
    code of the table and, when a target risk is given, a registered
    measure; [get_max_decorrelation_portfolio] when the estimation step
    has left a covariance), and that object has [upperlng = value]; when
    [value_short > 0] it has [sht = True], [uppersht = value_short] and
    [budget = value - value_short]; when [value_short == 0] it has
    [budget = value] and the short flag that the constructor and the
    estimation step left. *)
Theorem classic_budget_constraints `{!PyFloatLaws F} :
  (upper freq ∈ ["D"; "W"; "M"] ->
   (fltb (of_Z (-1)) target_risk = true ->
    is_Some (upper_risk !! risk_measure)) ->
   exists port args,
     mean_risk_problem env stocks period start end_ log_returns freq maxnan
       threshold method risk_measure objective risk_free_rate risk_aversion
       alpha target_return target_risk mean covariance d_ewma value
       value_short
     = Ok (port, args) /\
     get_mean_risk_portfolio env stocks period start end_ log_returns freq
       maxnan threshold method risk_measure objective risk_free_rate
       risk_aversion alpha target_return target_risk mean covariance d_ewma
       value value_short
     = (let! weights := weights_result (optimization env port args) in
        Ok (weights,
            Some (stock_returns env stocks period start end_ log_returns
                    freq maxnan threshold method))) /\
     budget_contract value value_short
       (assets_stats env
          (Portfolio_init env
             (stock_returns env stocks period start end_ log_returns freq
                maxnan threshold method) (Some alpha))
          mean covariance d_ewma)
       port) /\
  (exists port args,
     max_diversification_problem env stocks period start end_ log_returns
       freq maxnan threshold method covariance d_ewma value value_short
     = Ok (port, args) /\
     get_max_diversification_portfolio env stocks period start end_
       log_returns freq maxnan threshold method covariance d_ewma value
       value_short
     = (let! weights := weights_result (optimization env port args) in
        Ok (weights,
            Some (stock_returns env stocks period start end_ log_returns
                    freq maxnan threshold method))) /\
     budget_contract value value_short
       (assets_stats env
          (Portfolio_init env
             (stock_returns env stocks period start end_ log_returns freq
                maxnan threshold method) None)
          "hist" covariance d_ewma)
       port) /\
  (is_Some
     (assets_stats env
        (Portfolio_init env
           (stock_returns env stocks period start end_ log_returns freq
              maxnan threshold method) None)
        "hist" covariance d_ewma !! "cov") ->
   exists port args,
     max_decorrelation_problem env stocks period start end_ log_returns
       freq maxnan threshold method covariance d_ewma value value_short
     = Ok (port, args) /\
     get_max_decorrelation_portfolio env stocks period start end_
       log_returns freq maxnan threshold method covariance d_ewma value
       value_short
     = (let! weights := weights_result (optimization env port args) in
        Ok (weights,
            Some (stock_returns env stocks period start end_ log_returns
                    freq maxnan threshold method))) /\
     budget_contract value value_short
       (assets_stats env
          (Portfolio_init env
             (stock_returns env stocks period start end_ log_returns freq
                maxnan threshold method) None)
          "hist" covariance d_ewma)
       port).
Proof.
  destruct budget_contract_of_problem
    as (Hmean_risk & Hdiversification & Hdecorrelation).
  split; [| split].
  - intros Hcode Hname.
    assert (Hfactor : exists factor,
               time_factor (F := F) !! upper freq = Some factor).
    { in_list Hcode; rewrite Hcode; eexists; reflexivity. }
    destruct Hfactor as (factor & Hfactor).
    destruct (mean_risk_problem_ok factor Hfactor Hname)
      as (port & args & Hok).
    exists port, args. split; [exact Hok |].
    split; [apply get_mean_risk_portfolio_eq; exact Hok |].
    apply (Hmean_risk port args Hok).
  - do 2 eexists. split; [reflexivity |]. split; [reflexivity |].
    apply (Hdiversification _ _ eq_refl).
  - intros [cov Hcov].
    assert (Hok : exists port args,
               max_decorrelation_problem env stocks period start end_
                 log_returns freq maxnan threshold method covariance d_ewma
                 value value_short
               = Ok (port, args)).
    { unfold max_decorrelation_problem, getattr. cbv zeta.
      rewrite Hcov. cbn [bind]. eauto. }
    destruct Hok as (port & args & Hok).
    exists port, args. split; [exact Hok |].
    split; [| apply (Hdecorrelation port args Hok)].
    unfold get_max_decorrelation_portfolio. rewrite Hok. reflexivity.
Qed.

(** C8: [get_max_diversification_portfolio] calls the engine with
    [model="Classic"], [rm="MV"], [obj="Sharpe"], [rf=0] and [hist=True],
    on a portfolio object whose [mu] is the standard deviation of each
    column of the returns, whatever the inputs. *)
Theorem max_diversification_call :
  exists port,
    max_diversification_problem env stocks period start end_ log_returns
      freq maxnan threshold method covariance d_ewma value value_short
    = Ok (port,
          {| opt_model := "Classic"; opt_rm := "MV"; opt_obj := "Sharpe";
             opt_rf := of_Z 0; opt_l := None; opt_hist := true |}) /\
    port !! "mu"
    = Some (VFrame
              (returns_std env
                 (stock_returns env stocks period start end_ log_returns
                    freq maxnan threshold method))) /\
    get_max_diversification_portfolio env stocks period start end_
      log_returns freq maxnan threshold method covariance d_ewma value
      value_short
    = (let! weights :=
         weights_result
           (optimization env port
              {| opt_model := "Classic"; opt_rm := "MV";
                 opt_obj := "Sharpe"; opt_rf := of_Z 0; opt_l := None;
                 opt_hist := true |}) in
       Ok (weights,
           Some (stock_returns env stocks period start end_ log_returns
                   freq maxnan threshold method))).
Proof.
  eexists. split; [reflexivity |]. split; [| reflexivity].
  unfold budget_constraints.
  destruct (fltb (of_Z 0) value_short);
    rewrite !lookup_insert_ne by done; apply lookup_insert_eq.
Qed.

(** C4: in each of the six optimisation entry points, when the engine is
    called and answers [None], the entry point returns [None] paired with
    the returns, and raises nothing. *)
Theorem no_solution_is_returned :
  (forall port args,
     mean_risk_problem env stocks period start end_ log_returns freq maxnan
       threshold method risk_measure objective risk_free_rate risk_aversion
       alpha target_return target_risk mean covariance d_ewma value
       value_short
     = Ok (port, args) ->
     optimization env port args = None ->
     get_mean_risk_portfolio env stocks period start end_ log_returns freq
       maxnan threshold method risk_measure objective risk_free_rate
       risk_aversion alpha target_return target_risk mean covariance d_ewma
       value value_short
     = Ok (None,
           Some (stock_returns env stocks period start end_ log_returns
                   freq maxnan threshold method))) /\
  (forall port args,
     max_diversification_problem env stocks period start end_ log_returns
       freq maxnan threshold method covariance d_ewma value value_short
     = Ok (port, args) ->
     optimization env port args = None ->
     get_max_diversification_portfolio env stocks period start end_
       log_returns freq maxnan threshold method covariance d_ewma value
       value_short
     = Ok (None,
           Some (stock_returns env stocks period start end_ log_returns
                   freq maxnan threshold method))) /\
  (forall port args,
     max_decorrelation_problem env stocks period start end_ log_returns
       freq maxnan threshold method covariance d_ewma value value_short
     = Ok (port, args) ->
     optimization env port args = None ->
     get_max_decorrelation_portfolio env stocks period start end_
       log_returns freq maxnan threshold method covariance d_ewma value
       value_short
     = Ok (None,
           Some (stock_returns env stocks period start end_ log_returns
                   freq maxnan threshold method))) /\
  (forall port args,
     risk_parity_problem env stocks period start end_ log_returns freq
       maxnan threshold method risk_measure risk_cont risk_free_rate alpha
       target_return mean covariance d_ewma
     = Ok (port, args) ->
     rp_optimization env port args = None ->
     get_risk_parity_portfolio env stocks period start end_ log_returns
       freq maxnan threshold method risk_measure risk_cont risk_free_rate
       alpha target_return mean covariance d_ewma value
     = Ok (None,
           Some (stock_returns env stocks period start end_ log_returns
                   freq maxnan threshold method))) /\
  (forall port args,
     rel_risk_parity_problem env stocks period start end_ log_returns freq
       maxnan threshold method version risk_cont penal_factor target_return
       mean covariance d_ewma
     = Ok (port, args) ->
     rrp_optimization env port args = None ->
     get_rel_risk_parity_portfolio env stocks period start end_ log_returns
       freq maxnan threshold method version risk_cont penal_factor
       target_return mean covariance d_ewma value
     = Ok (None,
           Some (stock_returns env stocks period start end_ log_returns
                   freq maxnan threshold method))) /\
  (forall port args,
     hcp_problem env stocks period start end_ log_returns freq maxnan
       threshold method model codependence covariance objective
       risk_measure risk_free_rate risk_aversion alpha a_sim beta b_sim
       linkage k max_k bins_info alpha_tail leaf_order d_ewma
     = Ok (port, args) ->
     hc_optimization env port args = None ->
     get_hcp_portfolio env stocks period start end_ log_returns freq maxnan
       threshold method model codependence covariance objective
       risk_measure risk_free_rate risk_aversion alpha a_sim beta b_sim
       linkage k max_k bins_info alpha_tail leaf_order d_ewma value
     = Ok (None,
           Some (stock_returns env stocks period start end_ log_returns
                   freq maxnan threshold method))).
Proof.
  repeat split; intros port args Hok Hnone.
  - unfold get_mean_risk_portfolio. rewrite Hok. cbn [bind].
    rewrite Hnone. reflexivity.
  - unfold get_max_diversification_portfolio. rewrite Hok. cbn [bind].
    rewrite Hnone. reflexivity.
  - unfold get_max_decorrelation_portfolio. rewrite Hok. cbn [bind].
    rewrite Hnone. reflexivity.
  - unfold get_risk_parity_portfolio. rewrite Hok. cbn [bind].
    rewrite Hnone. reflexivity.
  - unfold get_rel_risk_parity_portfolio. rewrite Hok. cbn [bind].
    rewrite Hnone. reflexivity.
  - unfold get_hcp_portfolio. rewrite Hok. cbn [bind].
    rewrite Hnone. reflexivity.
Qed.

(** C5, as the code has it: each of the eight entry points that return a
    pair returns, whenever it returns, the returns it computed with as
    the second component, except [get_property_weights] when the
    attributes add up to zero, which returns [(None, None)]. *)
Theorem returns_come_with_the_weights :
  (forall w r,
      get_equal_weights env stocks period start end_ log_returns freq maxnan
        threshold method value
      = Ok (w, r) ->
      r = Some (stock_returns env stocks period start end_ log_returns freq
                  maxnan threshold method)) /\
  (forall w r,
      get_property_weights env stocks period start end_ log_returns freq
        maxnan threshold method s_property value
      = Ok (w, r) ->
      exists prop prop_sum,
        property_loop env s_property stocks ∅ (of_Z 0) = Ok (prop, prop_sum) /\
        if feqb prop_sum (of_Z 0)
        then w = None /\ r = None
        else w = Some ((fun v => fdiv (fmul value v) prop_sum) <$> prop) /\
             r = Some (stock_returns env stocks period start end_
                         log_returns freq maxnan threshold method)) /\
  (forall w r,
      get_mean_risk_portfolio env stocks period start end_ log_returns freq
        maxnan threshold method risk_measure objective risk_free_rate
        risk_aversion alpha target_return target_risk mean covariance d_ewma
        value value_short
      = Ok (w, r) ->
      r = Some (stock_returns env stocks period start end_ log_returns freq
                  maxnan threshold method)) /\
  (forall w r,
      get_max_diversification_portfolio env stocks period start end_
        log_returns freq maxnan threshold method covariance d_ewma value
        value_short
      = Ok (w, r) ->
      r = Some (stock_returns env stocks period start end_ log_returns freq
                  maxnan threshold method)) /\
  (forall w r,
      get_max_decorrelation_portfolio env stocks period start end_
        log_returns freq maxnan threshold method covariance d_ewma value
        value_short
      = Ok (w, r) ->
      r = Some (stock_returns env stocks period start end_ log_returns freq
                  maxnan threshold method)) /\
  (forall w r,
      get_risk_parity_portfolio env stocks period start end_ log_returns
        freq maxnan threshold method risk_measure risk_cont risk_free_rate
        alpha target_return mean covariance d_ewma value
      = Ok (w, r) ->
      r = Some (stock_returns env stocks period start end_ log_returns freq
                  maxnan threshold method)) /\
  (forall w r,
      get_rel_risk_parity_portfolio env stocks period start end_ log_returns
        freq maxnan threshold method version risk_cont penal_factor
        target_return mean covariance d_ewma value
      = Ok (w, r) ->
      r = Some (stock_returns env stocks period start end_ log_returns freq
                  maxnan threshold method)) /\
  (forall w r,
      get_hcp_portfolio env stocks period start end_ log_returns freq maxnan
        threshold method model codependence covariance objective
        risk_measure risk_free_rate risk_aversion alpha a_sim beta b_sim
        linkage k max_k bins_info alpha_tail leaf_order d_ewma value
      = Ok (w, r) ->
      r = Some (stock_returns env stocks period start end_ log_returns freq
                  maxnan threshold method)).
Proof.
  split; [| split]; [| | repeat split]; intros w r.
  - unfold get_equal_weights. intros [= _ <-]. reflexivity.
  - unfold get_property_weights.
    destruct (property_loop env s_property stocks ∅ (of_Z 0))
      as [[prop prop_sum] | e]; cbn [bind]; [| discriminate].
    intros Hret. exists prop, prop_sum. split; [reflexivity |].
    destruct (feqb prop_sum (of_Z 0)); injection Hret as <- <-;
      split; reflexivity.
  - unfold get_mean_risk_portfolio.
    case_bind as [port args]. case_bind as weights.
    intros [= _ <-]. reflexivity.
  - unfold get_max_diversification_portfolio.
    case_bind as [port args]. case_bind as weights.
    intros [= _ <-]. reflexivity.
  - unfold get_max_decorrelation_portfolio.
    case_bind as [port args]. case_bind as weights.
    intros [= _ <-]. reflexivity.
  - unfold get_risk_parity_portfolio.
    case_bind as [port args]. case_bind as weights.
    intros [= _ <-]. reflexivity.
  - unfold get_rel_risk_parity_portfolio.
    case_bind as [port args]. case_bind as weights.
    intros [= _ <-]. reflexivity.
  - unfold get_hcp_portfolio.
    case_bind as [port args]. case_bind as weights.
    intros [= _ <-]. reflexivity.
Qed.

(** The returns do not depend on the case of the frequency code when the
    provider does not. *)
Lemma stock_returns_upper :
  process_returns env (process_stocks env stocks period start end_)
    log_returns freq maxnan threshold method
  = process_returns env (process_stocks env stocks period start end_)
      log_returns (upper freq) maxnan threshold method ->
  stock_returns env stocks period start end_ log_returns freq maxnan
    threshold method
  = stock_returns env stocks period start end_ log_returns (upper freq)
      maxnan threshold method.
Proof. intros Hprovider. unfold stock_returns. exact Hprovider. Qed.

(** C10, as the code has it: a frequency code whose upper case is D, W or
    M is accepted by the four entry points that look the factor up, every
    lookup being made with [freq.upper()]; the code is handed to the
    return-series provider as written, and each entry point returns what
    it returns for the upper-case code when the provider answers alike
    for both spellings. *)
Theorem frequency_code_case :
  upper freq ∈ ["D"; "W"; "M"] ->
  process_returns env (process_stocks env stocks period start end_)
    log_returns freq maxnan threshold method
  = process_returns env (process_stocks env stocks period start end_)
      log_returns (upper freq) maxnan threshold method ->
  (exists factor, getitem (time_factor (F := F)) (upper freq) = Ok factor) /\
  get_mean_risk_portfolio env stocks period start end_ log_returns freq
    maxnan threshold method risk_measure objective risk_free_rate
    risk_aversion alpha target_return target_risk mean covariance d_ewma
    value value_short
  = get_mean_risk_portfolio env stocks period start end_ log_returns
      (upper freq) maxnan threshold method risk_measure objective
      risk_free_rate risk_aversion alpha target_return target_risk mean
      covariance d_ewma value value_short /\
  get_risk_parity_portfolio env stocks period start end_ log_returns freq
    maxnan threshold method risk_measure risk_cont risk_free_rate alpha
    target_return mean covariance d_ewma value
  = get_risk_parity_portfolio env stocks period start end_ log_returns
      (upper freq) maxnan threshold method risk_measure risk_cont
      risk_free_rate alpha target_return mean covariance d_ewma value /\
  get_rel_risk_parity_portfolio env stocks period start end_ log_returns
    freq maxnan threshold method version risk_cont penal_factor
    target_return mean covariance d_ewma value
  = get_rel_risk_parity_portfolio env stocks period start end_ log_returns
      (upper freq) maxnan threshold method version risk_cont penal_factor
      target_return mean covariance d_ewma value /\
  get_hcp_portfolio env stocks period start end_ log_returns freq maxnan
    threshold method model codependence covariance objective risk_measure
    risk_free_rate risk_aversion alpha a_sim beta b_sim linkage k max_k
    bins_info alpha_tail leaf_order d_ewma value
  = get_hcp_portfolio env stocks period start end_ log_returns (upper freq)
      maxnan threshold method model codependence covariance objective
      risk_measure risk_free_rate risk_aversion alpha a_sim beta b_sim
      linkage k max_k bins_info alpha_tail leaf_order d_ewma value /\
  ((fltb (of_Z (-1)) target_risk = true ->
    is_Some (upper_risk !! risk_measure)) ->
   exists problem,
     mean_risk_problem env stocks period start end_ log_returns freq maxnan
       threshold method risk_measure objective risk_free_rate risk_aversion
       alpha target_return target_risk mean covariance d_ewma value
       value_short
     = Ok problem) /\
  (exists problem,
    risk_parity_problem env stocks period start end_ log_returns freq maxnan
      threshold method risk_measure risk_cont risk_free_rate alpha
      target_return mean covariance d_ewma
    = Ok problem) /\
  (exists problem,
    rel_risk_parity_problem env stocks period start end_ log_returns freq
      maxnan threshold method version risk_cont penal_factor target_return
      mean covariance d_ewma
    = Ok problem) /\
  (exists problem,
    hcp_problem env stocks period start end_ log_returns freq maxnan
      threshold method model codependence covariance objective risk_measure
      risk_free_rate risk_aversion alpha a_sim beta b_sim linkage k max_k
      bins_info alpha_tail leaf_order d_ewma
    = Ok problem).
Proof.
  intros Hcode Hprovider.
  pose proof (stock_returns_upper Hprovider) as Hreturns.
  assert (Hfactor : exists factor,
             time_factor (F := F) !! upper freq = Some factor).
  { in_list Hcode; rewrite Hcode; eexists; reflexivity. }
  destruct Hfactor as (factor & Hfactor).
  split; [exists factor; apply getitem_Some; exact Hfactor |].
  split.
  { unfold get_mean_risk_portfolio, mean_risk_problem.
    rewrite !upper_idempotent, Hreturns. reflexivity. }
  split.
  { unfold get_risk_parity_portfolio, risk_parity_problem.
    rewrite !upper_idempotent, Hreturns. reflexivity. }
  split.
  { unfold get_rel_risk_parity_portfolio, rel_risk_parity_problem.
    rewrite !upper_idempotent, Hreturns. reflexivity. }
  split.
  { unfold get_hcp_portfolio, hcp_problem.
    rewrite !upper_idempotent, Hreturns. reflexivity. }
  split.
  { intros Hname.
    destruct (mean_risk_problem_ok factor Hfactor Hname)
      as (port & args & Hok).
    exists (port, args). exact Hok. }
  split; [| split].
  - unfold risk_parity_problem, getitem. rewrite Hfactor. cbn [bind].
    destruct (fltb (of_Z (-1)) target_return); cbn [bind]; eauto.
  - unfold rel_risk_parity_problem, getitem.
    destruct (fltb (of_Z (-1)) target_return);
      [rewrite Hfactor |]; cbn [bind]; eauto.
  - unfold hcp_problem, getitem. rewrite Hfactor. cbn [bind]. eauto.
Qed.

(** The shape of a transposed frame. *)
Lemma frame_T_shape (w : list (list F)) (assets : list string) :
  index (frame_T (frame_of_rows w assets)) = LStr <$> assets /\
  length (columns (frame_T (frame_of_rows w assets))) = length w /\
  length (values (frame_T (frame_of_rows w assets))) = length assets /\
  Forall (fun row => length row = length w)
         (values (frame_T (frame_of_rows w assets))).
Proof.
  unfold frame_T, frame_of_rows. cbn [index columns values].
  repeat split.
  - rewrite length_fmap, length_seq. reflexivity.
  - rewrite !length_fmap, length_seq. reflexivity.
  - apply Forall_fmap, Forall_forall. intros j _. cbn.
    apply length_fmap.
Qed.

Lemma frame_scale_shape (df : DataFrame F) :
  index (frame_scale value df) = index df /\
  columns (frame_scale value df) = columns df /\
  length (values (frame_scale value df)) = length (values df) /\
  forall n, Forall (fun row => length row = n) (values df) ->
            Forall (fun row => length row = n) (values (frame_scale value df)).
Proof.
  unfold frame_scale. cbn [index columns values]. repeat split.
  - apply length_fmap.
  - intros n Hrows. apply Forall_fmap.
    eapply Forall_impl; [exact Hrows |]. intros row Hrow. cbn.
    rewrite length_fmap. exact Hrow.
Qed.

Lemma np_identity_length (n : nat) : length (np_identity (F := F) n) = n.
Proof. unfold np_identity. rewrite length_fmap, length_seq. reflexivity. Qed.

(** The table is made of the rows handed to [pd.DataFrame] as the
    specification has it. *)
Lemma portfolios_table_intro (draws : list (list F)) :
  portfolios_table value stocks draws
    (let w := frame_T (frame_of_rows (draws ++ np_identity (length stocks))
                                     stocks) in
     if fltb (of_Z 0) value then frame_scale value w else w).
Proof.
  remember (draws ++ np_identity (length stocks)) as rows eqn:Hdef.
  assert (Hrows : length rows = (length draws + length stocks)%nat).
  { subst rows. rewrite length_app, np_identity_length. reflexivity. }
  assert (Hdraw : forall i c draw x,
             draws !! c = Some draw ->
             draw !! i = Some x ->
             ((fun row : list F => nth i row (of_Z 0)) <$> rows) !! c
             = Some x).
  { intros i c draw x Hc Hx. rewrite list_lookup_fmap. subst rows.
    rewrite (lookup_app_l_Some _ _ _ _ Hc). cbn.
    rewrite (nth_lookup_Some _ _ _ _ Hx). reflexivity. }
  assert (Hunit : forall i j,
             (i < length stocks)%nat ->
             (j < length stocks)%nat ->
             ((fun row : list F => nth i row (of_Z 0)) <$> rows)
               !! (length draws + j)%nat
             = Some (if (j =? i)%nat then of_Z 1 else of_Z 0)).
  { intros i j Hi Hj. rewrite list_lookup_fmap. subst rows.
    rewrite lookup_app_r by lia.
    replace (length draws + j - length draws)%nat with j by lia.
    unfold np_identity.
    rewrite list_lookup_fmap, lookup_seq_lt by exact Hj. cbn.
    rewrite nth_lookup, list_lookup_fmap, lookup_seq_lt by exact Hi.
    reflexivity. }
  assert (Hrow : forall i,
             (i < length stocks)%nat ->
             values (frame_T (frame_of_rows rows stocks)) !! i
             = Some ((fun row : list F => nth i row (of_Z 0)) <$> rows)).
  { intros i Hi. unfold frame_T, frame_of_rows. cbn [values columns].
    rewrite list_lookup_fmap, length_fmap, lookup_seq_lt by exact Hi.
    reflexivity. }
  assert (Hvalues : length (values (frame_T (frame_of_rows rows stocks)))
                    = length stocks).
  { unfold frame_T, frame_of_rows. cbn [values columns].
    rewrite !length_fmap, length_seq. reflexivity. }
  unfold portfolios_table, scaled. cbv zeta.
  destruct (fltb (of_Z 0) value).
  - unfold frame_scale. cbn [index columns values].
    split; [reflexivity |].
    split; [rewrite <- Hrows; reflexivity |].
    split; [rewrite length_fmap; exact Hvalues |].
    intros i Hi. eexists. split.
    { rewrite list_lookup_fmap, (Hrow i Hi). reflexivity. }
    split; [rewrite !length_fmap; exact Hrows |].
    split.
    + intros c draw x Hc Hx.
      rewrite list_lookup_fmap, (Hdraw i c draw x Hc Hx). reflexivity.
    + intros j Hj. rewrite list_lookup_fmap, (Hunit i j Hi Hj). reflexivity.
  - split; [reflexivity |].
    split; [rewrite <- Hrows; reflexivity |].
    split; [exact Hvalues |].
    intros i Hi. eexists. split; [exact (Hrow i Hi) |].
    split; [rewrite length_fmap; exact Hrows |].
    split.
    + intros c draw x Hc Hx. exact (Hdraw i c draw x Hc Hx).
    + intros j Hj. exact (Hunit i j Hi Hj).
Qed.

(** The run of [generate_random_portfolios] when the generator takes the
    seed and the three draws return. *)
Lemma generate_random_portfolios_run (n_samples : Z)
    (rs0 rs1 rs2 rs3 : rng env) (w1 w2 w3 : list (list F)) :
  int_third n_portfolios = Ok n_samples ->
  RandomState env seed = Ok rs0 ->
  dirichlet env rs0 (replicate (length stocks) (of_Z 1)) n_samples
  = Ok (w1, rs1) ->
  dirichlet env rs1
            (replicate (length stocks) (fmul (of_Z 1) (decimal 65 100)))
            n_samples
  = Ok (w2, rs2) ->
  dirichlet env rs2 (replicate (length stocks) (fmul (of_Z 1) (of_Z 2)))
            n_samples
  = Ok (w3, rs3) ->
  generate_random_portfolios env stocks n_portfolios seed value
  = Ok (let w := frame_T (frame_of_rows
                            ((w1 ++ w2 ++ w3) ++ np_identity (length stocks))
                            stocks) in
        if fltb (of_Z 0) value then frame_scale value w else w).
Proof.
  intros Hsamples Hseed Hw1 Hw2 Hw3.
  unfold generate_random_portfolios, np_ones. cbv zeta.
  rewrite Hsamples. cbn [bind]. rewrite Hseed. cbn [bind].
  rewrite !fmap_replicate, Hw1. cbn [bind].
  rewrite Hw2. cbn [bind]. rewrite Hw3. cbn [bind].
  rewrite <- !app_assoc. reflexivity.
Qed.

(** C7, as the code has it: for [N] tickers, a request
    [0 <= n_portfolios < 3 * 2^52] and a seed that the generator takes,
    when the three draws of [n_portfolios / 3] (rounded down) samples
    return, made one after the other with concentrations 1, 0.65 and 2
    for every asset, [generate_random_portfolios] returns a table with one
    row per asset and [3 * (n_portfolios / 3) + N] columns: the three
    batches in that order and then the [N] unit vectors, every entry
    multiplied by a positive [value]. *)
Theorem random_portfolios_table (rs0 rs1 rs2 rs3 : rng env)
    (w1 w2 w3 : list (list F)) :
  dirichlet_shape env ->
  (0 <= n_portfolios < 3 * 2 ^ 52)%Z ->
  RandomState env seed = Ok rs0 ->
  dirichlet env rs0 (replicate (length stocks) (of_Z 1)) (n_portfolios / 3)
  = Ok (w1, rs1) ->
  dirichlet env rs1
            (replicate (length stocks) (fmul (of_Z 1) (decimal 65 100)))
            (n_portfolios / 3)
  = Ok (w2, rs2) ->
  dirichlet env rs2 (replicate (length stocks) (fmul (of_Z 1) (of_Z 2)))
            (n_portfolios / 3)
  = Ok (w3, rs3) ->
  exists table,
    generate_random_portfolios env stocks n_portfolios seed value = Ok table /\
    length w1 = Z.to_nat (n_portfolios / 3) /\
    length w2 = Z.to_nat (n_portfolios / 3) /\
    length w3 = Z.to_nat (n_portfolios / 3) /\
    length (columns table)
    = (3 * Z.to_nat (n_portfolios / 3) + length stocks)%nat /\
    portfolios_table value stocks (w1 ++ w2 ++ w3) table.
Proof.
  intros Hshape Hn Hseed Hw1 Hw2 Hw3.
  assert (Hsamples : int_third n_portfolios = Ok (n_portfolios / 3)%Z).
  { rewrite int_third_small by lia. f_equal.
    apply Z.quot_div_nonneg; lia. }
  destruct (Hshape _ _ _ _ _ Hw1) as (_ & Hlen1 & _).
  destruct (Hshape _ _ _ _ _ Hw2) as (_ & Hlen2 & _).
  destruct (Hshape _ _ _ _ _ Hw3) as (_ & Hlen3 & _).
  eexists. split.
  { exact (generate_random_portfolios_run _ _ _ _ _ _ _ _
             Hsamples Hseed Hw1 Hw2 Hw3). }
  do 3 (split; [assumption |]).
  pose proof (portfolios_table_intro (w1 ++ w2 ++ w3)) as Htable.
  split; [| exact Htable].
  destruct Htable as (_ & Hcolumns & _). rewrite Hcolumns.
  rewrite length_fmap, length_seq, !length_app, Hlen1, Hlen2, Hlen3. lia.
Qed.
End Properties.

(** Row [i] of [np.identity(n)] is the unit vector of position [i]. *)
Lemma np_identity_lookup `{PyFloat F} (n i j : nat) :
  (i < n)%nat -> (j < n)%nat ->
  exists row,
    np_identity (F := F) n !! i = Some row /\
    row !! j = Some (if (i =? j)%nat then of_Z 1 else of_Z 0).
Proof.
  intros Hi Hj. unfold np_identity. eexists. split.
  - rewrite list_lookup_fmap, lookup_seq_lt by exact Hi. reflexivity.
  - cbn. rewrite list_lookup_fmap, lookup_seq_lt by exact Hj. reflexivity.
Qed.

(** ** Equal weights *)

(** [round(0.5, 5)] in exact arithmetic. *)
Lemma exact_round5_half : fround5 (1 / 2)%R = (1 / 2)%R.
Proof.
  cbn [fround5 Exact.real_ops]. unfold Exact.rne.
  replace (1 / 2 * 100000)%R with (IZR 50000) by lra.
  assert (Hpart : Int_part (IZR 50000) = 50000%Z).
  { symmetry. apply Int_part_spec. lra. }
  rewrite Hpart.
  destruct (Rlt_dec (2 * (IZR 50000 - IZR 50000)) 1) as [_ | Hge]; lra.
Qed.


(** Rounding to the nearest integer moves a number by a half at most. *)
Lemma rne_error (y : R) : (- (1 / 2) <= IZR (Exact.rne y) - y <= 1 / 2)%R.
Proof.
  unfold Exact.rne. destruct (base_Int_part y) as [Hle Hgt].
  destruct (Rlt_dec (2 * (y - IZR (Int_part y))) 1) as [Hlow | Hlow];
    [lra |].
  destruct (Rlt_dec 1 (2 * (y - IZR (Int_part y)))) as [Hhigh | Hhigh].
  - rewrite plus_IZR. lra.
  - destruct (Z.even (Int_part y)); [| rewrite plus_IZR]; lra.
Qed.

Lemma sf_same_eq (a b : spec_float) : sf_same a b = true -> a = b.
Proof.
  destruct a as [s1 | s1 | | s1 m1 e1], b as [s2 | s2 | | s2 m2 e2];
    cbn [sf_same]; try discriminate; try reflexivity.
  - intros Hs. apply Bool.eqb_prop in Hs. congruence.
  - intros Hs. apply Bool.eqb_prop in Hs. congruence.
  - intros Hs. apply andb_prop in Hs as [Hs He].
    apply andb_prop in Hs as [Hs Hm].
    apply Bool.eqb_prop in Hs. apply Pos.eqb_eq in Hm.
    apply Z.eqb_eq in He. congruence.
Qed.

(** [round(1 / n, 5)] in binary64, for up to a thousand tickers: each of
    the thousand values is computed and read. *)
Lemma round5_reciprocal (n : Z) :
  (1 <= n <= 1000)%Z ->
  exists k : Z,
    (2 * Z.abs (k * n - 100000) <= n)%Z /\
    fround5 (fdiv (of_Z 1) (of_Z n)) = (decimal k 100000 : float).
Proof.
  intros Hn.
  assert (Hall : forallb round5_reciprocal_check (seqZ 1 1000) = true)
    by (vm_compute; reflexivity).
  assert (Hcheck : round5_reciprocal_check n = true).
  { rewrite forallb_forall in Hall. apply Hall.
    apply list_elem_of_In, elem_of_seqZ. lia. }
  unfold round5_reciprocal_check in Hcheck.
  apply orb_prop in Hcheck as [Hcheck | Hcheck];
    apply andb_prop in Hcheck as [Hsame Hnear];
    apply sf_same_eq, Prim2SF_inj in Hsame; apply Z.leb_le in Hnear.
  - exists (100000 / n)%Z. split; [| exact Hsame].
    pose proof (Z.mul_div_le 100000 n ltac:(lia)). lia.
  - exists (100000 / n + 1)%Z. split; [| exact Hsame].
    pose proof (Z.mul_succ_div_gt 100000 n ltac:(lia)). lia.
Qed.

(** A dict comprehension with one value for every key. *)
Lemma constant_dict_lookup {V} (keys : list string) (v : V)
    (d : gmap string V) (key : string) :
  foldl (fun d key => <[key := v]> d) d keys !! key
  = if decide (key ∈ keys) then Some v else d !! key.
Proof.
  revert d. induction keys as [| key' keys IH]; intros d; cbn [foldl].
  - destruct (decide (key ∈ [])) as [Hin | _]; [| reflexivity].
    apply elem_of_nil in Hin. destruct Hin.
  - rewrite IH. destruct (decide (key ∈ keys)) as [Hin | Hout].
    + rewrite decide_True by (apply elem_of_cons; right; exact Hin).
      reflexivity.
    + destruct (decide (key = key')) as [-> | Hne].
      * rewrite decide_True by (apply elem_of_cons; left; reflexivity).
        apply lookup_insert_eq.
      * rewrite decide_False
          by (intros [Heq | Hin]%elem_of_cons;
              [exact (Hne Heq) | exact (Hout Hin)]).
        apply lookup_insert_ne. congruence.
Qed.

(** C9: [get_equal_weights] gives every ticker of the list the weight
    [value * round(1 / N, 5)], [N] being the length of the list, and no
    other key; the weights are the same whatever the provider returns.
    [round(1 / N, 5)] is a number [k / 100000] with [k] an integer half a
    unit away from [100000 / N] at most: in binary64 the float of that
    literal, for up to a thousand tickers, and in exact arithmetic the
    fraction, for any number of them.  For the tickers A and B and
    [value = 1.0] the weights are [{"A": 0.5, "B": 0.5}], in binary64 and
    in exact arithmetic. *)
Theorem equal_weights_value :
  (forall (F : Type) (ops : PyFloat F) (env : Env F) (stocks : list string)
          (period start end_ : string) (log_returns : bool) (freq : string)
          (maxnan threshold : F) (method : string) (value : F),
      exists weights,
        get_equal_weights env stocks period start end_ log_returns freq
          maxnan threshold method value
        = Ok (Some weights,
              Some (stock_returns env stocks period start end_ log_returns
                      freq maxnan threshold method)) /\
        (forall stock,
            weights !! stock
            = if decide (stock ∈ stocks)
              then Some (fmul value
                           (fround5 (fdiv (of_Z 1)
                                          (of_Z (Z.of_nat (length stocks))))))
              else None) /\
        (forall env' : Env F,
            get_equal_weights env' stocks period start end_ log_returns freq
              maxnan threshold method value
            = Ok (Some weights,
                  Some (stock_returns env' stocks period start end_
                          log_returns freq maxnan threshold method)))) /\
  (forall (env : Env float) (stocks : list string)
          (period start end_ : string) (log_returns : bool) (freq : string)
          (maxnan threshold : float) (method : string) (value : float),
      (1 <= length stocks <= 1000)%nat ->
      exists (k : Z) (weights : gmap string float),
        get_equal_weights env stocks period start end_ log_returns freq
          maxnan threshold method value
        = Ok (Some weights,
              Some (stock_returns env stocks period start end_ log_returns
                      freq maxnan threshold method)) /\
        (2 * Z.abs (k * Z.of_nat (length stocks) - 100000)
         <= Z.of_nat (length stocks))%Z /\
        forall stock,
          weights !! stock
          = if decide (stock ∈ stocks)
            then Some (fmul value (decimal k 100000))
            else None) /\
  (forall (env : Env R) (stocks : list string)
          (period start end_ : string) (log_returns : bool) (freq : string)
          (maxnan threshold : R) (method : string) (value : R),
      exists (k : Z) (weights : gmap string R),
        get_equal_weights env stocks period start end_ log_returns freq
          maxnan threshold method value
        = Ok (Some weights,
              Some (stock_returns env stocks period start end_ log_returns
                      freq maxnan threshold method)) /\
        (Rabs (IZR k - 100000 / IZR (Z.of_nat (length stocks))) <= 1 / 2)%R /\
        forall stock,
          weights !! stock
          = if decide (stock ∈ stocks)
            then Some (value * (IZR k / 100000))%R
            else None) /\
  (forall (env : Env float) (period start end_ : string) (log_returns : bool)
          (freq : string) (maxnan threshold : float) (method : string),
      get_equal_weights env ["A"; "B"] period start end_ log_returns freq
        maxnan threshold method 1%float
      = Ok (Some (<["A" := 0.5%float]> (<["B" := 0.5%float]> ∅)),
            Some (stock_returns env ["A"; "B"] period start end_ log_returns
                    freq maxnan threshold method))) /\
  (forall (env : Env R) (period start end_ : string) (log_returns : bool)
          (freq : string) (maxnan threshold : R) (method : string),
      get_equal_weights env ["A"; "B"] period start end_ log_returns freq
        maxnan threshold method 1%R
      = Ok (Some (<["A" := (1 / 2)%R]> (<["B" := (1 / 2)%R]> ∅)),
            Some (stock_returns env ["A"; "B"] period start end_ log_returns
                    freq maxnan threshold method))).
Proof.
  split; [| split; [| split; [| split]]].
  - intros F ops env stocks period start end_ log_returns freq maxnan
      threshold method value.
    eexists. split; [reflexivity |]. split; [| reflexivity].
    intros stock. rewrite constant_dict_lookup, lookup_empty. reflexivity.
  - intros env stocks period start end_ log_returns freq maxnan threshold
      method value Hlength.
    destruct (round5_reciprocal (Z.of_nat (length stocks)) ltac:(lia))
      as (k & Hnear & Hround).
    exists k. eexists. split; [reflexivity |]. split; [exact Hnear |].
    intros stock. rewrite constant_dict_lookup, lookup_empty, Hround.
    reflexivity.
  - intros env stocks period start end_ log_returns freq maxnan threshold
      method value.
    exists (Exact.rne (1 / IZR (Z.of_nat (length stocks)) * 100000)).
    eexists. split; [reflexivity |]. split.
    + pose proof (rne_error (1 / IZR (Z.of_nat (length stocks)) * 100000))
        as Herror.
      replace (100000 / IZR (Z.of_nat (length stocks)))%R
        with (1 / IZR (Z.of_nat (length stocks)) * 100000)%R
        by (unfold Rdiv; ring).
      apply Rabs_le. lra.
    + intros stock. rewrite constant_dict_lookup, lookup_empty. reflexivity.
  - intros env period start end_ log_returns freq maxnan threshold method.
    unfold get_equal_weights. do 3 f_equal.
  - intros env period start end_ log_returns freq maxnan threshold method.
    unfold get_equal_weights. do 3 f_equal. cbn [foldl].
    assert (Hweight :
              fmul 1%R
                (fround5 (fdiv (of_Z 1)
                               (of_Z (Z.of_nat (length ["A"; "B"])))))
              = (1 / 2)%R).
    { change (fdiv (of_Z 1) (of_Z (Z.of_nat (length ["A"; "B"]))))
        with (1 / 2)%R.
      rewrite exact_round5_half. cbn [fmul Exact.real_ops]. lra. }
    rewrite Hweight. apply insert_insert_ne. done.
Qed.

(** ** Exact arithmetic *)

Section ExactArithmetic.
Import Exact.
Variables (env : Env R).
Variables (stocks : list string) (period start end_ : string)
          (log_returns : bool) (freq : string) (maxnan threshold : R)
          (method : string).
Variables (risk_measure : string) (risk_free_rate alpha target_return : R)
          (mean covariance : string) (d_ewma : R)
          (version : string) (penal_factor : R).

Lemma foldl_Rplus (x : R) (l : list R) :
  foldl Rplus x l = (x + foldr Rplus 0 l)%R.
Proof.
  revert x. induction l as [| y l IH]; intros x; cbn [foldl foldr].
  - lra.
  - rewrite IH. lra.
Qed.

Lemma Rsum_app (l1 l2 : list R) :
  foldr Rplus 0%R (l1 ++ l2) = (foldr Rplus 0 l1 + foldr Rplus 0 l2)%R.
Proof.
  induction l1 as [| x l1 IH]; cbn [app foldr]; [lra | rewrite IH; lra].
Qed.

Lemma Rsum_zip (l1 l2 : list R) :
  length l1 = length l2 ->
  foldr Rplus 0%R (zip_with Rplus l1 l2)
  = (foldr Rplus 0 l1 + foldr Rplus 0 l2)%R.
Proof.
  revert l2. induction l1 as [| x l1 IH]; intros [| y l2] Hlen;
    cbn [zip_with foldr]; try discriminate; [lra |].
  rewrite IH by (cbn in Hlen; lia). lra.
Qed.

(** The running sums and the entries left hold the whole sum between
    them. *)
Lemma add_blocks_sum (k : nat) (r rest : list R) :
  length r = 8%nat -> (8 * k <= length rest)%nat ->
  length (add_blocks k r rest).1 = 8%nat /\
  (foldr Rplus 0 (add_blocks k r rest).1
   + foldr Rplus 0 (add_blocks k r rest).2
   = foldr Rplus 0 r + foldr Rplus 0 rest)%R.
Proof.
  revert r rest. induction k as [| k IH]; intros r rest Hr Hrest;
    cbn [add_blocks fst snd].
  - split; [exact Hr | reflexivity].
  - assert (Htake : length (take 8 rest) = 8%nat)
      by (rewrite length_take; lia).
    destruct (IH (zip_with fadd r (take 8 rest)) (drop 8 rest))
      as [Hlen Hsum].
    + rewrite length_zip_with, Hr, Htake. reflexivity.
    + rewrite length_drop. lia.
    + split; [exact Hlen |]. rewrite Hsum.
      change (zip_with fadd r (take 8 rest))
        with (zip_with Rplus r (take 8 rest)).
      rewrite Rsum_zip by congruence.
      rewrite <- (take_drop 8 rest) at 3. rewrite Rsum_app. lra.
Qed.

Lemma block_sum_exact (a : list R) :
  (8 <= length a)%nat -> block_sum a = foldr Rplus 0%R a.
Proof.
  intros Hlen. unfold block_sum.
  destruct (add_blocks_sum (length a / 8 - 1) (take 8 a) (drop 8 a))
    as [Hr Hsum].
  - rewrite length_take. lia.
  - rewrite length_drop.
    pose proof (Nat.Div0.mul_div_le (length a) 8). lia.
  - destruct (add_blocks (length a / 8 - 1) (take 8 a) (drop 8 a))
      as [r rest].
    cbn [fst snd] in Hr, Hsum.
    rewrite <- (take_drop 8 a) at 1. rewrite Rsum_app, <- Hsum.
    rewrite foldl_Rplus. f_equal.
    do 9 (destruct r as [| ? r]; try discriminate Hr).
    cbn. lra.
Qed.

(** In exact arithmetic the pairwise sum is the sum, whatever the
    cuts. *)
Lemma pairwise_sum_exact (fuel : nat) (a : list R) :
  pairwise_sum fuel a = foldr Rplus 0%R a.
Proof.
  revert a. induction fuel as [| fuel IH]; intros a; cbn [pairwise_sum];
    (destruct (length a <? 8)%nat eqn:H8;
     [rewrite foldl_Rplus; cbn; lra | apply Nat.ltb_ge in H8]);
    destruct (length a <=? 128)%nat; try (apply block_sum_exact; exact H8).
  rewrite !IH. cbn [fadd real_ops].
  rewrite <- Rsum_app, take_drop. reflexivity.
Qed.

(** The sum of one row in exact arithmetic. *)
Lemma np_sum_row (l : list R) : np_sum [l] = foldr Rplus 0%R l.
Proof.
  unfold np_sum. cbn [concat]. rewrite app_nil_r, pairwise_sum_exact.
  cbn. lra.
Qed.

Lemma sum_of_quotients (s : R) (l : list R) :
  foldr Rplus 0%R ((fun x => x / s)%R <$> l) = (foldr Rplus 0 l / s)%R.
Proof.
  induction l as [| x l IH]; cbn [fmap list_fmap foldr].
  - unfold Rdiv. ring.
  - rewrite IH. unfold Rdiv. ring.
Qed.

(** C6, as it holds: in exact arithmetic, for every annual value [x]
    and each of the codes D, W and M, dividing [x] by [factor ** 0.5]
    and multiplying the quotient by the square root of the factor gives
    [x] back. *)
Theorem period_risk_round_trip (x : R) (code : string) (n : Z) :
  (code, n) ∈ [("D", 252%Z); ("W", 52%Z); ("M", 12%Z)] ->
  time_factor (F := R) !! code = Some (IZR n) /\
  (period_risk (IZR n) x * sqrt (IZR n))%R = x.
Proof.
  intros Hcode.
  split; [exact (time_factor_lookup (F := R) code n Hcode) |].
  assert (Hpos : (0 < IZR n)%R).
  { in_list Hcode; injection Hcode as _ ->; lra. }
  unfold period_risk. cbn [fdiv fpow_half real_ops].
  field. apply Rgt_not_eq, sqrt_lt_R0. exact Hpos.
Qed.
End ExactArithmetic.

(** C3, as the code has it: the two risk parity entry points hand the
    engine the vector [risk_cont] divided, entry by entry, by [np.sum] of
    its entries, in every arithmetic.  In exact arithmetic, when the
    entries do not add up to zero, the entries of that vector add up to 1
    and equal entries stay equal; they keep the order of the entries of
    [risk_cont] when the sum is positive and reverse it when the sum is
    negative. *)
Theorem risk_contributions_normalised :
  (forall (F : Type) (ops : PyFloat F) (env : Env F) (stocks : list string)
          (period start end_ : string) (log_returns : bool) (freq : string)
          (maxnan threshold : F) (method risk_measure version : string)
          (risk_free_rate alpha target_return penal_factor : F)
          (mean covariance : string) (d_ewma value : F) (rc : list F),
      (upper freq ∈ ["D"; "W"; "M"] ->
       exists port args,
         risk_parity_problem env stocks period start end_ log_returns freq
           maxnan threshold method risk_measure (Some rc) risk_free_rate
           alpha target_return mean covariance d_ewma
         = Ok (port, args) /\
         get_risk_parity_portfolio env stocks period start end_ log_returns
           freq maxnan threshold method risk_measure (Some rc)
           risk_free_rate alpha target_return mean covariance d_ewma value
         = (let! weights :=
              scaled_weights_result value (rp_optimization env port args) in
            Ok (weights,
                Some (stock_returns env stocks period start end_
                        log_returns freq maxnan threshold method))) /\
         rp_b args = Some [(fun x => fdiv x (np_sum [rc])) <$> rc]) /\
      ((fltb (of_Z (-1)) target_return = true ->
        upper freq ∈ ["D"; "W"; "M"]) ->
       exists port args,
         rel_risk_parity_problem env stocks period start end_ log_returns
           freq maxnan threshold method version (Some rc) penal_factor
           target_return mean covariance d_ewma
         = Ok (port, args) /\
         get_rel_risk_parity_portfolio env stocks period start end_
           log_returns freq maxnan threshold method version (Some rc)
           penal_factor target_return mean covariance d_ewma value
         = (let! weights :=
              scaled_weights_result value (rrp_optimization env port args) in
            Ok (weights,
                Some (stock_returns env stocks period start end_
                        log_returns freq maxnan threshold method))) /\
         rrp_b args = Some [(fun x => fdiv x (np_sum [rc])) <$> rc])) /\
  (forall rc : list R,
      np_sum [rc] <> 0%R ->
      exists b : list R,
        normalise_risk_cont rc = [b] /\
        length b = length rc /\
        np_sum [b] = 1%R /\
        forall i j x y,
          rc !! i = Some x ->
          rc !! j = Some y ->
          exists x' y',
            b !! i = Some x' /\
            b !! j = Some y' /\
            (x = y <-> x' = y') /\
            ((0 < np_sum [rc])%R -> ((x < y)%R <-> (x' < y')%R)) /\
            ((np_sum [rc] < 0)%R -> ((x < y)%R <-> (y' < x')%R))).
Proof.
  split.
  - intros F ops env stocks period start end_ log_returns freq maxnan
      threshold method risk_measure version risk_free_rate alpha
      target_return penal_factor mean covariance d_ewma value rc.
    assert (Hfactor : upper freq ∈ ["D"; "W"; "M"] ->
                      exists factor,
                        time_factor (F := F) !! upper freq = Some factor).
    { intros Hcode. in_list Hcode; rewrite Hcode; eexists; reflexivity. }
    split.
    + intros Hcode. destruct (Hfactor Hcode) as (factor & Hlook).
      assert (Hok : exists port args,
                 risk_parity_problem env stocks period start end_
                   log_returns freq maxnan threshold method risk_measure
                   (Some rc) risk_free_rate alpha target_return mean
                   covariance d_ewma
                 = Ok (port, args) /\
                 rp_b args = Some [(fun x => fdiv x (np_sum [rc])) <$> rc]).
      { unfold risk_parity_problem, getitem. rewrite Hlook. cbn [bind].
        destruct (fltb (of_Z (-1)) target_return); cbn [bind];
          do 2 eexists; split; reflexivity. }
      destruct Hok as (port & args & Hok & Hb).
      exists port, args. split; [exact Hok |]. split; [| exact Hb].
      unfold get_risk_parity_portfolio. rewrite Hok. reflexivity.
    + intros Hcode.
      assert (Hok : exists port args,
                 rel_risk_parity_problem env stocks period start end_
                   log_returns freq maxnan threshold method version
                   (Some rc) penal_factor target_return mean covariance
                   d_ewma
                 = Ok (port, args) /\
                 rrp_b args = Some [(fun x => fdiv x (np_sum [rc])) <$> rc]).
      { unfold rel_risk_parity_problem, getitem.
        destruct (fltb (of_Z (-1)) target_return).
        - destruct (Hfactor (Hcode eq_refl)) as (factor & Hlook).
          rewrite Hlook. cbn [bind]. do 2 eexists. split; reflexivity.
        - cbn [bind]. do 2 eexists. split; reflexivity. }
      destruct Hok as (port & args & Hok & Hb).
      exists port, args. split; [exact Hok |]. split; [| exact Hb].
      unfold get_rel_risk_parity_portfolio. rewrite Hok. reflexivity.
  - intros rc Hsum.
    exists ((fun x => x / np_sum [rc])%R <$> rc).
    split; [reflexivity |]. split; [apply length_fmap |]. split.
    { rewrite np_sum_row, sum_of_quotients, <- np_sum_row.
      apply Rdiv_diag. exact Hsum. }
    intros i j x y Hi Hj.
    exists (x / np_sum [rc])%R, (y / np_sum [rc])%R.
    rewrite !list_lookup_fmap, Hi, Hj.
    split; [reflexivity |]. split; [reflexivity |].
    unfold Rdiv. split; [| split].
    + split; intros Hxy.
      * rewrite Hxy. reflexivity.
      * apply Rmult_eq_reg_r in Hxy; [exact Hxy |].
        apply Rinv_neq_0_compat. exact Hsum.
    + intros Hpos.
      assert (Hinv : (0 < / np_sum [rc])%R)
        by (apply Rinv_0_lt_compat; exact Hpos).
      split; intros Hxy.
      * apply Rmult_lt_compat_r; assumption.
      * apply Rmult_lt_reg_r in Hxy; assumption.
    + intros Hneg.
      assert (Hinv : (/ np_sum [rc] < 0)%R)
        by (apply Rinv_lt_0_compat; exact Hneg).
      split; intros Hxy.
      * apply Rmult_lt_gt_compat_neg_l with (r := (/ np_sum [rc])%R) in Hxy;
          [| exact Hinv].
        rewrite !(Rmult_comm _ (/ np_sum [rc])). exact Hxy.
      * destruct (Rlt_dec x y) as [Hlt | Hge]; [exact Hlt |].
        exfalso. apply Rnot_lt_le in Hge.
        assert (Hle : (x * / np_sum [rc] <= y * / np_sum [rc])%R).
        { rewrite !(Rmult_comm _ (/ np_sum [rc])).
          apply Rmult_le_compat_neg_l; [lra | exact Hge]. }
        lra.
Qed.

(** ** Runs in binary64 *)

(** The sample generator keeps the promise of [dirichlet]. *)
Lemma sample_dirichlet_shape `{PyFloat F} info answer :
  dirichlet_shape (Sample.env (F := F) info answer).
Proof.
  intros rs rs' alpha n w. cbn [dirichlet Sample.env].
  destruct (n <? 0)%Z eqn:Hneg; [discriminate |].
  destruct (existsb _ alpha); [discriminate |].
  destruct (2 ^ 31 <=? n)%Z; [discriminate |].
  intros [= <- _]. apply Z.ltb_ge in Hneg.
  split; [exact Hneg |]. split.
  - apply length_replicate.
  - apply Forall_replicate. unfold Sample.mean_draw. apply length_fmap.
Qed.

(** C3 fails in four ways.  For entries that add up to a negative number
    the order is reversed: [[1, -3]] is handed over as [[-0.5, 1.5]],
    where the second entry, the smaller one of the input, is the larger
    one.  For entries that add up to zero nothing adds up to 1: [[1, -1]]
    is handed over as [[inf, -inf]].  In binary64 entries of both signs
    can lose the sum to cancellation: the entries of [[1e16, 11, -1e16]]
    add up to 12 in [np.sum], not to 11, and the entries of the vector
    handed over add up to 0.875, an eighth away from 1.  And in binary64
    two entries that differ can be handed over as equal: the float below
    1 and 1 itself, with another 1, all become the same third. *)
Lemma normalisation_loses_sum_and_order :
  (exists port args,
      risk_parity_problem Sample.infeasible ["A"; "B"] "3y" "2019" "2022"
        false "D" (decimal 5 100) (of_Z 0) "time" "MV"
        (Some [1; -3]%float) (of_Z 0) (decimal 5 100) (of_Z (-1)) "hist"
        "hist" (decimal 94 100)
      = Ok (port, args) /\
      rp_b args = Some [[-0.5; 1.5]]%float) /\
  fltb (-3)%float 1%float = true /\
  fltb (-0.5)%float 1.5%float = true /\
  normalise_risk_cont [1; -1]%float = [[infinity; neg_infinity]] /\
  feqb (np_sum (normalise_risk_cont [1; -1]%float)) 1%float = false /\
  np_sum [[1e16; 11; -1e16]%float] = 12%float /\
  np_sum (normalise_risk_cont [1e16; 11; -1e16]%float) = 0.875%float /\
  fltb 0x1.fffffffffffffp-1%float 1%float = true /\
  normalise_risk_cont [0x1.fffffffffffffp-1; 1; 1]%float
  = [[0x1.5555555555555p-2; 0x1.5555555555555p-2;
      0x1.5555555555555p-2]%float].
Proof.
  split; [do 2 eexists; split; reflexivity |].
  repeat split; reflexivity.
Qed.

(** C5 fails on [get_property_weights] when no ticker has the attribute:
    the second component is [None], not the returns. *)
Lemma property_weights_without_returns :
  get_property_weights Sample.unlisted ["A"; "B"] "3y" "2019"
    "2022" false "D" (decimal 5 100) (of_Z 0) "time" "marketCap" 1%float
  = Ok (None, None).
Proof. reflexivity. Qed.

(** C6 fails in binary64: one unit of annual risk, brought to a day and
    back, is [0.9999999999999999]. *)
Lemma period_risk_round_trip_binary64 :
  time_factor (F := float) !! "D" = Some 252%float /\
  fmul (period_risk 252%float 1%float) (PrimFloat.sqrt 252%float)
  = 0x1.fffffffffffffp-1%float /\
  feqb (fmul (period_risk 252%float 1%float) (PrimFloat.sqrt 252%float))
       1%float
  = false.
Proof. repeat split; reflexivity. Qed.

(** C7 fails where the generator does not take the seed, where the float
    quotient is not the integer quotient, and where a draw does not
    return: a seed of -1 is refused with a [ValueError]; for
    [n_portfolios = 3 * 2^52 + 2] the batches are asked 2^52 + 1 samples
    each, one more than a third of the request rounded down; and a
    generator that cannot hold 2^31 rows raises for a request of
    [3 * 2^31]. *)
Lemma random_portfolios_refused :
  generate_random_portfolios Sample.infeasible ["A"; "B"] 6 (-1) 1%float
  = Raise (ValueError "Seed must be between 0 and 2**32 - 1") /\
  int_third (3 * 2 ^ 52 + 2) = Ok (2 ^ 52 + 1)%Z /\
  ((3 * 2 ^ 52 + 2) / 3 = 2 ^ 52)%Z /\
  generate_random_portfolios Sample.infeasible ["A"; "B"] (3 * 2 ^ 31) 123
    1%float
  = Raise (MemoryError "dirichlet").
Proof. repeat split; reflexivity. Qed.

(** C10 fails with a provider that tells [d] from [D]: the code is upper
    case in the lookups of the module only, the provider gets it as
    written, and the returns that come back differ. *)
Lemma lower_case_code_reaches_provider :
  upper "d" = "D" /\
  get_mean_risk_portfolio Sample.case_sensitive ["A"; "B"] "3y" "2019"
    "2022" false "d" (decimal 5 100) (of_Z 0) "time" "MV" "Sharpe"
    (decimal 1 100) (of_Z 2) (decimal 5 100) (of_Z (-1)) (of_Z (-1)) "hist"
    "hist" (decimal 94 100) 1%float 0%float
  = Ok (None,
        Some {| index := []; columns := [LStr "A"; LStr "B"];
                values := [] |}) /\
  get_mean_risk_portfolio Sample.case_sensitive ["A"; "B"] "3y" "2019"
    "2022" false "D" (decimal 5 100) (of_Z 0) "time" "MV" "Sharpe"
    (decimal 1 100) (of_Z 2) (decimal 5 100) (of_Z (-1)) (of_Z (-1)) "hist"
    "hist" (decimal 94 100) 1%float 0%float
  = Ok (None, Some Sample.returns) /\
  length (values (Sample.returns (F := float))) = 2%nat.
Proof. repeat split; reflexivity. Qed.

(** *** The entry points at work *)

(** A feasible answer is rounded to five decimals and keyed by ticker. *)
Example mean_risk_run :
  get_mean_risk_portfolio
    (Sample.answering [("A", decimal 1 3); ("B", decimal 2 3)])
    ["A"; "B"] "3y" "2019" "2022" false "D" (decimal 5 100) (of_Z 0) "time"
      "MV"
    "Sharpe" (of_Z 0) (of_Z 2) (decimal 5 100) (of_Z (-1)) (of_Z (-1)) "hist"
    "hist" (decimal 94 100) 1%float 0%float
  = Ok (Some (<["A" := decimal 33333 100000]>
                (<["B" := decimal 66667 100000]> ∅)),
        Some (stock_returns
                (Sample.answering [("A", decimal 1 3); ("B", decimal 2 3)])
                ["A"; "B"] "3y" "2019" "2022" false "D" (decimal 5 100)
                (of_Z 0) "time")).
Proof. vm_compute. reflexivity. Qed.

(** A frame of one asset squeezes to a scalar, which has no [to_dict]. *)
Example one_asset_run :
  get_max_diversification_portfolio (Sample.answering [("A", 1%float)])
    ["A"] "3y" "2019" "2022" false "D" (decimal 5 100) (of_Z 0) "time" "hist"
    (decimal 94 100) 1%float 0%float
  = Raise (AttributeError "to_dict").
Proof. reflexivity. Qed.

(** An unknown frequency code is a [KeyError]. *)
Example unknown_frequency_run :
  get_hcp_portfolio Sample.infeasible
    ["A"; "B"] "3y" "2019" "2022" false "Y" (decimal 5 100) (of_Z 0) "time"
      "HRP"
    "pearson" "hist" "MinRisk" "MV" (of_Z 0) (of_Z 1) (decimal 5 100) 100
    None None "single" 0 10 "KN" (decimal 5 100) true (decimal 94 100)
    1%float
  = Raise (KeyError "Y").
Proof. reflexivity. Qed.

(** Risk parity scales the answer by [value] before rounding. *)
Example risk_parity_run :
  get_risk_parity_portfolio
    (Sample.answering [("A", 0.25%float); ("B", 0.75%float)])
    ["A"; "B"] "3y" "2019" "2022" false "m" (decimal 5 100) (of_Z 0) "time"
      "MV"
    (Some [1; 3]%float) (of_Z 0) (decimal 5 100) (of_Z (-1)) "hist" "hist"
    (decimal 94 100) 1000%float
  = Ok (Some (<["A" := 250%float]> (<["B" := 750%float]> ∅)),
        Some (stock_returns
                (Sample.answering [("A", 0.25%float); ("B", 0.75%float)])
                ["A"; "B"] "3y" "2019" "2022" false "m" (decimal 5 100)
                (of_Z 0) "time")).
Proof. vm_compute. reflexivity. Qed.

(** *** The theorems at work *)

(** C1 on MDD with the code [d] and on MV with the code [w]. *)
Lemma target_risk_upper_bound_witness :
  (exists port args,
      mean_risk_problem Sample.infeasible ["A"; "B"] "3y" "2019" "2022"
        false "d" (decimal 5 100) (of_Z 0) "time" "MDD" "Sharpe" (of_Z 0)
        (of_Z 2) (decimal 5 100) (of_Z (-1)) (decimal 1 10) "hist" "hist"
        (decimal 94 100) (of_Z 1) (of_Z 0)
      = Ok (port, args) /\
      port !! "uppermdd" = Some (VFloat (decimal 1 10 : float))) /\
  (exists port args,
      mean_risk_problem Sample.infeasible ["A"; "B"] "3y" "2019" "2022"
        false "w" (decimal 5 100) (of_Z 0) "time" "MV" "Sharpe" (of_Z 0)
        (of_Z 2) (decimal 5 100) (of_Z (-1)) (decimal 1 10) "hist" "hist"
        (decimal 94 100) (of_Z 1) (of_Z 0)
      = Ok (port, args) /\
      port !! "upperdev"
      = Some (VFloat (PrimFloat.div (decimal 1 10) (PrimFloat.sqrt 52)))).
Proof.
  split.
  - pose proof (@target_risk_upper_bound float Binary64.float_ops
                  Sample.infeasible ["A"; "B"] "3y" "2019" "2022"
                  false "d" (decimal 5 100) (of_Z 0) "time" "MDD" "Sharpe"
                  (of_Z 0) (of_Z 2) (decimal 5 100) (of_Z (-1)) (decimal 1 10)
                  "hist" "hist" (decimal 94 100) (of_Z 1) (of_Z 0)
                  "D" 252 "uppermdd") as Hbound.
    destruct (Hbound eq_refl eq_refl ltac:(repeat constructor) eq_refl)
      as (port & args & Hok & _ & Hport).
    exists port, args. split; [exact Hok | exact Hport].
  - pose proof (@target_risk_upper_bound float Binary64.float_ops
                  Sample.infeasible ["A"; "B"] "3y" "2019" "2022"
                  false "w" (decimal 5 100) (of_Z 0) "time" "MV" "Sharpe"
                  (of_Z 0) (of_Z 2) (decimal 5 100) (of_Z (-1)) (decimal 1 10)
                  "hist" "hist" (decimal 94 100) (of_Z 1) (of_Z 0)
                  "W" 52 "upperdev") as Hbound.
    destruct (Hbound eq_refl eq_refl ltac:(repeat constructor) eq_refl)
      as (port & args & Hok & _ & Hport).
    exists port, args. split; [exact Hok | exact Hport].
Defined.

(** C2 on the three entry points: a short budget of a quarter in the
    mean-risk path, none in the diversification path and [-0.0] in the
    decorrelation path. *)
Lemma classic_budget_constraints_witness :
  (exists port args,
      mean_risk_problem Sample.infeasible ["A"; "B"] "3y" "2019" "2022"
        false "D" (decimal 5 100) (of_Z 0) "time" "MV" "Sharpe" (of_Z 0)
        (of_Z 2) (decimal 5 100) (of_Z (-1)) (of_Z (-1)) "hist" "hist"
        (decimal 94 100) 1%float 0.25%float
      = Ok (port, args) /\
      port !! "upperlng" = Some (VFloat 1%float) /\
      port !! "sht" = Some (VBool true) /\
      port !! "uppersht" = Some (VFloat 0.25%float) /\
      port !! "budget" = Some (VFloat 0.75%float)) /\
  (exists port args,
      max_diversification_problem Sample.infeasible ["A"; "B"] "3y" "2019"
        "2022" false "D" (decimal 5 100) (of_Z 0) "time" "hist"
        (decimal 94 100) 1%float 0%float
      = Ok (port, args) /\
      port !! "upperlng" = Some (VFloat 1%float) /\
      port !! "budget" = Some (VFloat 1%float) /\
      port !! "sht" = Some (VBool false)) /\
  (exists port args,
      max_decorrelation_problem Sample.infeasible ["A"; "B"] "3y" "2019"
        "2022" false "D" (decimal 5 100) (of_Z 0) "time" "hist"
        (decimal 94 100) 1%float (-0)%float
      = Ok (port, args) /\
      port !! "upperlng" = Some (VFloat 1%float) /\
      port !! "budget" = Some (VFloat 1%float) /\
      port !! "sht" = Some (VBool false)).
Proof.
  split; [| split].
  - pose proof (@classic_budget_constraints float Binary64.float_ops
                  Sample.infeasible ["A"; "B"] "3y" "2019" "2022" false "D"
                  (decimal 5 100) (of_Z 0) "time" "MV" "Sharpe" (of_Z 0)
                  (of_Z 2) (decimal 5 100) (of_Z (-1)) (of_Z (-1)) "hist"
                  "hist" (decimal 94 100) 1%float 0.25%float float_laws)
      as (Hmean_risk & _).
    destruct Hmean_risk as (port & args & Hok & _ & Hlong & Hshort & _).
    + repeat constructor.
    + discriminate.
    + destruct (Hshort eq_refl) as (Hsht & Hupper & Hbudget).
      exists port, args. repeat split; assumption.
  - pose proof (@classic_budget_constraints float Binary64.float_ops
                  Sample.infeasible ["A"; "B"] "3y" "2019" "2022" false "D"
                  (decimal 5 100) (of_Z 0) "time" "MV" "Sharpe" (of_Z 0)
                  (of_Z 2) (decimal 5 100) (of_Z (-1)) (of_Z (-1)) "hist"
                  "hist" (decimal 94 100) 1%float 0%float float_laws)
      as (_ & Hdiversification & _).
    destruct Hdiversification as (port & args & Hok & _ & Hlong & _ & Hzero).
    destruct (Hzero eq_refl) as (Hbudget & Hsht).
    exists port, args. repeat split; assumption.
  - pose proof (@classic_budget_constraints float Binary64.float_ops
                  Sample.infeasible ["A"; "B"] "3y" "2019" "2022" false "D"
                  (decimal 5 100) (of_Z 0) "time" "MV" "Sharpe" (of_Z 0)
                  (of_Z 2) (decimal 5 100) (of_Z (-1)) (of_Z (-1)) "hist"
                  "hist" (decimal 94 100) 1%float (-0)%float float_laws)
      as (_ & _ & Hdecorrelation).
    destruct Hdecorrelation as (port & args & Hok & _ & Hlong & _ & Hzero).
    + eexists. reflexivity.
    + destruct (Hzero eq_refl) as (Hbudget & Hsht).
      exists port, args. repeat split; assumption.
Defined.

(** C3 on the vector [[1, 3]]. *)
Lemma risk_contributions_normalised_witness :
  exists b : list R,
    normalise_risk_cont [1; 3]%R = [b] /\
    np_sum [b] = 1%R /\
    b !! 0%nat = Some (1 / np_sum [[1; 3]])%R.
Proof.
  destruct risk_contributions_normalised as (_ & Hexact).
  destruct (Hexact [1; 3]%R) as (b & Hb & _ & Hone & _).
  - rewrite np_sum_row. cbn. lra.
  - exists b. split; [exact Hb |]. split; [exact Hone |].
    injection Hb as <-. reflexivity.
Defined.

(** C4 on an engine that finds no solution. *)
Lemma no_solution_is_returned_witness :
  get_mean_risk_portfolio Sample.infeasible ["A"; "B"] "3y" "2019"
    "2022" false "D" (decimal 5 100) (of_Z 0) "time" "MV" "Sharpe" (of_Z 0)
    (of_Z 2) (decimal 5 100) (decimal 9 10) (decimal 1 1000) "hist" "hist"
    (decimal 94 100) 1%float 0%float
  = Ok (None,
        Some (stock_returns Sample.infeasible ["A"; "B"] "3y" "2019"
                "2022" false "D" (decimal 5 100) (of_Z 0) "time")).
Proof.
  destruct (@no_solution_is_returned float Binary64.float_ops
              Sample.infeasible ["A"; "B"] "3y" "2019" "2022" false "D"
              (decimal 5 100) (of_Z 0) "time" "MV" "Sharpe" (of_Z 0) (of_Z 2)
              (decimal 5 100) (decimal 9 10) (decimal 1 1000) "hist" "hist"
              (decimal 94 100) 1%float 0%float None "A" (of_Z 1) "HRP"
              "pearson" 100 None None "single" 0 10 "KN" (decimal 5 100) true)
    as (Hmean_risk & _).
  exact (Hmean_risk _ _ eq_refl eq_refl).
Defined.

(** C5 on two tickers of market capitalisation 3 and 1. *)
Lemma returns_come_with_the_weights_witness :
  get_property_weights Sample.infeasible ["A"; "B"] "3y" "2019" "2022"
    false "D" (decimal 5 100) (of_Z 0) "time" "marketCap" 1%float
  = Ok (Some (<["A" := 0.75%float]> (<["B" := 0.25%float]> ∅)),
        Some (stock_returns Sample.infeasible ["A"; "B"] "3y" "2019"
                "2022" false "D" (decimal 5 100) (of_Z 0) "time")) /\
  exists (prop : gmap string float) (prop_sum : float),
    property_loop Sample.infeasible "marketCap" ["A"; "B"] ∅
      (of_Z 0)
    = Ok (prop, prop_sum) /\
    feqb prop_sum (of_Z 0) = false.
Proof.
  split; [reflexivity |].
  pose proof (@returns_come_with_the_weights float Binary64.float_ops
                Sample.infeasible ["A"; "B"] "3y" "2019" "2022" false "D"
                (decimal 5 100) (of_Z 0) "time" "MV" "Sharpe" (of_Z 0)
                (of_Z 2) (decimal 5 100) (of_Z (-1)) (of_Z (-1)) "hist" "hist"
                (decimal 94 100) 1%float 0%float None "A" (of_Z 1) "HRP"
                "pearson" 100 None None "single" 0 10 "KN" (decimal 5 100)
                true "marketCap")
    as (_ & Hproperty & _).
  destruct (Hproperty _ _ eq_refl) as (prop & prop_sum & Hloop & Hcases).
  exists prop, prop_sum. split; [exact Hloop |].
  destruct (feqb prop_sum (of_Z 0)); [| reflexivity].
  destruct Hcases as [Hnone _]. discriminate Hnone.
Defined.

(** C6 on one unit of annual risk and daily returns. *)
Lemma period_risk_round_trip_witness :
  (period_risk (IZR 252) 1 * sqrt (IZR 252))%R = 1%R.
Proof.
  exact (proj2 (period_risk_round_trip 1%R "D" 252 ltac:(repeat
    constructor))).
Defined.

(** C7 on two tickers, seven portfolios and a thousand to invest: two
    draws a batch and eight columns; the first draw is a half of the
    thousand for each asset, and the last column is asset B alone. *)
Lemma random_portfolios_table_witness :
  exists table row,
    generate_random_portfolios Sample.infeasible ["A"; "B"] 7 123
      1000%float
    = Ok table /\
    length (columns table) = 8%nat /\
    values table !! 0%nat = Some row /\
    row !! 0%nat = Some 500%float /\
    row !! 7%nat = Some 0%float.
Proof.
  destruct (@random_portfolios_table float Binary64.float_ops
              Sample.infeasible ["A"; "B"] 1000%float 7 123
              123%Z 124%Z 125%Z 126%Z
              [[0.5; 0.5]; [0.5; 0.5]]%float
              [[0.5; 0.5]; [0.5; 0.5]]%float
              [[0.5; 0.5]; [0.5; 0.5]]%float
              (sample_dirichlet_shape Sample.caps None) ltac:(lia)
              eq_refl eq_refl eq_refl eq_refl)
    as (table & Hrun & _ & _ & _ & Hcolumns & Htable).
  destruct Htable as (_ & _ & _ & Hrows).
  destruct (Hrows 0%nat ltac:(cbn; lia))
    as (row & Hrow & _ & Hdraws & Hunits).
  exists table, row. split; [exact Hrun |]. split; [exact Hcolumns |].
  split; [exact Hrow |]. split.
  - exact (Hdraws 0%nat [0.5; 0.5]%float 0.5%float eq_refl eq_refl).
  - exact (Hunits 1%nat ltac:(cbn; lia)).
Defined.

(** C9 on three tickers and a thousand to invest: a third rounds to
    0.33333, and the weight is a thousand times that float. *)
Lemma equal_weights_value_witness :
  exists weights : gmap string float,
    get_equal_weights Sample.infeasible ["A"; "B"; "C"] "3y" "2019" "2022"
      false "D" (decimal 5 100) (of_Z 0) "time" 1000%float
    = Ok (Some weights,
          Some (stock_returns Sample.infeasible ["A"; "B"; "C"] "3y" "2019"
                  "2022" false "D" (decimal 5 100) (of_Z 0) "time")) /\
    weights !! "A" = Some (fmul 1000%float (decimal 33333 100000)) /\
    weights !! "D" = None.
Proof.
  destruct equal_weights_value as (_ & Hbinary64 & _).
  destruct (Hbinary64 Sample.infeasible ["A"; "B"; "C"] "3y" "2019" "2022"
              false "D" (decimal 5 100) (of_Z 0) "time" 1000%float
              ltac:(cbn; lia))
    as (k & weights & Hrun & Hnear & Hweights).
  assert (Hk : k = 33333%Z) by (cbn in Hnear; lia).
  subst k. exists weights. split; [exact Hrun |]. split.
  - exact (Hweights "A").
  - exact (Hweights "D").
Defined.

(** C10 on the code [d]. *)
Lemma frequency_code_case_witness :
  get_mean_risk_portfolio Sample.infeasible ["A"; "B"] "3y" "2019"
    "2022" false "d" (decimal 5 100) (of_Z 0) "time" "MV" "Sharpe"
    (decimal 1 100) (of_Z 2) (decimal 5 100) (decimal 1 10) (decimal 1 10)
    "hist" "hist" (decimal 94 100) 1%float 0%float
  = get_mean_risk_portfolio Sample.infeasible ["A"; "B"] "3y" "2019"
      "2022" false "D" (decimal 5 100) (of_Z 0) "time" "MV" "Sharpe"
      (decimal 1 100) (of_Z 2) (decimal 5 100) (decimal 1 10) (decimal 1 10)
      "hist" "hist" (decimal 94 100) 1%float 0%float.
Proof.
  pose proof (@frequency_code_case float Binary64.float_ops
                Sample.infeasible ["A"; "B"] "3y" "2019" "2022" false "d"
                (decimal 5 100) (of_Z 0) "time" "MV" "Sharpe" (decimal 1 100)
                (of_Z 2) (decimal 5 100) (decimal 1 10) (decimal 1 10) "hist"
                "hist" (decimal 94 100) 1%float 0%float None "A" (of_Z 1)
                "HRP" "pearson" 100 None None "single" 0 10 "KN"
                (decimal 5 100) true)
    as Hcase.
  destruct (Hcase ltac:(repeat constructor) eq_refl) as (_ & Hmean_risk & _).
  exact Hmean_risk.
Defined.

(** * Further properties of the module *)

(** ** Lookups that fail *)

Lemma getitem_None {V} (d : gmap string V) (k : string) :
  d !! k = None -> getitem d k = Raise (KeyError k).
Proof. intros Hlook. unfold getitem. rewrite Hlook. reflexivity. Qed.

(** A code outside the table has no factor. *)
Lemma time_factor_unknown `{PyFloat F} (code : string) :
  code ∉ ["D"; "W"; "M"] -> time_factor (F := F) !! code = None.
Proof.
  intros Hcode. unfold time_factor. cbn [list_to_map foldr fst snd].
  rewrite !lookup_insert_ne, lookup_empty; [reflexivity | ..];
    intros <-; apply Hcode; repeat constructor.
Qed.

(** The budget block writes four attributes and no other. *)
Lemma budget_other `{PyFloat F} (value value_short : F)
    (port : gmap string (pyval F)) (name : string) :
  name ∉ ["upperlng"; "sht"; "uppersht"; "budget"] ->
  budget_constraints value value_short port !! name = port !! name.
Proof.
  intros Hname. unfold budget_constraints.
  destruct (fltb (of_Z 0) value_short);
    rewrite !lookup_insert_ne; try reflexivity;
    intros <-; apply Hname; repeat constructor.
Qed.

Section Further.
Context {F : Type} `{PyFloat F}.
Variables (env : Env F).
Variables (stocks : list string) (period start end_ : string)
          (log_returns : bool) (freq : string) (maxnan threshold : F)
          (method : string).
Variables (risk_measure objective : string)
          (risk_free_rate risk_aversion alpha target_return target_risk : F)
          (mean covariance : string) (d_ewma value value_short : F).
Variables (risk_cont : option (list F)) (version : string) (penal_factor : F).
Variables (model codependence : string) (a_sim : Z) (beta : option F)
          (b_sim : option Z) (linkage : string) (k max_k : Z)
          (bins_info : string) (alpha_tail : F) (leaf_order : bool).
Variables (s_property : string) (n_portfolios seed : Z).

(** X1: an ASCII frequency code whose upper case is not D, W or M makes
    [get_mean_risk_portfolio], [get_risk_parity_portfolio] and
    [get_hcp_portfolio] raise [KeyError] on the upper-cased code, whatever
    the other arguments; [get_rel_risk_parity_portfolio] raises it when a
    target return is given. *)
Theorem unknown_frequency_is_key_error :
  is_ascii freq = true ->
  upper freq ∉ ["D"; "W"; "M"] ->
  get_mean_risk_portfolio env stocks period start end_ log_returns freq
    maxnan threshold method risk_measure objective risk_free_rate
    risk_aversion alpha target_return target_risk mean covariance d_ewma
    value value_short
  = Raise (KeyError (upper freq)) /\
  get_risk_parity_portfolio env stocks period start end_ log_returns freq
    maxnan threshold method risk_measure risk_cont risk_free_rate alpha
    target_return mean covariance d_ewma value
  = Raise (KeyError (upper freq)) /\
  get_hcp_portfolio env stocks period start end_ log_returns freq maxnan
    threshold method model codependence covariance objective risk_measure
    risk_free_rate risk_aversion alpha a_sim beta b_sim linkage k max_k
    bins_info alpha_tail leaf_order d_ewma value
  = Raise (KeyError (upper freq)) /\
  (fltb (of_Z (-1)) target_return = true ->
   get_rel_risk_parity_portfolio env stocks period start end_ log_returns
     freq maxnan threshold method version risk_cont penal_factor
     target_return mean covariance d_ewma value
   = Raise (KeyError (upper freq))).
Proof.
  intros _ Hcode. apply (time_factor_unknown (F := F)) in Hcode.
  apply getitem_None in Hcode.
  repeat split.
  - unfold get_mean_risk_portfolio, mean_risk_problem.
    rewrite Hcode. reflexivity.
  - unfold get_risk_parity_portfolio, risk_parity_problem.
    rewrite Hcode. reflexivity.
  - unfold get_hcp_portfolio, hcp_problem. rewrite Hcode. reflexivity.
  - intros Htarget.
    unfold get_rel_risk_parity_portfolio, rel_risk_parity_problem.
    rewrite Htarget, Hcode. reflexivity.
Qed.

(** X2: without a target return, [get_rel_risk_parity_portfolio] never
    looks the frequency code up and checks neither the code nor
    [version]: the engine is called for every code and every version, with
    [version] and [penal_factor] as given, on an object whose attributes
    are the ones the estimation step left. *)
Theorem rel_risk_parity_without_target :
  fltb (of_Z (-1)) target_return = false ->
  rel_risk_parity_problem env stocks period start end_ log_returns freq
    maxnan threshold method version risk_cont penal_factor target_return
    mean covariance d_ewma
  = Ok (assets_stats env
          (Portfolio_init env
             (stock_returns env stocks period start end_ log_returns freq
                maxnan threshold method) None)
          mean covariance d_ewma,
        {| rrp_model := "Classic"; rrp_version := version;
           rrp_l := penal_factor;
           rrp_b := normalise_risk_cont <$> risk_cont;
           rrp_hist := true |}).
Proof.
  intros Htarget. unfold rel_risk_parity_problem. rewrite Htarget.
  destruct risk_cont; reflexivity.
Qed.

(** X3: a risk measure that [upper_risk] does not list makes
    [get_mean_risk_portfolio] raise [KeyError] on the measure when a target
    risk is given; without a target risk the measure is not looked up and
    reaches the engine as it is. *)
Theorem unregistered_risk_measure (code : string) (n : Z) :
  (code, n) ∈ [("D", 252%Z); ("W", 52%Z); ("M", 12%Z)] ->
  upper freq = code ->
  upper_risk !! risk_measure = None ->
  (fltb (of_Z (-1)) target_risk = true ->
   get_mean_risk_portfolio env stocks period start end_ log_returns freq
     maxnan threshold method risk_measure objective risk_free_rate
     risk_aversion alpha target_return target_risk mean covariance d_ewma
     value value_short
   = Raise (KeyError risk_measure)) /\
  (fltb (of_Z (-1)) target_risk = false ->
   exists port,
     mean_risk_problem env stocks period start end_ log_returns freq maxnan
       threshold method risk_measure objective risk_free_rate risk_aversion
       alpha target_return target_risk mean covariance d_ewma value
       value_short
     = Ok (port,
           {| opt_model := "Classic"; opt_rm := risk_measure;
              opt_obj := objective;
              opt_rf := fdiv risk_free_rate (of_Z n);
              opt_l := Some risk_aversion; opt_hist := true |})).
Proof.
  intros Hcode Hfreq Hmeasure.
  pose proof (time_factor_lookup (F := F) code n Hcode) as Hfactor.
  rewrite <- Hfreq in Hfactor. apply getitem_Some in Hfactor.
  apply getitem_None in Hmeasure.
  split; intros Hrisk.
  - unfold get_mean_risk_portfolio, mean_risk_problem.
    rewrite Hfactor, Hrisk, Hmeasure. cbn [bind].
    destruct (fltb (of_Z (-1)) target_return); cbn [bind];
      destruct (negb _); reflexivity.
  - unfold mean_risk_problem. rewrite Hfactor, Hrisk. cbn [bind].
    destruct (fltb (of_Z (-1)) target_return); cbn [bind]; eauto.
Qed.

(** What the two risk parity entry points and the hierarchical one hand to
    the engine, for a code of the table. *)
Lemma risk_parity_problem_eq (factor : F) :
  time_factor !! upper freq = Some factor ->
  risk_parity_problem env stocks period start end_ log_returns freq maxnan
    threshold method risk_measure risk_cont risk_free_rate alpha
    target_return mean covariance d_ewma
  = Ok ((let port :=
           assets_stats env
             (Portfolio_init env
                (stock_returns env stocks period start end_ log_returns freq
                   maxnan threshold method) (Some alpha))
             mean covariance d_ewma in
         if fltb (of_Z (-1)) target_return
         then <["lowerret" := VFloat (fdiv target_return factor)]> port
         else port),
        {| rp_model := "Classic"; rp_rm := risk_measure;
           rp_rf := fdiv risk_free_rate factor;
           rp_b := normalise_risk_cont <$> risk_cont; rp_hist := true |}).
Proof.
  intros Hfactor. apply getitem_Some in Hfactor.
  unfold risk_parity_problem. rewrite Hfactor. cbn [bind].
  destruct (fltb (of_Z (-1)) target_return), risk_cont; reflexivity.
Qed.

Lemma rel_risk_parity_problem_eq (factor : F) :
  time_factor !! upper freq = Some factor ->
  rel_risk_parity_problem env stocks period start end_ log_returns freq
    maxnan threshold method version risk_cont penal_factor target_return
    mean covariance d_ewma
  = Ok ((let port :=
           assets_stats env
             (Portfolio_init env
                (stock_returns env stocks period start end_ log_returns freq
                   maxnan threshold method) None)
             mean covariance d_ewma in
         if fltb (of_Z (-1)) target_return
         then <["lowerret" := VFloat (fdiv target_return factor)]> port
         else port),
        {| rrp_model := "Classic"; rrp_version := version;
           rrp_l := penal_factor;
           rrp_b := normalise_risk_cont <$> risk_cont; rrp_hist := true |}).
Proof.
  intros Hfactor. apply getitem_Some in Hfactor.
  unfold rel_risk_parity_problem. rewrite Hfactor.
  destruct (fltb (of_Z (-1)) target_return), risk_cont; reflexivity.
Qed.

(** X4: for a code of the table, a target return above -1 is stored in
    [lowerret] divided by the factor of the code, in the object that
    [get_mean_risk_portfolio], [get_risk_parity_portfolio] and
    [get_rel_risk_parity_portfolio] hand to the engine; any other target
    return leaves [lowerret] as the estimation step left it. *)
Theorem target_return_lower_bound (code : string) (n : Z) :
  (code, n) ∈ [("D", 252%Z); ("W", 52%Z); ("M", 12%Z)] ->
  upper freq = code ->
  (forall port args,
      mean_risk_problem env stocks period start end_ log_returns freq maxnan
        threshold method risk_measure objective risk_free_rate risk_aversion
        alpha target_return target_risk mean covariance d_ewma value
        value_short
      = Ok (port, args) ->
      port !! "lowerret"
      = if fltb (of_Z (-1)) target_return
        then Some (VFloat (fdiv target_return (of_Z n)))
        else assets_stats env
               (Portfolio_init env
                  (stock_returns env stocks period start end_ log_returns
                     freq maxnan threshold method) (Some alpha))
               mean covariance d_ewma !! "lowerret") /\
  (forall port args,
      risk_parity_problem env stocks period start end_ log_returns freq
        maxnan threshold method risk_measure risk_cont risk_free_rate alpha
        target_return mean covariance d_ewma
      = Ok (port, args) ->
      port !! "lowerret"
      = if fltb (of_Z (-1)) target_return
        then Some (VFloat (fdiv target_return (of_Z n)))
        else assets_stats env
               (Portfolio_init env
                  (stock_returns env stocks period start end_ log_returns
                     freq maxnan threshold method) (Some alpha))
               mean covariance d_ewma !! "lowerret") /\
  (forall port args,
      rel_risk_parity_problem env stocks period start end_ log_returns freq
        maxnan threshold method version risk_cont penal_factor target_return
        mean covariance d_ewma
      = Ok (port, args) ->
      port !! "lowerret"
      = if fltb (of_Z (-1)) target_return
        then Some (VFloat (fdiv target_return (of_Z n)))
        else assets_stats env
               (Portfolio_init env
                  (stock_returns env stocks period start end_ log_returns
                     freq maxnan threshold method) None)
               mean covariance d_ewma !! "lowerret").
Proof.
  intros Hcode Hfreq.
  pose proof (time_factor_lookup (F := F) code n Hcode) as Hfactor.
  rewrite <- Hfreq in Hfactor.
  split; [| split]; intros port args Hok.
  - apply mean_risk_problem_inv in Hok
      as (factor & port1 & port2 & Hfactor' & Hport1 & Hport2 & Hport & _).
    rewrite Hfactor in Hfactor'. injection Hfactor' as <-.
    assert (Hstep : port2 !! "lowerret"
                    = if fltb (of_Z (-1)) target_return
                      then Some (VFloat (fdiv target_return (of_Z n)))
                      else assets_stats env
                             (Portfolio_init env
                                (stock_returns env stocks period start end_
                                   log_returns freq maxnan threshold method)
                                (Some alpha))
                             mean covariance d_ewma !! "lowerret").
    { rewrite Hport2. destruct (fltb (of_Z (-1)) target_return).
      - apply lookup_insert_eq.
      - rewrite Hport1. apply budget_other.
        intros Hin. in_list Hin; discriminate. }
    destruct (fltb (of_Z (-1)) target_risk).
    + destruct Hport as (name & Hname & ->).
      apply upper_risk_names in Hname.
      rewrite lookup_insert_ne; [exact Hstep |].
      intros ->. in_list Hname; discriminate.
    + rewrite Hport. exact Hstep.
  - rewrite (risk_parity_problem_eq (of_Z n) Hfactor) in Hok.
    injection Hok as <- _. cbv zeta.
    destruct (fltb (of_Z (-1)) target_return);
      [apply lookup_insert_eq | reflexivity].
  - rewrite (rel_risk_parity_problem_eq (of_Z n) Hfactor) in Hok.
    injection Hok as <- _. cbv zeta.
    destruct (fltb (of_Z (-1)) target_return);
      [apply lookup_insert_eq | reflexivity].
Qed.

(** X5: for a code of the table, the risk-free rate that
    [get_mean_risk_portfolio] and [get_risk_parity_portfolio] pass to the
    engine is the annual rate divided by the factor of the code. *)
Theorem risk_free_rate_per_period (code : string) (n : Z) :
  (code, n) ∈ [("D", 252%Z); ("W", 52%Z); ("M", 12%Z)] ->
  upper freq = code ->
  (forall port args,
      mean_risk_problem env stocks period start end_ log_returns freq maxnan
        threshold method risk_measure objective risk_free_rate risk_aversion
        alpha target_return target_risk mean covariance d_ewma value
        value_short
      = Ok (port, args) ->
      opt_rf args = fdiv risk_free_rate (of_Z n)) /\
  (forall port args,
      risk_parity_problem env stocks period start end_ log_returns freq
        maxnan threshold method risk_measure risk_cont risk_free_rate alpha
        target_return mean covariance d_ewma
      = Ok (port, args) ->
      rp_rf args = fdiv risk_free_rate (of_Z n)).
Proof.
  intros Hcode Hfreq.
  pose proof (time_factor_lookup (F := F) code n Hcode) as Hfactor.
  rewrite <- Hfreq in Hfactor.
  split; intros port args Hok.
  - apply mean_risk_problem_inv in Hok
      as (factor & port1 & port2 & Hfactor' & _ & _ & _ & ->).
    rewrite Hfactor in Hfactor'. injection Hfactor' as <-. reflexivity.
  - rewrite (risk_parity_problem_eq (of_Z n) Hfactor) in Hok.
    injection Hok as _ <-. reflexivity.
Qed.

(** X6: when the estimation step has left a covariance [cov],
    [get_max_decorrelation_portfolio] calls the engine with
    [model="Classic"], [rm="MV"], [obj="MinRisk"], [rf=0] and [hist=True],
    on an object whose [cov] is [cov2corr(cov)]. *)
Theorem max_decorrelation_call (cov : pyval F) :
  assets_stats env
    (Portfolio_init env
       (stock_returns env stocks period start end_ log_returns freq maxnan
          threshold method) None)
    "hist" covariance d_ewma !! "cov"
  = Some cov ->
  exists port,
    max_decorrelation_problem env stocks period start end_ log_returns freq
      maxnan threshold method covariance d_ewma value value_short
    = Ok (port,
          {| opt_model := "Classic"; opt_rm := "MV"; opt_obj := "MinRisk";
             opt_rf := of_Z 0; opt_l := None; opt_hist := true |}) /\
    port !! "cov" = Some (cov2corr env cov) /\
    get_max_decorrelation_portfolio env stocks period start end_ log_returns
      freq maxnan threshold method covariance d_ewma value value_short
    = (let! weights :=
         weights_result
           (optimization env port
              {| opt_model := "Classic"; opt_rm := "MV";
                 opt_obj := "MinRisk"; opt_rf := of_Z 0; opt_l := None;
                 opt_hist := true |}) in
       Ok (weights,
           Some (stock_returns env stocks period start end_ log_returns
                   freq maxnan threshold method))).
Proof.
  intros Hcov.
  assert (Hok : max_decorrelation_problem env stocks period start end_
                  log_returns freq maxnan threshold method covariance d_ewma
                  value value_short
                = Ok (budget_constraints value value_short
                        (<["cov" := cov2corr env cov]>
                           (assets_stats env
                              (Portfolio_init env
                                 (stock_returns env stocks period start end_
                                    log_returns freq maxnan threshold method)
                                 None)
                              "hist" covariance d_ewma)),
                      {| opt_model := "Classic"; opt_rm := "MV";
                         opt_obj := "MinRisk"; opt_rf := of_Z 0;
                         opt_l := None; opt_hist := true |})).
  { unfold max_decorrelation_problem, getattr. rewrite Hcov. reflexivity. }
  eexists. split; [exact Hok |]. split.
  - rewrite budget_other by (intros Hin; in_list Hin; discriminate).
    apply lookup_insert_eq.
  - unfold get_max_decorrelation_portfolio. rewrite Hok. reflexivity.
Qed.

(** X7: a [value_short] that is not above zero, be it negative or not a
    number, is ignored by the three classic entry points: the budget is
    [value], and the short flag and the short bound are the ones the
    estimation step left. *)
Theorem short_budget_is_ignored :
  fltb (of_Z 0) value_short = false ->
  (forall port args,
      mean_risk_problem env stocks period start end_ log_returns freq maxnan
        threshold method risk_measure objective risk_free_rate risk_aversion
        alpha target_return target_risk mean covariance d_ewma value
        value_short
      = Ok (port, args) ->
      port !! "budget" = Some (VFloat value) /\
      port !! "sht"
      = assets_stats env
          (Portfolio_init env
             (stock_returns env stocks period start end_ log_returns freq
                maxnan threshold method) (Some alpha))
          mean covariance d_ewma !! "sht" /\
      port !! "uppersht"
      = assets_stats env
          (Portfolio_init env
             (stock_returns env stocks period start end_ log_returns freq
                maxnan threshold method) (Some alpha))
          mean covariance d_ewma !! "uppersht") /\
  (forall port args,
      max_diversification_problem env stocks period start end_ log_returns
        freq maxnan threshold method covariance d_ewma value value_short
      = Ok (port, args) ->
      port !! "budget" = Some (VFloat value) /\
      port !! "sht"
      = assets_stats env
          (Portfolio_init env
             (stock_returns env stocks period start end_ log_returns freq
                maxnan threshold method) None)
          "hist" covariance d_ewma !! "sht" /\
      port !! "uppersht"
      = assets_stats env
          (Portfolio_init env
             (stock_returns env stocks period start end_ log_returns freq
                maxnan threshold method) None)
          "hist" covariance d_ewma !! "uppersht") /\
  (forall port args,
      max_decorrelation_problem env stocks period start end_ log_returns
        freq maxnan threshold method covariance d_ewma value value_short
      = Ok (port, args) ->
      port !! "budget" = Some (VFloat value) /\
      port !! "sht"
      = assets_stats env
          (Portfolio_init env
             (stock_returns env stocks period start end_ log_returns freq
                maxnan threshold method) None)
          "hist" covariance d_ewma !! "sht" /\
      port !! "uppersht"
      = assets_stats env
          (Portfolio_init env
             (stock_returns env stocks period start end_ log_returns freq
                maxnan threshold method) None)
          "hist" covariance d_ewma !! "uppersht").
Proof.
  intros Hshort. split; [| split]; intros port args Hok.
  - apply mean_risk_problem_inv in Hok
      as (factor & port1 & port2 & _ & Hport1 & Hport2 & Hport & _).
    assert (Hkeep : forall a,
               a ∈ ["sht"; "uppersht"; "budget"] ->
               port !! a = port1 !! a).
    { intros a Ha.
      assert (Hstep : port2 !! a = port1 !! a).
      { rewrite Hport2. destruct (fltb (of_Z (-1)) target_return);
          [| reflexivity].
        apply lookup_insert_ne. intros <-. in_list Ha; discriminate. }
      destruct (fltb (of_Z (-1)) target_risk).
      - destruct Hport as (name & Hname & ->).
        apply upper_risk_names in Hname.
        rewrite lookup_insert_ne; [exact Hstep |].
        intros ->. in_list Ha; in_list Hname; discriminate.
      - rewrite Hport. exact Hstep. }
    rewrite !Hkeep by repeat constructor. rewrite Hport1.
    apply budget_long_only. exact Hshort.
  - unfold max_diversification_problem in Hok. injection Hok as <- _.
    destruct (budget_long_only value value_short
                (<["mu" := VFrame
                     (returns_std env
                        (stock_returns env stocks period start end_
                           log_returns freq maxnan threshold method))]>
                   (assets_stats env
                      (Portfolio_init env
                         (stock_returns env stocks period start end_
                            log_returns freq maxnan threshold method) None)
                      "hist" covariance d_ewma))
                Hshort) as (Hbudget & Hsht & Hupper).
    rewrite Hbudget, Hsht, Hupper, !lookup_insert_ne by done. auto.
  - unfold max_decorrelation_problem in Hok.
    apply bind_Ok in Hok as (cov & _ & Hok). injection Hok as <- _.
    destruct (budget_long_only value value_short
                (<["cov" := cov2corr env cov]>
                   (assets_stats env
                      (Portfolio_init env
                         (stock_returns env stocks period start end_
                            log_returns freq maxnan threshold method) None)
                      "hist" covariance d_ewma))
                Hshort) as (Hbudget & Hsht & Hupper).
    rewrite Hbudget, Hsht, Hupper, !lookup_insert_ne by done. auto.
Qed.

(** X8: for a code of the table, [get_hcp_portfolio] calls the engine with
    every argument as given but two: the risk-free rate is divided by the
    factor of the code, and the linkage [dbht], in this spelling only, is
    turned into [DBHT]. *)
Theorem hcp_call (code : string) (n : Z) :
  (code, n) ∈ [("D", 252%Z); ("W", 52%Z); ("M", 12%Z)] ->
  upper freq = code ->
  hcp_problem env stocks period start end_ log_returns freq maxnan threshold
    method model codependence covariance objective risk_measure
    risk_free_rate risk_aversion alpha a_sim beta b_sim linkage k max_k
    bins_info alpha_tail leaf_order d_ewma
  = Ok (HCPortfolio_init env
          (stock_returns env stocks period start end_ log_returns freq
             maxnan threshold method) alpha a_sim beta b_sim,
        {| hc_model := model; hc_codependence := codependence;
           hc_covariance := covariance; hc_obj := objective;
           hc_rm := risk_measure;
           hc_rf := fdiv risk_free_rate (of_Z n);
           hc_l := risk_aversion;
           hc_linkage := if bool_decide (linkage = "dbht")
                         then "DBHT" else linkage;
           hc_k := k; hc_max_k := max_k; hc_bins_info := bins_info;
           hc_alpha_tail := alpha_tail; hc_leaf_order := leaf_order;
           hc_d := d_ewma |}).
Proof.
  intros Hcode Hfreq.
  pose proof (time_factor_lookup (F := F) code n Hcode) as Hfactor.
  rewrite <- Hfreq in Hfactor. apply getitem_Some in Hfactor.
  unfold hcp_problem. rewrite Hfactor. cbn [bind].
  destruct (bool_decide (linkage = "dbht")) eqn:Hlinkage; [| reflexivity].
  apply bool_decide_eq_true in Hlinkage. rewrite Hlinkage. reflexivity.
Qed.

(** ** Weights as a dict *)

(** A dict built key by key, the value depending on the key only. *)
Lemma keyed_dict_lookup {V} (f : string -> V) (keys : list string)
    (d : gmap string V) (key : string) :
  foldl (fun d key => <[key := f key]> d) d keys !! key
  = if decide (key ∈ keys) then Some (f key) else d !! key.
Proof.
  revert d. induction keys as [| key' keys IH]; intros d; cbn [foldl].
  - rewrite decide_False by apply not_elem_of_nil. reflexivity.
  - rewrite IH. destruct (decide (key ∈ keys)) as [Hin | Hout].
    + rewrite decide_True by (apply elem_of_cons; right; exact Hin).
      reflexivity.
    + destruct (decide (key = key')) as [-> | Hne].
      * rewrite decide_True by (apply elem_of_cons; left; reflexivity).
        apply lookup_insert_eq.
      * rewrite decide_False
          by (intros [Heq | Hin]%elem_of_cons;
              [exact (Hne Heq) | exact (Hout Hin)]).
        apply lookup_insert_ne. congruence.
Qed.

(** [to_dict] on rows of distinct labels. *)
Lemma to_dict_fold_absent (w : list (string * F)) (d : gmap string F)
    (key : string) :
  key ∉ w.*1 ->
  foldl (fun d kv => <[kv.1 := kv.2]> d) d w !! key = d !! key.
Proof.
  revert d. induction w as [| [key' x'] w IH]; intros d Hout; cbn [foldl].
  - reflexivity.
  - rewrite fmap_cons in Hout. apply not_elem_of_cons in Hout as [Hne Hout].
    rewrite IH by exact Hout. cbn in Hne.
    apply lookup_insert_ne. cbn. congruence.
Qed.

Lemma to_dict_fold_present (w : list (string * F)) (d : gmap string F)
    (key : string) (x : F) :
  NoDup w.*1 -> (key, x) ∈ w ->
  foldl (fun d kv => <[kv.1 := kv.2]> d) d w !! key = Some x.
Proof.
  revert d. induction w as [| [key' x'] w IH]; intros d Hnodup Hin.
  - apply elem_of_nil in Hin. destruct Hin.
  - rewrite fmap_cons in Hnodup. apply NoDup_cons in Hnodup as [Hfresh Hnodup].
    cbn [foldl]. apply elem_of_cons in Hin as [Heq | Hin].
    + injection Heq as <- <-. rewrite to_dict_fold_absent by exact Hfresh.
      apply lookup_insert_eq.
    + apply IH; assumption.
Qed.

(** The two ends of the entry points on an answer with distinct tickers
    and more or fewer than one row. *)
Lemma answer_dicts (w : list (string * F)) :
  NoDup w.*1 ->
  length w <> 1%nat ->
  exists classic scaled,
    weights_result (Some w) = Ok (Some classic) /\
    scaled_weights_result value (Some w) = Ok (Some scaled) /\
    (forall ticker x,
        (ticker, x) ∈ w ->
        classic !! ticker = Some (np_round5 x) /\
        scaled !! ticker
        = Some (np_round5 (if fltb (of_Z 0) value then fmul value x else x))) /\
    (forall ticker,
        ticker ∉ w.*1 ->
        classic !! ticker = None /\ scaled !! ticker = None).
Proof.
  intros Hnodup Hlength.
  assert (Hsqueeze : forall v : list (string * F),
             length v = length w -> squeeze_to_dict v = Ok (to_dict v)).
  { intros v Hv. destruct v as [| row1 [| row2 v]]; try reflexivity.
    rewrite <- Hv in Hlength. destruct Hlength. reflexivity. }
  exists (to_dict (weights_round5 w)).
  exists (to_dict (weights_round5
                     (if fltb (of_Z 0) value then weights_scale value w
                      else w))).
  split.
  { unfold weights_result. cbv zeta. rewrite Hsqueeze; [reflexivity |].
    unfold weights_round5. apply length_fmap. }
  split.
  { unfold scaled_weights_result. cbv zeta. rewrite Hsqueeze; [reflexivity |].
    unfold weights_round5, weights_scale.
    destruct (fltb (of_Z 0) value); rewrite ?length_fmap; reflexivity. }
  assert (Hkeys_round : forall v : list (string * F),
             (weights_round5 v).*1 = v.*1).
  { intros v. unfold weights_round5. rewrite <- list_fmap_compose.
    apply list_fmap_ext. intros i [ticker x] _. reflexivity. }
  assert (Hkeys_scale : (weights_scale value w).*1 = w.*1).
  { unfold weights_scale. rewrite <- list_fmap_compose.
    apply list_fmap_ext. intros i [ticker x] _. reflexivity. }
  split.
  - intros ticker x Hin. split.
    + apply to_dict_fold_present; [rewrite Hkeys_round; exact Hnodup |].
      unfold weights_round5.
      apply (list_elem_of_fmap_2 (fun kv => (kv.1, np_round5 kv.2)) _ _ Hin).
    + apply to_dict_fold_present.
      * rewrite Hkeys_round.
        destruct (fltb (of_Z 0) value);
          [rewrite Hkeys_scale |]; exact Hnodup.
      * unfold weights_round5. destruct (fltb (of_Z 0) value).
        -- apply (list_elem_of_fmap_2
                    (fun kv => (kv.1, np_round5 kv.2)) _ (ticker, fmul value x)).
           unfold weights_scale.
           apply (list_elem_of_fmap_2
                    (fun kv => (kv.1, fmul value kv.2)) _ _ Hin).
        -- apply (list_elem_of_fmap_2
                    (fun kv => (kv.1, np_round5 kv.2)) _ _ Hin).
  - intros ticker Hout. split.
    + unfold to_dict. rewrite to_dict_fold_absent;
        [apply lookup_empty | rewrite Hkeys_round; exact Hout].
    + unfold to_dict. rewrite to_dict_fold_absent; [apply lookup_empty |].
      rewrite Hkeys_round.
      destruct (fltb (of_Z 0) value); [rewrite Hkeys_scale |]; exact Hout.
Qed.

(** X9: when the engine answers with a frame [w] of distinct tickers and
    more or fewer than one row, each of the six optimisation entry points
    returns the returns and a dict with exactly the tickers of [w]; the
    three classic entry points round every weight to five decimals, and
    the risk parity, relaxed risk parity and hierarchical ones first
    multiply it by [value] when [value > 0] and leave it otherwise. *)
Theorem weights_of_an_answer (w : list (string * F)) :
  NoDup w.*1 ->
  length w <> 1%nat ->
  (forall port args,
      mean_risk_problem env stocks period start end_ log_returns freq maxnan
        threshold method risk_measure objective risk_free_rate risk_aversion
        alpha target_return target_risk mean covariance d_ewma value
        value_short
      = Ok (port, args) ->
      optimization env port args = Some w ->
      exists weights,
        get_mean_risk_portfolio env stocks period start end_ log_returns
          freq maxnan threshold method risk_measure objective risk_free_rate
          risk_aversion alpha target_return target_risk mean covariance
          d_ewma value value_short
        = Ok (Some weights,
              Some (stock_returns env stocks period start end_ log_returns
                      freq maxnan threshold method)) /\
        answer_dict w np_round5 weights) /\
  (forall port args,
      max_diversification_problem env stocks period start end_ log_returns
        freq maxnan threshold method covariance d_ewma value value_short
      = Ok (port, args) ->
      optimization env port args = Some w ->
      exists weights,
        get_max_diversification_portfolio env stocks period start end_
          log_returns freq maxnan threshold method covariance d_ewma value
          value_short
        = Ok (Some weights,
              Some (stock_returns env stocks period start end_ log_returns
                      freq maxnan threshold method)) /\
        answer_dict w np_round5 weights) /\
  (forall port args,
      max_decorrelation_problem env stocks period start end_ log_returns
        freq maxnan threshold method covariance d_ewma value value_short
      = Ok (port, args) ->
      optimization env port args = Some w ->
      exists weights,
        get_max_decorrelation_portfolio env stocks period start end_
          log_returns freq maxnan threshold method covariance d_ewma value
          value_short
        = Ok (Some weights,
              Some (stock_returns env stocks period start end_ log_returns
                      freq maxnan threshold method)) /\
        answer_dict w np_round5 weights) /\
  (forall port args,
      risk_parity_problem env stocks period start end_ log_returns freq
        maxnan threshold method risk_measure risk_cont risk_free_rate alpha
        target_return mean covariance d_ewma
      = Ok (port, args) ->
      rp_optimization env port args = Some w ->
      exists weights,
        get_risk_parity_portfolio env stocks period start end_ log_returns
          freq maxnan threshold method risk_measure risk_cont risk_free_rate
          alpha target_return mean covariance d_ewma value
        = Ok (Some weights,
              Some (stock_returns env stocks period start end_ log_returns
                      freq maxnan threshold method)) /\
        answer_dict w
          (fun x =>
             np_round5 (if fltb (of_Z 0) value then fmul value x else x))
          weights) /\
  (forall port args,
      rel_risk_parity_problem env stocks period start end_ log_returns freq
        maxnan threshold method version risk_cont penal_factor target_return
        mean covariance d_ewma
      = Ok (port, args) ->
      rrp_optimization env port args = Some w ->
      exists weights,
        get_rel_risk_parity_portfolio env stocks period start end_
          log_returns freq maxnan threshold method version risk_cont
          penal_factor target_return mean covariance d_ewma value
        = Ok (Some weights,
              Some (stock_returns env stocks period start end_ log_returns
                      freq maxnan threshold method)) /\
        answer_dict w
          (fun x =>
             np_round5 (if fltb (of_Z 0) value then fmul value x else x))
          weights) /\
  (forall port args,
      hcp_problem env stocks period start end_ log_returns freq maxnan
        threshold method model codependence covariance objective
        risk_measure risk_free_rate risk_aversion alpha a_sim beta b_sim
        linkage k max_k bins_info alpha_tail leaf_order d_ewma
      = Ok (port, args) ->
      hc_optimization env port args = Some w ->
      exists weights,
        get_hcp_portfolio env stocks period start end_ log_returns freq
          maxnan threshold method model codependence covariance objective
          risk_measure risk_free_rate risk_aversion alpha a_sim beta b_sim
          linkage k max_k bins_info alpha_tail leaf_order d_ewma value
        = Ok (Some weights,
              Some (stock_returns env stocks period start end_ log_returns
                      freq maxnan threshold method)) /\
        answer_dict w
          (fun x =>
             np_round5 (if fltb (of_Z 0) value then fmul value x else x))
          weights).
Proof.
  intros Hnodup Hlength.
  destruct (answer_dicts w Hnodup Hlength)
    as (classic & scaled & Hclassic & Hscaled & Hin & Hout).
  assert (Hclassic_dict : answer_dict w np_round5 classic).
  { split.
    - intros ticker x Hw. exact (proj1 (Hin ticker x Hw)).
    - intros ticker Hw. exact (proj1 (Hout ticker Hw)). }
  assert (Hscaled_dict :
            answer_dict w
              (fun x =>
                 np_round5 (if fltb (of_Z 0) value then fmul value x else x))
              scaled).
  { split.
    - intros ticker x Hw. exact (proj2 (Hin ticker x Hw)).
    - intros ticker Hw. exact (proj2 (Hout ticker Hw)). }
  repeat split; intros port args Hok Hanswer.
  - exists classic. split; [| exact Hclassic_dict].
    unfold get_mean_risk_portfolio. rewrite Hok. cbn [bind].
    rewrite Hanswer, Hclassic. reflexivity.
  - exists classic. split; [| exact Hclassic_dict].
    unfold get_max_diversification_portfolio. rewrite Hok. cbn [bind].
    rewrite Hanswer, Hclassic. reflexivity.
  - exists classic. split; [| exact Hclassic_dict].
    unfold get_max_decorrelation_portfolio. rewrite Hok. cbn [bind].
    rewrite Hanswer, Hclassic. reflexivity.
  - exists scaled. split; [| exact Hscaled_dict].
    unfold get_risk_parity_portfolio. rewrite Hok. cbn [bind].
    rewrite Hanswer, Hscaled. reflexivity.
  - exists scaled. split; [| exact Hscaled_dict].
    unfold get_rel_risk_parity_portfolio. rewrite Hok. cbn [bind].
    rewrite Hanswer, Hscaled. reflexivity.
  - exists scaled. split; [| exact Hscaled_dict].
    unfold get_hcp_portfolio. rewrite Hok. cbn [bind].
    rewrite Hanswer, Hscaled. reflexivity.
Qed.

(** X10: when the engine answers with a single row, which is what it does
    for a single asset, each of the six optimisation entry points raises
    [AttributeError]: the frame squeezes to a number, and a number has no
    [to_dict]. *)
Theorem single_row_answer_raises (ticker : string) (x : F) :
  (forall port args,
      mean_risk_problem env stocks period start end_ log_returns freq maxnan
        threshold method risk_measure objective risk_free_rate risk_aversion
        alpha target_return target_risk mean covariance d_ewma value
        value_short
      = Ok (port, args) ->
      optimization env port args = Some [(ticker, x)] ->
      get_mean_risk_portfolio env stocks period start end_ log_returns freq
        maxnan threshold method risk_measure objective risk_free_rate
        risk_aversion alpha target_return target_risk mean covariance d_ewma
        value value_short
      = Raise (AttributeError "to_dict")) /\
  (forall port args,
      max_diversification_problem env stocks period start end_ log_returns
        freq maxnan threshold method covariance d_ewma value value_short
      = Ok (port, args) ->
      optimization env port args = Some [(ticker, x)] ->
      get_max_diversification_portfolio env stocks period start end_
        log_returns freq maxnan threshold method covariance d_ewma value
        value_short
      = Raise (AttributeError "to_dict")) /\
  (forall port args,
      max_decorrelation_problem env stocks period start end_ log_returns
        freq maxnan threshold method covariance d_ewma value value_short
      = Ok (port, args) ->
      optimization env port args = Some [(ticker, x)] ->
      get_max_decorrelation_portfolio env stocks period start end_
        log_returns freq maxnan threshold method covariance d_ewma value
        value_short
      = Raise (AttributeError "to_dict")) /\
  (forall port args,
      risk_parity_problem env stocks period start end_ log_returns freq
        maxnan threshold method risk_measure risk_cont risk_free_rate alpha
        target_return mean covariance d_ewma
      = Ok (port, args) ->
      rp_optimization env port args = Some [(ticker, x)] ->
      get_risk_parity_portfolio env stocks period start end_ log_returns
        freq maxnan threshold method risk_measure risk_cont risk_free_rate
        alpha target_return mean covariance d_ewma value
      = Raise (AttributeError "to_dict")) /\
  (forall port args,
      rel_risk_parity_problem env stocks period start end_ log_returns freq
        maxnan threshold method version risk_cont penal_factor target_return
        mean covariance d_ewma
      = Ok (port, args) ->
      rrp_optimization env port args = Some [(ticker, x)] ->
      get_rel_risk_parity_portfolio env stocks period start end_ log_returns
        freq maxnan threshold method version risk_cont penal_factor
        target_return mean covariance d_ewma value
      = Raise (AttributeError "to_dict")) /\
  (forall port args,
      hcp_problem env stocks period start end_ log_returns freq maxnan
        threshold method model codependence covariance objective
        risk_measure risk_free_rate risk_aversion alpha a_sim beta b_sim
        linkage k max_k bins_info alpha_tail leaf_order d_ewma
      = Ok (port, args) ->
      hc_optimization env port args = Some [(ticker, x)] ->
      get_hcp_portfolio env stocks period start end_ log_returns freq maxnan
        threshold method model codependence covariance objective
        risk_measure risk_free_rate risk_aversion alpha a_sim beta b_sim
        linkage k max_k bins_info alpha_tail leaf_order d_ewma value
      = Raise (AttributeError "to_dict")).
Proof.
  repeat split; intros port args Hok Hanswer.
  - unfold get_mean_risk_portfolio. rewrite Hok. cbn [bind].
    rewrite Hanswer. cbn. try destruct (fltb (of_Z 0) value); reflexivity.
  - unfold get_max_diversification_portfolio. rewrite Hok. cbn [bind].
    rewrite Hanswer. cbn. try destruct (fltb (of_Z 0) value); reflexivity.
  - unfold get_max_decorrelation_portfolio. rewrite Hok. cbn [bind].
    rewrite Hanswer. cbn. try destruct (fltb (of_Z 0) value); reflexivity.
  - unfold get_risk_parity_portfolio. rewrite Hok. cbn [bind].
    rewrite Hanswer. cbn. try destruct (fltb (of_Z 0) value); reflexivity.
  - unfold get_rel_risk_parity_portfolio. rewrite Hok. cbn [bind].
    rewrite Hanswer. cbn. try destruct (fltb (of_Z 0) value); reflexivity.
  - unfold get_hcp_portfolio. rewrite Hok. cbn [bind].
    rewrite Hanswer. cbn. try destruct (fltb (of_Z 0) value); reflexivity.
Qed.

(** ** [get_property_weights] *)

(** The attribute of a ticker as the loop reads it: zero when the provider
    has [None] for it. *)
Lemma property_loop_ok (todo : list string) (prop : gmap string F)
    (prop_sum : F) :
  (forall stock, stock ∈ todo ->
                 is_Some (ticker_info env stock s_property)) ->
  property_loop env s_property todo prop prop_sum
  = Ok (foldl (fun d stock =>
                 <[stock := default (of_Z 0)
                              (mjoin (ticker_info env stock s_property))]> d)
              prop todo,
        foldl (fun s stock =>
                 fadd s (default (of_Z 0)
                           (mjoin (ticker_info env stock s_property))))
              prop_sum todo).
Proof.
  revert prop prop_sum.
  induction todo as [| stock todo IH]; intros prop prop_sum Hinfo.
  - reflexivity.
  - cbn [property_loop foldl].
    destruct (Hinfo stock) as [info Hstock]; [apply elem_of_cons; auto |].
    rewrite Hstock. cbn [mjoin option_join]. apply IH.
    intros stock' Hin. apply Hinfo. apply elem_of_cons. auto.
Qed.

Lemma property_loop_missing (todo : list string) (prop : gmap string F)
    (prop_sum : F) (stock : string) :
  stock ∈ todo ->
  ticker_info env stock s_property = None ->
  property_loop env s_property todo prop prop_sum
  = Raise (KeyError s_property).
Proof.
  revert prop prop_sum.
  induction todo as [| stock' todo IH]; intros prop prop_sum Hin Hnone.
  - apply elem_of_nil in Hin. destruct Hin.
  - cbn [property_loop].
    destruct (ticker_info env stock' s_property) as [info |] eqn:Hstock;
      [| reflexivity].
    apply IH; [| exact Hnone].
    apply elem_of_cons in Hin as [-> | Hin]; [congruence | exact Hin].
Qed.

(** X11: when the provider has the attribute of every ticker, [None]
    counting as zero, and the attributes of the list do not add up to
    zero, [get_property_weights] gives every ticker of the list the weight
    [value * attribute / prop_sum] and has no other key; [prop_sum] counts
    a ticker as often as the list has it. *)
Theorem property_weights_values :
  (forall stock, stock ∈ stocks ->
                 is_Some (ticker_info env stock s_property)) ->
  feqb (foldl (fun s stock =>
                 fadd s (default (of_Z 0)
                           (mjoin (ticker_info env stock s_property))))
              (of_Z 0) stocks)
       (of_Z 0)
  = false ->
  exists weights,
    get_property_weights env stocks period start end_ log_returns freq
      maxnan threshold method s_property value
    = Ok (Some weights,
          Some (stock_returns env stocks period start end_ log_returns freq
                  maxnan threshold method)) /\
    forall stock,
      weights !! stock
      = if decide (stock ∈ stocks)
        then Some (fdiv (fmul value
                           (default (of_Z 0)
                              (mjoin (ticker_info env stock s_property))))
                        (foldl (fun s stock =>
                                  fadd s (default (of_Z 0)
                                            (mjoin (ticker_info env stock
                                                      s_property))))
                               (of_Z 0) stocks))
        else None.
Proof.
  intros Hinfo Hsum. eexists. split.
  - unfold get_property_weights.
    rewrite (property_loop_ok stocks ∅ (of_Z 0) Hinfo). cbn [bind].
    rewrite Hsum. reflexivity.
  - intros stock. rewrite lookup_fmap.
    rewrite (keyed_dict_lookup
               (fun stock => default (of_Z 0)
                               (mjoin (ticker_info env stock s_property)))).
    destruct (decide (stock ∈ stocks)); [reflexivity |].
    rewrite lookup_empty. reflexivity.
Qed.

(** X12: when the provider's info of some ticker of the list has no entry
    for the attribute, [get_property_weights] raises [KeyError] on the
    name of the attribute. *)
Theorem property_weights_missing_attribute (stock : string) :
  stock ∈ stocks ->
  ticker_info env stock s_property = None ->
  get_property_weights env stocks period start end_ log_returns freq maxnan
    threshold method s_property value
  = Raise (KeyError s_property).
Proof.
  intros Hin Hnone. unfold get_property_weights.
  rewrite (property_loop_missing stocks ∅ (of_Z 0) stock Hin Hnone).
  reflexivity.
Qed.

(** ** [generate_random_portfolios] *)

(** The table made of the draws, whenever they return. *)
Lemma random_portfolios_of_draws (n_samples : Z)
    (rs0 rs1 rs2 rs3 : rng env) (w1 w2 w3 : list (list F)) :
  int_third n_portfolios = Ok n_samples ->
  RandomState env seed = Ok rs0 ->
  dirichlet env rs0 (replicate (length stocks) (of_Z 1)) n_samples
  = Ok (w1, rs1) ->
  dirichlet env rs1
            (replicate (length stocks) (fmul (of_Z 1) (decimal 65 100)))
            n_samples
  = Ok (w2, rs2) ->
  dirichlet env rs2 (replicate (length stocks) (fmul (of_Z 1) (of_Z 2)))
            n_samples
  = Ok (w3, rs3) ->
  exists table,
    generate_random_portfolios env stocks n_portfolios seed value = Ok table /\
    portfolios_table value stocks (w1 ++ w2 ++ w3) table.
Proof.
  intros Hsamples Hseed Hw1 Hw2 Hw3. eexists. split.
  - exact (generate_random_portfolios_run env stocks value n_portfolios seed
             _ _ _ _ _ _ _ _ Hsamples Hseed Hw1 Hw2 Hw3).
  - apply portfolios_table_intro.
Qed.

(** X13: whatever the request, when the generator takes the seed and the
    three draws of [int(n_portfolios / 3)] samples return, the column of
    the table that follows the three batches by [j] places is the
    portfolio of asset [j] alone: its entry in the row of asset [i] is 1
    when [i = j] and 0 otherwise, multiplied by [value] when
    [value > 0]. *)
Theorem random_portfolios_unit_columns (n_samples : Z)
    (rs0 rs1 rs2 rs3 : rng env) (w1 w2 w3 : list (list F)) (i j : nat) :
  dirichlet_shape env ->
  int_third n_portfolios = Ok n_samples ->
  RandomState env seed = Ok rs0 ->
  dirichlet env rs0 (replicate (length stocks) (of_Z 1)) n_samples
  = Ok (w1, rs1) ->
  dirichlet env rs1
            (replicate (length stocks) (fmul (of_Z 1) (decimal 65 100)))
            n_samples
  = Ok (w2, rs2) ->
  dirichlet env rs2 (replicate (length stocks) (fmul (of_Z 1) (of_Z 2)))
            n_samples
  = Ok (w3, rs3) ->
  (i < length stocks)%nat ->
  (j < length stocks)%nat ->
  exists table row,
    generate_random_portfolios env stocks n_portfolios seed value = Ok table /\
    values table !! i = Some row /\
    row !! (3 * Z.to_nat n_samples + j)%nat
    = Some (let x := if (j =? i)%nat then of_Z 1 else of_Z 0 in
            if fltb (of_Z 0) value then fmul value x else x).
Proof.
  intros Hshape Hsamples Hseed Hw1 Hw2 Hw3 Hi Hj.
  destruct (random_portfolios_of_draws _ _ _ _ _ _ _ _
              Hsamples Hseed Hw1 Hw2 Hw3)
    as (table & Hrun & _ & _ & _ & Hrows).
  destruct (Hrows i Hi) as (row & Hrow & _ & _ & Hunits).
  exists table, row. split; [exact Hrun |]. split; [exact Hrow |].
  destruct (Hshape _ _ _ _ _ Hw1) as (_ & Hlen1 & _).
  destruct (Hshape _ _ _ _ _ Hw2) as (_ & Hlen2 & _).
  destruct (Hshape _ _ _ _ _ Hw3) as (_ & Hlen3 & _).
  specialize (Hunits j Hj).
  rewrite !length_app, Hlen1, Hlen2, Hlen3 in Hunits.
  replace (3 * Z.to_nat n_samples + j)%nat
    with (Z.to_nat n_samples + (Z.to_nat n_samples + Z.to_nat n_samples)
          + j)%nat by lia.
  exact Hunits.
Qed.

(** X14: a request of fewer than three portfolios, down to -2, asks the
    generator for three batches of no sample, and when these return the
    table is the unit vectors only: one column for each asset, holding 1
    in the row of the asset and 0 elsewhere, multiplied by [value] when
    [value > 0]. *)
Theorem few_random_portfolios (rs0 rs1 rs2 rs3 : rng env)
    (w1 w2 w3 : list (list F)) :
  dirichlet_shape env ->
  (-3 < n_portfolios < 3)%Z ->
  RandomState env seed = Ok rs0 ->
  dirichlet env rs0 (replicate (length stocks) (of_Z 1)) 0 = Ok (w1, rs1) ->
  dirichlet env rs1
            (replicate (length stocks) (fmul (of_Z 1) (decimal 65 100))) 0
  = Ok (w2, rs2) ->
  dirichlet env rs2 (replicate (length stocks) (fmul (of_Z 1) (of_Z 2))) 0
  = Ok (w3, rs3) ->
  exists table,
    generate_random_portfolios env stocks n_portfolios seed value = Ok table /\
    length (columns table) = length stocks /\
    portfolios_table value stocks [] table.
Proof.
  intros Hshape Hn Hseed Hw1 Hw2 Hw3.
  assert (Hsamples : int_third n_portfolios = Ok 0%Z).
  { rewrite int_third_small by lia. f_equal.
    destruct (Z_lt_le_dec n_portfolios 0) as [Hneg | Hpos].
    - replace n_portfolios with (- (- n_portfolios))%Z by lia.
      rewrite Z.quot_opp_l, Z.quot_small by lia. reflexivity.
    - apply Z.quot_small. lia. }
  destruct (random_portfolios_of_draws _ _ _ _ _ _ _ _
              Hsamples Hseed Hw1 Hw2 Hw3)
    as (table & Hrun & Htable).
  destruct (Hshape _ _ _ _ _ Hw1) as (_ & Hlen1 & _).
  destruct (Hshape _ _ _ _ _ Hw2) as (_ & Hlen2 & _).
  destruct (Hshape _ _ _ _ _ Hw3) as (_ & Hlen3 & _).
  apply nil_length_inv in Hlen1, Hlen2, Hlen3. subst w1 w2 w3.
  exists table. split; [exact Hrun |]. split; [| exact Htable].
  destruct Htable as (_ & Hcolumns & _). rewrite Hcolumns.
  rewrite length_fmap, length_seq. reflexivity.
Qed.

(** X19: [get_mean_risk_portfolio] writes the four budget attributes,
    [lowerret] and the upper bound of the risk measure, and nothing else:
    every other attribute of the object handed to the engine is as the
    estimation step left it. *)
Theorem mean_risk_writes_only (port : gmap string (pyval F))
    (args : OptArgs F) (name : string) :
  mean_risk_problem env stocks period start end_ log_returns freq maxnan
    threshold method risk_measure objective risk_free_rate risk_aversion
    alpha target_return target_risk mean covariance d_ewma value value_short
  = Ok (port, args) ->
  name ∉ ["upperlng"; "sht"; "uppersht"; "budget"; "lowerret"] ->
  upper_risk !! risk_measure <> Some name ->
  port !! name
  = assets_stats env
      (Portfolio_init env
         (stock_returns env stocks period start end_ log_returns freq maxnan
            threshold method) (Some alpha))
      mean covariance d_ewma !! name.
Proof.
  intros Hok Hname Hbound.
  apply mean_risk_problem_inv in Hok
    as (factor & port1 & port2 & _ & Hport1 & Hport2 & Hport & _).
  assert (Hstep1 : port1 !! name
                   = assets_stats env
                       (Portfolio_init env
                          (stock_returns env stocks period start end_
                             log_returns freq maxnan threshold method)
                          (Some alpha))
                       mean covariance d_ewma !! name).
  { rewrite Hport1. apply budget_other.
    intros Hin. apply Hname. in_list Hin; repeat constructor. }
  assert (Hstep2 : port2 !! name = port1 !! name).
  { rewrite Hport2. destruct (fltb (of_Z (-1)) target_return);
      [| reflexivity].
    apply lookup_insert_ne. intros <-. apply Hname. repeat constructor. }
  destruct (fltb (of_Z (-1)) target_risk).
  - destruct Hport as (name' & Hname' & ->).
    rewrite lookup_insert_ne; [congruence |].
    intros ->. exact (Hbound Hname').
  - rewrite Hport. congruence.
Qed.
End Further.

(** X18: for an empty list of tickers, [get_equal_weights] returns an
    empty dict, never dividing by the length of the list, and
    [get_property_weights] finds a sum of zero and returns
    [(None, None)], in binary64 and in exact arithmetic. *)
Theorem empty_ticker_list :
  (forall (F : Type) (ops : PyFloat F) (env : Env F)
          (period start end_ : string) (log_returns : bool) (freq : string)
          (maxnan threshold : F) (method : string) (value : F),
      get_equal_weights env [] period start end_ log_returns freq maxnan
        threshold method value
      = Ok (Some ∅,
            Some (stock_returns env [] period start end_ log_returns freq
                    maxnan threshold method))) /\
  (forall (env : Env float) (period start end_ : string)
          (log_returns : bool) (freq : string) (maxnan threshold : float)
          (method s_property : string) (value : float),
      get_property_weights env [] period start end_ log_returns freq maxnan
        threshold method s_property value
      = Ok (None, None)) /\
  (forall (env : Env R) (period start end_ : string) (log_returns : bool)
          (freq : string) (maxnan threshold : R)
          (method s_property : string) (value : R),
      get_property_weights env [] period start end_ log_returns freq maxnan
        threshold method s_property value
      = Ok (None, None)).
Proof.
  repeat split.
  - intros. unfold get_property_weights. cbn [property_loop bind].
    cbn [feqb Exact.real_ops of_Z].
    destruct (Req_dec_T 0 0) as [_ | Hne]; [reflexivity |].
    destruct Hne. reflexivity.
Qed.

(** ** Totals in exact arithmetic *)

Lemma Rsum_permutation (l l' : list R) :
  l ≡ₚ l' -> foldr Rplus 0%R l = foldr Rplus 0%R l'.
Proof.
  induction 1 as [| x l l' _ IH | x y l | l l' l'' _ IH1 _ IH2];
    cbn [foldr].
  - reflexivity.
  - rewrite IH. reflexivity.
  - lra.
  - rewrite IH1. exact IH2.
Qed.

Lemma foldl_Rplus_keys {A} (f : A -> R) (s : R) (keys : list A) :
  foldl (fun s key => s + f key)%R s keys
  = (s + foldr Rplus 0 (f <$> keys))%R.
Proof.
  revert s. induction keys as [| key keys IH]; intros s;
    cbn [foldl foldr fmap list_fmap].
  - lra.
  - rewrite IH. lra.
Qed.

(** The total of a dict built key by key from distinct keys. *)
Lemma dict_total_keyed (f : string -> R) (keys : list string) :
  NoDup keys ->
  dict_total (foldl (fun d key => <[key := f key]> d) ∅ keys)
  = foldr Rplus 0%R (f <$> keys).
Proof.
  intros Hnodup.
  assert (Hkeys : ((fun key => (key, f key)) <$> keys).*1 = keys).
  { rewrite <- list_fmap_compose. apply list_fmap_id. }
  assert (Hdict : foldl (fun d key => <[key := f key]> d) ∅ keys
                  = (list_to_map ((fun key => (key, f key)) <$> keys)
                     : gmap string R)).
  { apply map_eq. intros key. rewrite keyed_dict_lookup, lookup_empty.
    destruct (decide (key ∈ keys)) as [Hin | Hout].
    - symmetry. apply elem_of_list_to_map_1; [rewrite Hkeys; exact Hnodup |].
      apply (list_elem_of_fmap_2 (fun key => (key, f key)) _ _ Hin).
    - symmetry. apply not_elem_of_list_to_map_1. rewrite Hkeys. exact Hout. }
  unfold dict_total. rewrite Hdict.
  rewrite (Rsum_permutation _ (((fun key => (key, f key)) <$> keys).*2)).
  - rewrite <- list_fmap_compose. reflexivity.
  - apply fmap_Permutation, map_to_list_to_map. rewrite Hkeys. exact Hnodup.
Qed.

Lemma Rsum_scaled (c : R) (l : list R) :
  foldr Rplus 0%R ((fun x => c * x)%R <$> l) = (c * foldr Rplus 0 l)%R.
Proof.
  induction l as [| x l IH]; cbn [foldr fmap list_fmap].
  - lra.
  - rewrite IH. lra.
Qed.

Section FurtherExact.
Import Exact.
Variables (env : Env R).
Variables (stocks : list string) (period start end_ : string)
          (log_returns : bool) (freq : string) (maxnan threshold : R)
          (method : string) (s_property : string) (value : R).

(** X15: in exact arithmetic, for distinct tickers whose attributes the
    provider has and which do not add up to zero, the weights of
    [get_property_weights] add up to [value]. *)
Theorem property_weights_total :
  NoDup stocks ->
  (forall stock, stock ∈ stocks ->
                 is_Some (ticker_info env stock s_property)) ->
  foldl (fun s stock =>
           fadd s (default (of_Z 0)
                     (mjoin (ticker_info env stock s_property))))
        (of_Z 0) stocks
  <> 0%R ->
  exists weights,
    get_property_weights env stocks period start end_ log_returns freq
      maxnan threshold method s_property value
    = Ok (Some weights,
          Some (stock_returns env stocks period start end_ log_returns freq
                  maxnan threshold method)) /\
    dict_total weights = value.
Proof.
  intros Hnodup Hinfo Hsum.
  set (attribute := fun stock : string =>
                      default (of_Z 0)
                        (mjoin (ticker_info env stock s_property))) in *.
  set (prop_sum := foldl (fun s stock => fadd s (attribute stock)) (of_Z 0)
                         stocks) in *.
  exists (foldl (fun d stock =>
                   <[stock := (value * attribute stock / prop_sum)%R]> d)
                ∅ stocks).
  split.
  - unfold get_property_weights.
    rewrite (property_loop_ok env s_property stocks ∅ (of_Z 0) Hinfo).
    cbn [bind].
    match goal with
    | |- context [feqb ?a ?b] =>
        assert (Hne : feqb a b = false);
        [cbn [feqb real_ops of_Z];
         destruct (Req_dec_T _ _) as [Heq | _];
         [destruct (Hsum Heq) | reflexivity] |]
    end.
    rewrite Hne. do 3 f_equal. apply map_eq. intros stock.
    rewrite lookup_fmap, !keyed_dict_lookup, lookup_empty.
    destruct (decide (stock ∈ stocks)); reflexivity.
  - rewrite dict_total_keyed by exact Hnodup.
    assert (Hall : prop_sum = foldr Rplus 0%R (attribute <$> stocks)).
    { unfold prop_sum. cbn [fadd real_ops of_Z].
      rewrite (foldl_Rplus_keys attribute). lra. }
    assert (Hweights :
              (fun stock => (value * attribute stock / prop_sum)%R) <$> stocks
              = (fun x => (value / prop_sum * x)%R) <$> (attribute <$> stocks)).
    { rewrite <- list_fmap_compose. apply list_fmap_ext.
      intros i stock _. cbn. unfold Rdiv. ring. }
    rewrite Hweights.
    rewrite Rsum_scaled, <- Hall. field. exact Hsum.
Qed.

(** [round(x, 5)] moves a number by half a unit of the fifth decimal at
    most. *)
Lemma round5_error (x : R) :
  (- (1 / 200000) <= fround5 x - x <= 1 / 200000)%R.
Proof.
  cbn [fround5 real_ops].
  pose proof (rne_error (x * 100000)) as Herror. lra.
Qed.

Lemma Rsum_constant {A} (c : R) (keys : list A) :
  foldr Rplus 0%R ((fun _ => c) <$> keys) = (INR (length keys) * c)%R.
Proof.
  induction keys as [| key keys IH].
  - cbn. lra.
  - cbn [fmap list_fmap foldr length]. rewrite S_INR.
    change (list_fmap A R (fun _ => c) keys) with ((fun _ : A => c) <$> keys).
    rewrite IH. lra.
Qed.

(** X16: in exact arithmetic, for a list of distinct tickers that is not
    empty, the weights of [get_equal_weights] add up to [value] up to the
    rounding of [1 / N] to five decimals: the total is off by at most
    [|value| * N / 200000]. *)
Theorem equal_weights_total :
  NoDup stocks ->
  stocks <> [] ->
  exists weights,
    get_equal_weights env stocks period start end_ log_returns freq maxnan
      threshold method value
    = Ok (Some weights,
          Some (stock_returns env stocks period start end_ log_returns freq
                  maxnan threshold method)) /\
    (Rabs (dict_total weights - value)
     <= Rabs value * INR (length stocks) / 200000)%R.
Proof.
  intros Hnodup Hstocks. eexists. split; [reflexivity |].
  rewrite (dict_total_keyed
             (fun _ => fmul value
                         (fround5 (fdiv (of_Z 1)
                                        (of_Z (Z.of_nat (length stocks))))))
             stocks Hnodup).
  rewrite Rsum_constant.
  cbn [fmul fdiv of_Z real_ops]. rewrite <- INR_IZR_INZ.
  assert (Hcount : (0 < INR (length stocks))%R).
  { apply lt_0_INR. destruct stocks; [congruence | cbn; lia]. }
  pose proof (round5_error (1 / INR (length stocks))) as Herror.
  set (rounded := fround5 (1 / INR (length stocks))%R) in *.
  replace (INR (length stocks) * (value * rounded) - value)%R
    with (value * (INR (length stocks)
                   * (rounded - 1 / INR (length stocks))))%R
    by (field; lra).
  rewrite Rabs_mult.
  replace (Rabs value * INR (length stocks) / 200000)%R
    with (Rabs value * (INR (length stocks) / 200000))%R by lra.
  apply Rmult_le_compat_l; [apply Rabs_pos |].
  apply Rabs_le. split.
  - apply Rle_trans with (INR (length stocks) * - (1 / 200000))%R; [lra |].
    apply Rmult_le_compat_l; lra.
  - apply Rle_trans with (INR (length stocks) * (1 / 200000))%R; [| lra].
    apply Rmult_le_compat_l; lra.
Qed.

(** X17: in exact arithmetic the vector handed to the engine depends on
    the proportions of [risk_cont] only: multiplying every entry by the
    same number other than zero does not change it, the entries not adding
    up to zero. *)
Theorem risk_contributions_are_proportions (c : R) (rc : list R) :
  c <> 0%R ->
  np_sum [rc] <> 0%R ->
  normalise_risk_cont ((fun x => c * x)%R <$> rc) = normalise_risk_cont rc.
Proof.
  intros Hc Hsum. unfold normalise_risk_cont. cbv zeta.
  rewrite np_sum_row in Hsum. rewrite !np_sum_row, Rsum_scaled.
  cbn [fmap list_fmap]. f_equal.
  change (list_fmap R R ?f ?l) with (f <$> l).
  rewrite <- list_fmap_compose. apply list_fmap_ext.
  intros i x _. cbn [compose fdiv real_ops]. field. split; assumption.
Qed.
End FurtherExact.

(** ** The further properties at work *)

(** A list of strings given by its elements has no duplicate. *)
Ltac distinct_strings :=
  cbn;
  repeat (apply NoDup_cons_2;
          [let Hin := fresh "Hin" in
           intros Hin; in_list Hin; discriminate |]);
  apply NoDup_nil_2.

(** X1 on the code [y]. *)
Lemma unknown_frequency_is_key_error_witness :
  get_hcp_portfolio Sample.infeasible ["A"; "B"] "3y" "2019" "2022" false
    "y" (decimal 5 100) (of_Z 0) "time" "HRP" "pearson" "hist" "Sharpe" "MV"
    (decimal 1 100) (of_Z 2) (decimal 5 100) 100 None None "single" 0 10
    "KN" (decimal 5 100) true (decimal 94 100) 1%float
  = Raise (KeyError "Y").
Proof.
  pose proof
    (@unknown_frequency_is_key_error float Binary64.float_ops
      Sample.infeasible ["A"; "B"] "3y" "2019" "2022" false "y"
      (decimal 5 100) (of_Z 0) "time" "MV" "Sharpe" (decimal 1 100) (of_Z 2)
      (decimal 5 100) (decimal 1 10) (of_Z (-1)) "hist" "hist"
      (decimal 94 100) 1%float 0%float None "A" (of_Z 1) "HRP" "pearson" 100
      None None "single" 0 10 "KN" (decimal 5 100) true)
    as Hunknown.
  destruct Hunknown as (_ & _ & Hhcp & _).
  - reflexivity.
  - intros Hin. in_list Hin; discriminate.
  - exact Hhcp.
Defined.

(** X2 on a code and a version that nothing knows. *)
Lemma rel_risk_parity_without_target_witness :
  exists port args,
    rel_risk_parity_problem Sample.infeasible ["A"; "B"] "3y" "2019" "2022"
      false "quarterly" (decimal 5 100) (of_Z 0) "time" "Z" None (of_Z 1)
      (of_Z (-1)) "hist" "hist" (decimal 94 100)
    = Ok (port, args) /\
    rrp_version args = "Z".
Proof.
  pose proof
    (@rel_risk_parity_without_target float Binary64.float_ops
      Sample.infeasible ["A"; "B"] "3y" "2019" "2022" false "quarterly"
      (decimal 5 100) (of_Z 0) "time" (of_Z (-1)) "hist" "hist"
      (decimal 94 100) None "Z" (of_Z 1))
    as Hcall.
  do 2 eexists. split; [exact (Hcall eq_refl) | reflexivity].
Defined.

(** X3 on the measure [VaR] with a target risk. *)
Lemma unregistered_risk_measure_witness :
  get_mean_risk_portfolio Sample.infeasible ["A"; "B"] "3y" "2019" "2022"
    false "D" (decimal 5 100) (of_Z 0) "time" "VaR" "Sharpe" (decimal 1 100)
    (of_Z 2) (decimal 5 100) (decimal 1 10) (decimal 1 10) "hist" "hist"
    (decimal 94 100) 1%float 0%float
  = Raise (KeyError "VaR").
Proof.
  pose proof
    (@unregistered_risk_measure float Binary64.float_ops Sample.infeasible
      ["A"; "B"] "3y" "2019" "2022" false "D" (decimal 5 100) (of_Z 0)
      "time" "VaR" "Sharpe" (decimal 1 100) (of_Z 2) (decimal 5 100)
      (decimal 1 10) (decimal 1 10) "hist" "hist" (decimal 94 100) 1%float
      0%float "D" 252)
    as Hmeasure.
  destruct (Hmeasure ltac:(repeat constructor) eq_refl eq_refl)
    as (Hraise & _).
  exact (Hraise eq_refl).
Defined.

(** X4 on a target return of a tenth and monthly returns. *)
Lemma target_return_lower_bound_witness :
  exists port args,
    mean_risk_problem Sample.infeasible ["A"; "B"] "3y" "2019" "2022" false
      "m" (decimal 5 100) (of_Z 0) "time" "MV" "Sharpe" (decimal 1 100)
      (of_Z 2) (decimal 5 100) (decimal 1 10) (of_Z (-1)) "hist" "hist"
      (decimal 94 100) 1%float 0%float
    = Ok (port, args) /\
    port !! "lowerret"
    = Some (VFloat (PrimFloat.div (decimal 1 10) 12%float)).
Proof.
  pose proof
    (@target_return_lower_bound float Binary64.float_ops Sample.infeasible
      ["A"; "B"] "3y" "2019" "2022" false "m" (decimal 5 100) (of_Z 0)
      "time" "MV" "Sharpe" (decimal 1 100) (of_Z 2) (decimal 5 100)
      (decimal 1 10) (of_Z (-1)) "hist" "hist" (decimal 94 100) 1%float
      0%float None "A" (of_Z 1) "M" 12)
    as Hbound.
  destruct (Hbound ltac:(repeat constructor) eq_refl) as (Hmean_risk & _).
  do 2 eexists. split; [reflexivity |].
  exact (Hmean_risk _ _ eq_refl).
Defined.

(** X5 on a rate of one percent and daily returns. *)
Lemma risk_free_rate_per_period_witness :
  exists port args,
    mean_risk_problem Sample.infeasible ["A"; "B"] "3y" "2019" "2022" false
      "d" (decimal 5 100) (of_Z 0) "time" "MV" "Sharpe" (decimal 1 100)
      (of_Z 2) (decimal 5 100) (decimal 1 10) (of_Z (-1)) "hist" "hist"
      (decimal 94 100) 1%float 0%float
    = Ok (port, args) /\
    opt_rf args = PrimFloat.div (decimal 1 100) 252%float.
Proof.
  pose proof
    (@risk_free_rate_per_period float Binary64.float_ops Sample.infeasible
      ["A"; "B"] "3y" "2019" "2022" false "d" (decimal 5 100) (of_Z 0)
      "time" "MV" "Sharpe" (decimal 1 100) (of_Z 2) (decimal 5 100)
      (decimal 1 10) (of_Z (-1)) "hist" "hist" (decimal 94 100) 1%float
      0%float None "D" 252)
    as Hrate.
  destruct (Hrate ltac:(repeat constructor) eq_refl) as (Hmean_risk & _).
  do 2 eexists. split; [reflexivity |].
  exact (Hmean_risk _ _ eq_refl).
Defined.

(** X6 on the sample estimation, whose covariance is the returns. *)
Lemma max_decorrelation_call_witness :
  exists port,
    max_decorrelation_problem Sample.infeasible ["A"; "B"] "3y" "2019"
      "2022" false "D" (decimal 5 100) (of_Z 0) "time" "hist"
      (decimal 94 100) 1%float 0%float
    = Ok (port,
          {| opt_model := "Classic"; opt_rm := "MV"; opt_obj := "MinRisk";
             opt_rf := of_Z 0; opt_l := None; opt_hist := true |}) /\
    port !! "cov" = Some (VFrame Sample.returns).
Proof.
  pose proof
    (@max_decorrelation_call float Binary64.float_ops Sample.infeasible
      ["A"; "B"] "3y" "2019" "2022" false "D" (decimal 5 100) (of_Z 0)
      "time" "hist" (decimal 94 100) 1%float 0%float (VFrame Sample.returns))
    as Hcall.
  destruct (Hcall eq_refl) as (port & Hok & Hcov & _).
  exists port. split; [exact Hok | exact Hcov].
Defined.

(** X7 on a short budget of minus a half. *)
Lemma short_budget_is_ignored_witness :
  exists port args,
    max_diversification_problem Sample.infeasible ["A"; "B"] "3y" "2019"
      "2022" false "D" (decimal 5 100) (of_Z 0) "time" "hist"
      (decimal 94 100) 1%float (-0.5)%float
    = Ok (port, args) /\
    port !! "budget" = Some (VFloat 1%float) /\
    port !! "sht" = Some (VBool false).
Proof.
  pose proof
    (@short_budget_is_ignored float Binary64.float_ops Sample.infeasible
      ["A"; "B"] "3y" "2019" "2022" false "D" (decimal 5 100) (of_Z 0)
      "time" "MV" "Sharpe" (decimal 1 100) (of_Z 2) (decimal 5 100)
      (decimal 1 10) (of_Z (-1)) "hist" "hist" (decimal 94 100) 1%float
      (-0.5)%float)
    as Hshort.
  destruct (Hshort eq_refl) as (_ & Hdiversification & _).
  do 2 eexists. split; [reflexivity |].
  destruct (Hdiversification _ _ eq_refl) as (Hbudget & Hsht & _).
  split; [exact Hbudget | exact Hsht].
Defined.

(** X8 on the linkage [dbht] and weekly returns. *)
Lemma hcp_call_witness :
  exists port args,
    hcp_problem Sample.infeasible ["A"; "B"] "3y" "2019" "2022" false "w"
      (decimal 5 100) (of_Z 0) "time" "HRP" "pearson" "hist" "Sharpe" "MV"
      (decimal 1 100) (of_Z 2) (decimal 5 100) 100 None None "dbht" 0 10
      "KN" (decimal 5 100) true (decimal 94 100)
    = Ok (port, args) /\
    hc_linkage args = "DBHT" /\
    hc_rf args = PrimFloat.div (decimal 1 100) 52%float.
Proof.
  pose proof
    (@hcp_call float Binary64.float_ops Sample.infeasible ["A"; "B"] "3y"
      "2019" "2022" false "w" (decimal 5 100) (of_Z 0) "time" "MV" "Sharpe"
      (decimal 1 100) (of_Z 2) (decimal 5 100) "hist" (decimal 94 100) "HRP"
      "pearson" 100 None None "dbht" 0 10 "KN" (decimal 5 100) true "W" 52)
    as Hcall.
  do 2 eexists.
  split; [exact (Hcall ltac:(repeat constructor) eq_refl) |].
  split; reflexivity.
Defined.

(** X9 on an answer of a third and two thirds to risk parity, with a
    thousand to invest. *)
Lemma weights_of_an_answer_witness :
  exists weights,
    get_risk_parity_portfolio
      (Sample.answering [("A", decimal 1 3); ("B", decimal 2 3)])
      ["A"; "B"] "3y" "2019" "2022" false "D" (decimal 5 100) (of_Z 0)
      "time" "MV" None (decimal 1 100) (decimal 5 100) (decimal 1 10) "hist"
      "hist" (decimal 94 100) 1000%float
    = Ok (Some weights,
          Some (stock_returns
                  (Sample.answering [("A", decimal 1 3); ("B", decimal 2 3)])
                  ["A"; "B"] "3y" "2019" "2022" false "D" (decimal 5 100)
                  (of_Z 0) "time")) /\
    weights !! "A" = Some (decimal 33333333 100000 : float) /\
    weights !! "C" = None.
Proof.
  pose proof
    (@weights_of_an_answer float Binary64.float_ops
      (Sample.answering [("A", decimal 1 3); ("B", decimal 2 3)])
      ["A"; "B"] "3y" "2019" "2022" false "D" (decimal 5 100) (of_Z 0)
      "time" "MV" "Sharpe" (decimal 1 100) (of_Z 2) (decimal 5 100)
      (decimal 1 10) (of_Z (-1)) "hist" "hist" (decimal 94 100) 1000%float
      0%float None "A" (of_Z 1) "HRP" "pearson" 100 None None "single" 0 10
      "KN" (decimal 5 100) true
      [("A", decimal 1 3); ("B", decimal 2 3)])
    as Hweights.
  destruct Hweights as (_ & _ & _ & Hparity & _).
  - distinct_strings.
  - discriminate.
  - destruct (Hparity _ _ eq_refl eq_refl) as (weights & Hrun & Hin & Hout).
    exists weights. split; [exact Hrun |]. split.
    + exact (Hin "A" (decimal 1 3) ltac:(repeat constructor)).
    + apply Hout. cbn. intros Hc. in_list Hc; discriminate.
Defined.

(** X10 on a universe of one asset. *)
Lemma single_row_answer_raises_witness :
  get_max_diversification_portfolio (Sample.answering [("A", 1%float)])
    ["A"] "3y" "2019" "2022" false "D" (decimal 5 100) (of_Z 0) "time"
    "hist" (decimal 94 100) 1%float 0%float
  = Raise (AttributeError "to_dict").
Proof.
  pose proof
    (@single_row_answer_raises float Binary64.float_ops
      (Sample.answering [("A", 1%float)]) ["A"] "3y" "2019" "2022" false "D"
      (decimal 5 100) (of_Z 0) "time" "MV" "Sharpe" (decimal 1 100) (of_Z 2)
      (decimal 5 100) (decimal 1 10) (of_Z (-1)) "hist" "hist"
      (decimal 94 100) 1%float 0%float None "A" (of_Z 1) "HRP" "pearson" 100
      None None "single" 0 10 "KN" (decimal 5 100) true "A" 1%float)
    as Hraise.
  destruct Hraise as (_ & Hdiversification & _).
  exact (Hdiversification _ _ eq_refl eq_refl).
Defined.

(** X11 on two tickers of market capitalisation 3 and 1. *)
Lemma property_weights_values_witness :
  exists weights,
    get_property_weights Sample.infeasible ["A"; "B"] "3y" "2019" "2022"
      false "D" (decimal 5 100) (of_Z 0) "time" "marketCap" 1%float
    = Ok (Some weights,
          Some (stock_returns Sample.infeasible ["A"; "B"] "3y" "2019"
                  "2022" false "D" (decimal 5 100) (of_Z 0) "time")) /\
    weights !! "A" = Some 0.75%float /\
    weights !! "C" = None.
Proof.
  pose proof
    (@property_weights_values float Binary64.float_ops Sample.infeasible
      ["A"; "B"] "3y" "2019" "2022" false "D" (decimal 5 100) (of_Z 0)
      "time" 1%float "marketCap")
    as Hvalues.
  destruct Hvalues as (weights & Hok & Hlookup).
  - intros stock _. cbn. unfold Sample.caps.
    destruct (bool_decide (stock = "A")); eauto.
  - reflexivity.
  - exists weights. split; [exact Hok |].
    split; [exact (Hlookup "A") | exact (Hlookup "C")].
Defined.

(** X12 on a provider without the attribute. *)
Lemma property_weights_missing_attribute_witness :
  get_property_weights (Sample.env (F := float) (fun _ => None) None)
    ["A"; "B"] "3y" "2019" "2022" false "D" (decimal 5 100) (of_Z 0) "time"
    "marketCap" 1%float
  = Raise (KeyError "marketCap").
Proof.
  exact
    (@property_weights_missing_attribute float Binary64.float_ops
      (Sample.env (F := float) (fun _ => None) None) ["A"; "B"] "3y" "2019"
      "2022" false "D" (decimal 5 100) (of_Z 0) "time" 1%float "marketCap"
      "B"
      ltac:(repeat constructor) eq_refl).
Defined.

(** X13 on two tickers, seven portfolios and a thousand to invest: the
    seventh column holds the thousand in the first asset. *)
Lemma random_portfolios_unit_columns_witness :
  exists table row,
    generate_random_portfolios Sample.infeasible ["A"; "B"] 7 123 1000%float
    = Ok table /\
    values table !! 0%nat = Some row /\
    row !! 6%nat = Some 1000%float.
Proof.
  exact
    (@random_portfolios_unit_columns float Binary64.float_ops
      Sample.infeasible ["A"; "B"] 1000%float 7 123 2%Z
      123%Z 124%Z 125%Z 126%Z
      [[0.5; 0.5]; [0.5; 0.5]]%float
      [[0.5; 0.5]; [0.5; 0.5]]%float
      [[0.5; 0.5]; [0.5; 0.5]]%float
      0%nat 0%nat
      (sample_dirichlet_shape Sample.caps None) eq_refl eq_refl eq_refl
      eq_refl eq_refl ltac:(cbn; lia) ltac:(cbn; lia)).
Defined.

(** X14 on a request of minus two portfolios. *)
Lemma few_random_portfolios_witness :
  exists table,
    generate_random_portfolios Sample.infeasible ["A"; "B"] (-2) 123 1%float
    = Ok table /\
    length (columns table) = 2%nat /\
    values table = [[1; 0]; [0; 1]]%float.
Proof.
  destruct
    (@few_random_portfolios float Binary64.float_ops Sample.infeasible
      ["A"; "B"] 1%float (-2) 123 123%Z 124%Z 125%Z 126%Z [] [] []
      (sample_dirichlet_shape Sample.caps None) ltac:(lia)
      eq_refl eq_refl eq_refl eq_refl)
    as (table & Hrun & Hcolumns & _).
  exists table. split; [exact Hrun |]. split; [exact Hcolumns |].
  injection Hrun as <-. reflexivity.
Defined.

(** X19 on the estimated mean. *)
Lemma mean_risk_writes_only_witness :
  exists port args,
    mean_risk_problem Sample.infeasible ["A"; "B"] "3y" "2019" "2022" false
      "D" (decimal 5 100) (of_Z 0) "time" "MV" "Sharpe" (decimal 1 100)
      (of_Z 2) (decimal 5 100) (decimal 1 10) (of_Z (-1)) "hist" "hist"
      (decimal 94 100) 1%float 0%float
    = Ok (port, args) /\
    port !! "mu" = Some (VFrame Sample.returns).
Proof.
  do 2 eexists. split; [reflexivity |].
  etransitivity; [| reflexivity].
  eapply
    (@mean_risk_writes_only float Binary64.float_ops Sample.infeasible
      ["A"; "B"] "3y" "2019" "2022" false "D" (decimal 5 100) (of_Z 0)
      "time" "MV" "Sharpe" (decimal 1 100) (of_Z 2) (decimal 5 100)
      (decimal 1 10) (of_Z (-1)) "hist" "hist" (decimal 94 100) 1%float
      0%float _ _ "mu").
  - reflexivity.
  - intros Hin. in_list Hin; discriminate.
  - discriminate.
Defined.

(** X15 on two tickers of market capitalisation 3 and 1. *)
Lemma property_weights_total_witness :
  exists weights,
    get_property_weights (Sample.env (F := R) Sample.caps None) ["A"; "B"]
      "3y" "2019" "2022" false "D" (decimal 5 100) (of_Z 0) "time"
      "marketCap" 1%R
    = Ok (Some weights,
          Some (stock_returns (Sample.env (F := R) Sample.caps None)
                  ["A"; "B"] "3y" "2019" "2022" false "D" (decimal 5 100)
                  (of_Z 0) "time")) /\
    dict_total weights = 1%R.
Proof.
  apply property_weights_total.
  - distinct_strings.
  - intros stock _. cbn. unfold Sample.caps.
    destruct (bool_decide (stock = "A")); eauto.
  - cbn. unfold Sample.caps.
    repeat case_bool_decide; try congruence. cbn. lra.
Defined.

(** X16 on three tickers. *)
Lemma equal_weights_total_witness :
  exists weights,
    get_equal_weights (Sample.env (F := R) Sample.caps None) ["A"; "B"; "C"]
      "3y" "2019" "2022" false "D" (decimal 5 100) (of_Z 0) "time" 1%R
    = Ok (Some weights,
          Some (stock_returns (Sample.env (F := R) Sample.caps None)
                  ["A"; "B"; "C"] "3y" "2019" "2022" false "D"
                  (decimal 5 100) (of_Z 0) "time")) /\
    (Rabs (dict_total weights - 1) <= Rabs 1 * INR 3 / 200000)%R.
Proof.
  apply equal_weights_total.
  - distinct_strings.
  - discriminate.
Defined.

(** X17 on the contributions 25 and 75, which are those of 1 and 3. *)
Lemma risk_contributions_are_proportions_witness :
  normalise_risk_cont ((fun x => 25 * x)%R <$> [1; 3]%R)
  = normalise_risk_cont [1; 3]%R.
Proof.
  apply risk_contributions_are_proportions.
  - lra.
  - cbn. lra.
Defined.
